(** * linux-ai-assistant: a shallow embedding of the failure-analysis pipeline

    The development follows the modules of the refactored package
    (ai_companion/analyzers, core, providers, app) and the hook script
    generated by shell/integration.py; of the single-file version
    (ai_companion.py) it has the dedup logic of [analyze_error_sync].

    Conventions.
    - A Python [str] is a [string]: the bytes of its UTF-8 encoding.  All
      needles searched for in the sources are ASCII, and UTF-8 is
      self-synchronising, so [in] and [startswith] on code points agree
      with the byte-level functions below.
    - A Python [int] is a [Z]; formatted with [pretty], which prints the
      decimal digits with a leading minus sign, as [str(int)] does.
    - A time stamp ([time.time()], a float number of seconds) is an exact
      rational [Q]; rounding of floating-point subtraction is not modelled.
    - Readings of the outside world (clock, working directory, sub-processes,
      HTTP exchange) are arguments of the functions that perform them. *)

From Stdlib Require Import ZArith QArith Lqa Ascii String List Lia Sorted.
From stdpp Require Import base strings list gmap pretty.

Open Scope string_scope.
Open Scope list_scope.
Open Scope Z_scope.

(** ** Python built-ins used by the sources *)

(** [s.startswith(p)] *)
Definition startswith (s p : string) : bool := String.prefix p s.

(** [s.startswith((p1, ..., pn))] *)
Definition startswith_any (s : string) (ps : list string) : bool :=
  existsb (startswith s) ps.

(** [needle in hay] on strings *)
Fixpoint str_in (needle hay : string) : bool :=
  String.prefix needle hay ||
  match hay with
  | EmptyString => false
  | String _ rest => str_in needle rest
  end.

(** [x in l] on lists of strings *)
Definition list_in (x : string) (l : list string) : bool := bool_decide (x ∈ l).

(** [l[k:]]: a negative [k] counts from the end, and the start is clamped
    to the bounds of the list. *)
Definition slice_from {A} (k : Z) (l : list A) : list A :=
  let n := Z.of_nat (length l) in
  let start := if k <? 0 then Z.max (n + k) 0 else Z.min k n in
  drop (Z.to_nat start) l.

(** [sep.join(l)] *)
Fixpoint join (sep : string) (l : list string) : string :=
  match l with
  | [] => ""
  | [x] => x
  | x :: rest => x +:+ sep +:+ join sep rest
  end.

(** ** analyzers/command_history.py *)

Record CommandInfo := {
  command : string;
  exit_code : Z;
  output : string;
  error : string;
  timestamp : Q;
  cwd : string
}.

Record CommandHistoryAnalyzer := {
  max_history : Z;
  command_history : list CommandInfo
}.

(** [CommandHistoryAnalyzer.__init__], [max_history] defaulting to 100 *)
Definition CommandHistoryAnalyzer_init (max : Z) : CommandHistoryAnalyzer :=
  {| max_history := max; command_history := [] |}.

(** [add_command]: append, then cut to [h[-max_history//2:]] once the list
    is longer than [max_history].  Unary minus binds tighter than [//], so
    the slice index is [(-max_history) // 2], rounded towards minus
    infinity as [Z.div] does. *)
Definition add_command (self : CommandHistoryAnalyzer) (command_info : CommandInfo)
  : CommandHistoryAnalyzer :=
  let h := command_history self ++ [command_info] in
  if Z.of_nat (length h) >? max_history self
  then {| max_history := max_history self;
          command_history := slice_from ((- max_history self) / 2) h |}
  else {| max_history := max_history self; command_history := h |}.

(** [should_analyze_command] *)
Definition should_analyze_command (command : string) (exit_code : Z) : bool :=
  if exit_code =? 130 then false
  else if startswith_any command ["return"; "local"; "set"; "export"]
          || (str_in "python3" command && str_in "--monitor" command)
          || str_in "_ai_companion" command
          || startswith command "history"
  then false
  else true.

(** ** core/system_info.py: project type of a directory listing *)

(** The dict literal of [_identify_project_type]; a Python dict iterates in
    insertion order, so the table is an association list. *)
Definition key_indicators : list (string * list string) :=
  [ ("python", ["requirements.txt"; "setup.py"; "pyproject.toml"; "main.py"]);
    ("node", ["package.json"; "node_modules"]);
    ("web", ["index.html"; "index.php"]);
    ("docker", ["Dockerfile"; "docker-compose.yml"]);
    ("git", [".git"]);
    ("config", ["nginx.conf"; "apache.conf"; ".env"]) ].

(** The loop over the table: the first entry with an indicator among
    [files] decides, and extends the caller's [key_files] list. *)
Fixpoint identify_in (table : list (string * list string))
    (files key_files : list string) : string * list string :=
  match table with
  | [] => ("unknown", key_files)
  | (project_type, indicators) :: rest =>
      let found_indicators := List.filter (fun f => list_in f files) indicators in
      match found_indicators with
      | [] => identify_in rest files key_files
      | _ :: _ => (project_type, key_files ++ found_indicators)
      end
  end.

(** [_identify_project_type(files, key_files)]: the returned type, and
    [key_files] as the call leaves it. *)
Definition _identify_project_type (files key_files : list string)
  : string * list string :=
  identify_in key_indicators files key_files.

(** ** analyzers/error_analyzer.py: the dedup state *)

Record ErrorAnalyzer := {
  last_analyzed_command : option string;   (* None until the first analysis *)
  last_analyzed_time : Q
}.

(** [ErrorAnalyzer.__init__] *)
Definition ErrorAnalyzer_init : ErrorAnalyzer :=
  {| last_analyzed_command := None; last_analyzed_time := 0%Q |}.

(** The f-string [f"{command}_{exit_code}"] *)
Definition command_key (command : string) (exit_code : Z) : string :=
  command +:+ "_" +:+ pretty exit_code.

(** [ContextAnalyzer.should_analyze_error] delegates to the history analyzer. *)
Definition should_analyze_error (command : string) (exit_code : Z) : bool :=
  should_analyze_command command exit_code.

(** [_should_analyze], with [current_time] the reading of [time.time()].
    The method assigns to no attribute of [self]: it only answers. *)
Definition _should_analyze (self : ErrorAnalyzer) (command : string)
    (exit_code : Z) (current_time : Q) : bool :=
  if bool_decide (last_analyzed_command self = Some (command_key command exit_code))
     && (if Qlt_le_dec (current_time - last_analyzed_time self) 5 then true else false)
  then false
  else should_analyze_error command exit_code.

(** [_update_analysis_cache], with [current_time] its own reading of the clock *)
Definition _update_analysis_cache (self : ErrorAnalyzer) (command : string)
    (exit_code : Z) (current_time : Q) : ErrorAnalyzer :=
  {| last_analyzed_command := Some (command_key command exit_code);
     last_analyzed_time := current_time |}.

(** ** Exceptions *)

(** An exception of class [Exception] or below: its class name and
    [str(e)].  [KeyboardInterrupt] and [SystemExit] are not instances of
    [Exception] and are no values of this type; no handler of the sources
    that names [Exception] catches them. *)
Record exn := Exn { exn_class : string; exn_str : string }.

(** The outcome of evaluating Python code that may raise *)
Inductive result (A : Type) : Type :=
| Ok (a : A)
| Raise (e : exn).
Arguments Ok {A} a.
Arguments Raise {A} e.

Definition bind {A B} (r : result A) (k : A -> result B) : result B :=
  match r with
  | Ok a => k a
  | Raise e => Raise e
  end.

Notation "x <- r ;; k" := (bind r (fun x => k))
  (at level 100, r at next level, right associativity).

(** [try: body / except Exception as e: handler(e)] *)
Definition try_except {A} (body : result A) (handler : exn -> result A) : result A :=
  match body with
  | Ok a => Ok a
  | Raise e => handler e
  end.

Definition ValueError (msg : string) : exn := Exn "ValueError" msg.
Definition TypeError (msg : string) : exn := Exn "TypeError" msg.
Definition KeyError (key : string) : exn := Exn "KeyError" ("'" +:+ key +:+ "'").
Definition IndexError (msg : string) : exn := Exn "IndexError" msg.
Definition AttributeError (msg : string) : exn := Exn "AttributeError" msg.

(** ** core/config.py *)

Record AIServiceConfig := {
  type : string;
  base_url : string;
  model : string;
  api_key : option string;     (* Optional[str] *)
  timeout : Z
}.

(** [AIServiceConfig(...)] with the checks of [__post_init__]; the empty
    string is the falsy [str]. *)
Definition AIServiceConfig_new (c : AIServiceConfig) : result AIServiceConfig :=
  if bool_decide (type c = "") || bool_decide (base_url c = "") || bool_decide (model c = "")
  then Raise (ValueError "type, base_url, model 字段不能为空")
  else if timeout c <=? 0
  then Raise (ValueError "timeout 必须大于0")
  else Ok c.

Record FeatureConfig := {
  auto_error_analysis : bool;
  command_suggestion : bool;
  context_aware : bool;
  chinese_help : bool
}.

(** The loaded [_config] dict.  Each entry of [ai_services] is a dict with
    the five keys of [AIServiceConfig]; the key [active_ai_service] may be
    absent; [features] holds the four flags, a missing one at its default. *)
Record ConfigManager := {
  ai_services : gmap string AIServiceConfig;
  active_ai_service : option string;
  features : FeatureConfig
}.

(** [get_active_ai_service] *)
Definition get_active_ai_service (self : ConfigManager) : result AIServiceConfig :=
  let active_service_name := default "default" (active_ai_service self) in
  match ai_services self !! active_service_name with
  | None => Raise (ValueError ("未找到AI服务配置: " +:+ active_service_name))
  | Some service_dict => AIServiceConfig_new service_dict
  end.

(** [get_features] *)
Definition get_features (self : ConfigManager) : FeatureConfig := features self.

(** ** Text: characters, case and white space *)

Definition LF : string := String (ascii_of_N 10) "".

Definition byte_of (a : ascii) : N := N_of_ascii a.

(** The string with the given bytes *)
Definition of_bytes (l : list N) : string :=
  string_of_list_ascii (map ascii_of_N l).

(** A byte [10xxxxxx] continues a multi-byte UTF-8 sequence. *)
Definition is_continuation (a : ascii) : bool :=
  (128 <=? byte_of a)%N && (byte_of a <? 192)%N.

(** The characters of a text: each lead byte with the continuation bytes
    that follow it.  [chars_aux] scans from the right and returns the
    continuation bytes still waiting for their lead byte. *)
Fixpoint chars_aux (s : string) : string * list string :=
  match s with
  | EmptyString => ("", [])
  | String a rest =>
      let '(pending, cs) := chars_aux rest in
      if is_continuation a then (String a pending, cs)
      else ("", String a pending :: cs)
  end.

Definition chars (s : string) : list string :=
  let '(pending, cs) := chars_aux s in
  match pending with
  | EmptyString => cs
  | _ => pending :: cs
  end.

Definition concat_str (l : list string) : string := foldr String.append "" l.

(** [s[:n]] for [n >= 0], counted in characters *)
Definition take_chars (n : nat) (s : string) : string := concat_str (take n (chars s)).

(** [str.lower()].  Only A-Z are lowered here.  For the dictionary lookup
    of the provider factory this is what Python computes as well: a
    non-ASCII character lowers to non-ASCII text, except the Kelvin sign,
    which lowers to k, and no supported type name contains a k. *)
Definition lower_ascii (a : ascii) : ascii :=
  if (65 <=? byte_of a)%N && (byte_of a <=? 90)%N
  then ascii_of_N (byte_of a + 32) else a.

Fixpoint lower (s : string) : string :=
  match s with
  | EmptyString => EmptyString
  | String a rest => String (lower_ascii a) (lower rest)
  end.

(** The characters for which [str.isspace()] holds, in UTF-8: U+0009 to
    U+000D, U+001C to U+0020, U+0085, U+00A0, U+1680, U+2000 to U+200A,
    U+2028, U+2029, U+202F, U+205F and U+3000. *)
Definition whitespace : list string :=
  map of_bytes
    ([ [9]; [10]; [11]; [12]; [13]; [28]; [29]; [30]; [31]; [32];
       [194; 133]; [194; 160]; [225; 154; 128] ]
     ++ map (fun b => [226; 128; b]) [128; 129; 130; 131; 132; 133; 134; 135; 136; 137; 138]
     ++ [ [226; 128; 168]; [226; 128; 169]; [226; 128; 175]; [226; 129; 159];
          [227; 128; 128] ])%N.

Definition is_space (c : string) : bool := bool_decide (c ∈ whitespace).

Fixpoint drop_while {A} (p : A -> bool) (l : list A) : list A :=
  match l with
  | [] => []
  | x :: rest => if p x then drop_while p rest else l
  end.

(** [s.strip()] *)
Definition strip (s : string) : string :=
  concat_str (rev (drop_while is_space (rev (drop_while is_space (chars s))))).

(** [s.rstrip(c)] for a one-character [c] *)
Definition rstrip_char (c : string) (s : string) : string :=
  concat_str (rev (drop_while (String.eqb c) (rev (chars s)))).

(** [s.split(sep)] for a one-byte separator: never the empty list. *)
Fixpoint split_on (sep : ascii) (s : string) : list string :=
  match s with
  | EmptyString => [""]
  | String a rest =>
      if Ascii.eqb a sep then "" :: split_on sep rest
      else match split_on sep rest with
           | piece :: pieces => String a piece :: pieces
           | [] => [String a ""]
           end
  end.

(** [s.split()]: the maximal runs of characters that are not white space *)
Fixpoint words_of (cs : list string) (word : string) : list string :=
  match cs with
  | [] => match word with EmptyString => [] | _ => [word] end
  | c :: rest =>
      if is_space c
      then match word with
           | EmptyString => words_of rest ""
           | _ => word :: words_of rest ""
           end
      else words_of rest (word +:+ c)
  end.

Definition split_whitespace (s : string) : list string := words_of (chars s) "".

(** [l[i]] for [i >= 0] *)
Definition index {A} (l : list A) (i : nat) : result A :=
  match l !! i with
  | Some x => Ok x
  | None => Raise (IndexError "list index out of range")
  end.

(** ** providers/ai_provider.py *)

#[local] Set Warnings "-register-all".

(** A value returned by [json.loads].  An object lists the items of the
    parsed dict, every key once. *)
Inductive json :=
| JNull
| JBool (b : bool)
| JInt (n : Z)
| JFloat (q : Q)
| JStr (s : string)
| JArr (items : list json)
| JObj (members : list (string * json)).

Definition type_name (v : json) : string :=
  match v with
  | JNull => "NoneType"
  | JBool _ => "bool"
  | JInt _ => "int"
  | JFloat _ => "float"
  | JStr _ => "str"
  | JArr _ => "list"
  | JObj _ => "dict"
  end.

Fixpoint assoc {A} (k : string) (l : list (string * A)) : option A :=
  match l with
  | [] => None
  | (k', v) :: rest => if String.eqb k k' then Some v else assoc k rest
  end.

Definition not_subscriptable (v : json) : exn :=
  TypeError ("'" +:+ type_name v +:+ "' object is not subscriptable").

(** [v[key]] with a [str] key *)
Definition subscript_key (v : json) (key : string) : result json :=
  match v with
  | JObj members =>
      match assoc key members with
      | Some x => Ok x
      | None => Raise (KeyError key)
      end
  | JArr _ => Raise (TypeError "list indices must be integers or slices, not str")
  | JStr _ => Raise (TypeError "string indices must be integers, not 'str'")
  | _ => Raise (not_subscriptable v)
  end.

(** [v[0]] *)
Definition subscript_0 (v : json) : result json :=
  match v with
  | JArr items => index items 0
  | JStr s =>
      match chars s with
      | c :: _ => Ok (JStr c)
      | [] => Raise (IndexError "string index out of range")
      end
  | JObj _ => Raise (Exn "KeyError" "0")      (* the keys of a parsed object are strings *)
  | _ => Raise (not_subscriptable v)
  end.

Definition no_attribute (v : json) (name : string) : exn :=
  AttributeError ("'" +:+ type_name v +:+ "' object has no attribute '" +:+ name +:+ "'").

(** [v.strip()] *)
Definition method_strip (v : json) : result string :=
  match v with
  | JStr s => Ok (strip s)
  | _ => Raise (no_attribute v "strip")
  end.

(** [v.get(key, '')] *)
Definition method_get (v : json) (key : string) : result json :=
  match v with
  | JObj members => Ok (default (JStr "") (assoc key members))
  | _ => Raise (no_attribute v "get")
  end.

Definition is_JStr (s : string) (v : json) : bool :=
  match v with
  | JStr s' => String.eqb s s'
  | _ => false
  end.

(** [key in v] with a [str] key *)
Definition contains_key (key : string) (v : json) : result bool :=
  match v with
  | JObj members => Ok (bool_decide (is_Some (assoc key members)))
  | JArr items => Ok (existsb (is_JStr key) items)
  | JStr s => Ok (str_in key s)
  | _ => Raise (TypeError ("argument of type '" +:+ type_name v +:+ "' is not iterable"))
  end.

(** A request as [_http_request] receives it *)
Record request := {
  url : string;
  data : json;
  headers : list (string * option string);    (* a header value may be [None] *)
  request_timeout : Z
}.

(** What happens inside the [try] of [_http_request]. *)
Inductive exchange :=
| Responded (status : Z) (body : result string)
    (* [urlopen] returns; [response.read().decode('utf-8')] yields [body] *)
| HTTPError (code : Z) (fp_body : option (result string)) (message : string)
    (* [urlopen] raises [HTTPError] [e] with [str(e) = message]; with a body
       ([e.fp]), [e.read().decode('utf-8')] yields it *)
| Failed (e : exn).
    (* any other [Exception]: bad URL, refused connection, time-out *)

(** The dict returned by [_http_request]; ['error'] is present in the two
    failure shapes only. *)
Record response := {
  status_code : Z;
  content : string;
  error_key : option string
}.

Inductive provider_class := OpenAIProvider | OllamaProvider | AnthropicProvider.

Record AIProvider := {
  provider : provider_class;
  config : AIServiceConfig
}.

(** [AIProviderFactory.providers] *)
Definition providers : list (string * provider_class) :=
  [ ("openai", OpenAIProvider);
    ("ollama", OllamaProvider);
    ("anthropic", AnthropicProvider);
    ("custom", OpenAIProvider) ].

(** [AIProviderFactory.create_provider]; a class is truthy, so the error
    branch is exactly the failed lookup. *)
Definition create_provider (config : AIServiceConfig) : result AIProvider :=
  match assoc (lower (type config)) providers with
  | None => Raise (ValueError ("不支持的AI服务类型: " +:+ type config))
  | Some provider_class => Ok {| provider := provider_class; config := config |}
  end.

(** [AIProviderFactory.get_supported_types] *)
Definition get_supported_types : list string := map fst providers.

(** [f"{x}"] for an [Optional[str]] *)
Definition format_optional (x : option string) : string := default "None" x.

Section Transport.

(** The world outside the process. *)
Variable urlopen : request -> exchange.
(** [json.loads] *)
Variable json_loads : string -> result json.
(** [str(v)] for a parsed value that is no [str] *)
Variable py_repr : json -> string.

(** [f"{v}"] *)
Definition format_value (v : json) : string :=
  match v with
  | JStr s => s
  | _ => py_repr v
  end.

(** [AIProvider._http_request].  An exception raised inside the handler of
    [HTTPError] is not caught by the handler next to it. *)
Definition _http_request (url : string) (data : json)
    (headers : list (string * option string)) (timeout : Z) : result response :=
  match urlopen {| url := url; data := data; headers := headers;
                   request_timeout := timeout |} with
  | Responded status (Ok body) =>
      Ok {| status_code := status; content := body; error_key := None |}
  | Responded _ (Raise e) | Failed e =>
      Ok {| status_code := 0; content := ""; error_key := Some (exn_str e) |}
  | HTTPError code None message =>
      Ok {| status_code := code; content := ""; error_key := Some message |}
  | HTTPError code (Some (Ok body)) message =>
      Ok {| status_code := code; content := body; error_key := Some message |}
  | HTTPError code (Some (Raise e)) message => Raise e
  end.

(** The inner [try] of the failure branch of [OpenAIProvider.call_api];
    its bare [except] appends the head of the raw body. *)
Definition openai_error_detail (error_info : string) (response : response) : string :=
  match
    (error_content <- json_loads (content response) ;;
     has_error <- contains_key "error" error_content ;;
     if has_error : bool then
       err <- subscript_key error_content "error" ;;
       message <- method_get err "message" ;;
       Ok (error_info +:+ " - " +:+ format_value message)
     else Ok error_info)
  with
  | Ok info => info
  | Raise _ => error_info +:+ " - Response: " +:+ take_chars 200 (content response)
  end.

(** [OpenAIProvider.call_api] *)
Definition OpenAIProvider_call_api (config : AIServiceConfig) (prompt : string)
  : result string :=
  try_except
    (let headers :=
       [ ("Content-Type", Some "application/json");
         ("Authorization", Some ("Bearer " +:+ format_optional (api_key config))) ] in
     let data :=
       JObj [ ("model", JStr (model config));
              ("messages", JArr [JObj [("role", JStr "user"); ("content", JStr prompt)]]);
              ("max_tokens", JInt 500);
              ("temperature", JFloat (7 # 10)) ] in
     response <- _http_request (base_url config) data headers (timeout config) ;;
     if status_code response =? 200 then
       result <- json_loads (content response) ;;
       choices <- subscript_key result "choices" ;;
       choice <- subscript_0 choices ;;
       message <- subscript_key choice "message" ;;
       text <- subscript_key message "content" ;;
       method_strip text
     else
       let error_info := "API调用失败: " +:+ pretty (status_code response) in
       let error_info :=
         match error_key response with
         | Some e => error_info +:+ " - " +:+ e
         | None => error_info
         end in
       Ok (if bool_decide (content response = "") then error_info
           else openai_error_detail error_info response))
    (fun e => Ok ("API调用失败: " +:+ exn_str e)).

(** [OllamaProvider.call_api] *)
Definition OllamaProvider_call_api (config : AIServiceConfig) (prompt : string)
  : result string :=
  try_except
    (let data :=
       JObj [ ("model", JStr (model config));
              ("prompt", JStr prompt);
              ("stream", JBool false) ] in
     let headers := [ ("Content-Type", Some "application/json") ] in
     response <- _http_request (rstrip_char "/" (base_url config) +:+ "/api/generate")
                   data headers (timeout config) ;;
     if status_code response =? 200 then
       result <- json_loads (content response) ;;
       text <- subscript_key result "response" ;;
       method_strip text
     else
       Ok ("Ollama API调用失败: " +:+ pretty (status_code response)
           +:+ " - " +:+ content response))
    (fun e => Ok ("连接Ollama失败: " +:+ exn_str e)).

(** [AnthropicProvider.call_api] *)
Definition AnthropicProvider_call_api (config : AIServiceConfig) (prompt : string)
  : result string :=
  try_except
    (let headers :=
       [ ("Content-Type", Some "application/json");
         ("x-api-key", api_key config);
         ("anthropic-version", Some "2023-06-01") ] in
     let data :=
       JObj [ ("model", JStr (model config));
              ("max_tokens", JInt 500);
              ("messages", JArr [JObj [("role", JStr "user"); ("content", JStr prompt)]]) ] in
     response <- _http_request (base_url config) data headers (timeout config) ;;
     if status_code response =? 200 then
       result <- json_loads (content response) ;;
       blocks <- subscript_key result "content" ;;
       block <- subscript_0 blocks ;;
       text <- subscript_key block "text" ;;
       method_strip text
     else
       Ok ("Anthropic API调用失败: " +:+ pretty (status_code response)))
    (fun e => Ok ("Anthropic API调用失败: " +:+ exn_str e)).

(** [provider.call_api(prompt)], dispatched on the class of the instance *)
Definition call_api (p : AIProvider) (prompt : string) : result string :=
  match provider p with
  | OpenAIProvider => OpenAIProvider_call_api (config p) prompt
  | OllamaProvider => OllamaProvider_call_api (config p) prompt
  | AnthropicProvider => AnthropicProvider_call_api (config p) prompt
  end.

End Transport.

(** ** Vocabulary for the transport properties *)

(** The exchange did not deliver a well-formed answer: the request failed
    or timed out, the body could not be read, the status is not 200 (every
    non-2xx status is such a status, and [urlopen] raises [HTTPError] for
    those only), or the body of a 200 answer is not JSON. *)
Definition transport_failure (json_loads : string -> result json) (x : exchange) : Prop :=
  match x with
  | Failed _ => True
  | HTTPError code _ _ => code <> 200
  | Responded _ (Raise _) => True
  | Responded status (Ok body) =>
      status <> 200 \/ exists e, json_loads body = Raise e
  end.

(** The text starts with one of the error headings of the variant. *)
Definition reports_failure (cls : provider_class) (s : string) : bool :=
  match cls with
  | OpenAIProvider => startswith s "API调用失败: "
  | OllamaProvider => startswith s "Ollama API调用失败: " || startswith s "连接Ollama失败: "
  | AnthropicProvider => startswith s "Anthropic API调用失败: "
  end.

(** ** analyzers/context_analyzer.py and core/system_info.py: the context *)

Record SystemStatus := {
  cpu_percent : Q;
  memory_percent : Q;
  memory_total_gb : Q;
  memory_available_gb : Q;
  disk_percent : Q;
  disk_total_gb : Q;
  disk_free_gb : Q;
  processes : Z
}.

Record DirectoryInfo := {
  file_count : Z;
  has_hidden_files : bool;
  file_types : list (string * Z);
  project_type : string;
  key_files : list string
}.

Record GitInfo := {
  in_repo : bool;
  current_branch : option string;      (* Optional[str] *)
  has_changes : bool;
  changed_files : Z;
  recent_commits : option (list string)
}.

Record WorkPattern := {
  mode : string;
  activities : list string;
  suggestions : list string
}.

(** [FullContext]; its field [cwd] is [context_cwd] here, the name [cwd]
    being taken by [CommandInfo].  The dicts are lists of items in
    insertion order, the order in which [items()] yields them. *)
Record FullContext := {
  context_cwd : string;
  user : string;
  shell : string;
  os_info : string;
  system_status : SystemStatus;
  directory_info : DirectoryInfo;
  git_info : GitInfo;
  installed_tools : list (string * bool);
  running_services : list (string * bool);
  network_available : bool;
  recent_commands : list string;
  work_pattern : WorkPattern;
  command_patterns : list (string * Z)
}.

(** The dict literal of [analyze_command_sequence] *)
Definition sequence_patterns : list (string * list string) :=
  [ ("项目设置", ["git clone"; "cd"; "npm install"; "pip install"]);
    ("开发调试", ["python"; "node"; "npm run"; "git add"; "git commit"]);
    ("系统配置", ["sudo"; "systemctl"; "chmod"; "chown"]);
    ("文件操作", ["mkdir"; "cp"; "mv"; "rm"; "ls"]);
    ("网络调试", ["curl"; "wget"; "ping"; "netstat"]);
    ("容器操作", ["docker"; "docker-compose"]) ].

(** The loop of [analyze_command_sequence] over the table *)
Fixpoint first_sequence (table : list (string * list string))
    (recent_commands : list string) : string :=
  match table with
  | [] => "常规操作"
  | (pattern_name, keywords) :: rest =>
      if existsb (fun cmd => existsb (fun keyword => str_in keyword cmd) keywords)
           recent_commands
      then "正在进行" +:+ pattern_name
      else first_sequence rest recent_commands
  end.

(** [CommandHistoryAnalyzer.analyze_command_sequence] *)
Definition analyze_command_sequence (commands : list string) : string :=
  if (length commands <? 2)%nat then ""
  else first_sequence sequence_patterns (slice_from (-3) commands).

(** [f"{name}({count}次)"] *)
Definition format_pattern (item : string * Z) : string :=
  item.1 +:+ "(" +:+ pretty item.2 +:+ "次)".

(** [ContextAnalyzer.build_detailed_context_info]: the parts are joined
    without a separator, so the key-files and the git-status parts follow
    the part before them on the same line. *)
Definition build_detailed_context_info (context : FullContext) : string :=
  let d := directory_info context in
  let g := git_info context in
  concat_str
    ([ "当前环境信息：" +:+ LF +:+
       "- 工作目录: " +:+ context_cwd context +:+ LF +:+
       "- 用户: " +:+ user context +:+ LF +:+
       "- 系统: " +:+ os_info context ]
     ++ (if bool_decide (project_type d <> "unknown")
         then [ LF +:+ "- 当前目录: " +:+ pretty (file_count d) +:+ "个文件" +:+ LF +:+
                "- 项目类型: " +:+ project_type d ]
              ++ match key_files d with
                 | [] => []
                 | _ :: _ => [ "- 关键文件: " +:+ join ", " (key_files d) ]
                 end
         else [])
     ++ (if in_repo g
         then [ LF +:+ "- Git仓库: 是 (分支: " +:+ format_optional (current_branch g) +:+ ")" ]
              ++ (if has_changes g
                  then [ "- Git状态: " +:+ pretty (changed_files g) +:+ "个文件有变更" ]
                  else [])
         else [])).

(** [ContextAnalyzer.build_command_context] *)
Definition build_command_context (context : FullContext) : string :=
  match recent_commands context with
  | [] => ""
  | _ :: _ =>
      let recent_5 := slice_from (-5) (recent_commands context) in
      let sequence_analysis := analyze_command_sequence (recent_commands context) in
      concat_str
        ([ LF +:+ "最近执行的命令序列: " +:+ join " → " recent_5 ]
         ++ match command_patterns context with
            | [] => []
            | _ :: _ =>
                let top_patterns := take 3 (command_patterns context) in
                [ LF +:+ "最近操作模式: " +:+ join ", " (map format_pattern top_patterns) ]
            end
         ++ (if bool_decide (sequence_analysis = "") then []
             else [ LF +:+ "当前操作意图: " +:+ sequence_analysis ]))
  end.

(** ** analyzers/error_analyzer.py: the prompt and the analysis *)

(** The f-string of [_build_error_prompt] *)
Definition error_prompt_text (model_name context_info history_context : string)
    (command : string) (exit_code : Z) (error_output : string) : string :=
  "你是一个智能的Linux终端AI伴侣，专门帮助用户解决Linux命令问题。请用中文回答，并保持简洁实用。" +:+ LF +:+
  "当前模型: " +:+ model_name +:+ LF +:+
  context_info +:+ history_context +:+ LF +:+
  LF +:+
  "刚才执行的命令失败了：" +:+ LF +:+
  "命令: " +:+ command +:+ LF +:+
  "退出码: " +:+ pretty exit_code +:+ LF +:+
  "错误输出: " +:+ (if bool_decide (error_output = "") then "无" else error_output) +:+ LF +:+
  (LF +:+
    "请根据当前环境和操作上下文，特别是最近的命令序列和操作模式，按以下格式回答：" +:+ LF +:+
    LF +:+
    "**错误原因：** [结合当前环境、错误输出和操作上下文分析错误原因]" +:+ LF +:+
    LF +:+
    "**解决方案：** " +:+ LF +:+
    "[提供1-2个针对当前环境和操作流程的具体修复命令]" +:+ LF +:+
    LF +:+
    "**后续建议：** [基于你的工作模式、目录环境和命令序列，建议接下来可能需要的操作]" +:+ LF +:+
    LF +:+
    "请特别注意用户的操作模式和意图，提供连贯性的建议。").

(** [_build_error_prompt]: besides its arguments it reads the model name
    of the active service from the configuration manager, which raises
    when there is no valid active service. *)
Definition _build_error_prompt (config_manager : ConfigManager) (command : string)
    (exit_code : Z) (error_output : string) (context : FullContext) : result string :=
  active <- get_active_ai_service config_manager ;;
  let model_name := model active in
  let context_info := build_detailed_context_info context in
  let history_context := build_command_context context in
  Ok (error_prompt_text model_name context_info history_context
        command exit_code error_output).

(** ** Base64 and UTF-8, as the hook and [_decode_stderr] use them *)

(** A [bytes] object is a [string] as well: one [ascii] per byte. *)

(** The base64 alphabet of RFC 4648: the digit of a 6-bit value *)
Definition b64_char (v : N) : ascii :=
  if (v <? 26)%N then ascii_of_N (65 + v)            (* A-Z *)
  else if (v <? 52)%N then ascii_of_N (97 + (v - 26))   (* a-z *)
  else if (v <? 62)%N then ascii_of_N (48 + (v - 52))   (* 0-9 *)
  else if (v =? 62)%N then "+"%char
  else "/"%char.

Definition BASE64_PAD : ascii := "="%char.

(** [base64 -w 0]: three bytes become four digits, the last group is
    padded, and no line break is inserted. *)
Fixpoint b64encode (s : string) : string :=
  match s with
  | EmptyString => ""
  | String a EmptyString =>
      let a := byte_of a in
      String (b64_char (N.shiftr a 2))
        (String (b64_char (N.shiftl (N.land a 3) 4))
           (String BASE64_PAD (String BASE64_PAD "")))
  | String a (String b EmptyString) =>
      let a := byte_of a in
      let b := byte_of b in
      String (b64_char (N.shiftr a 2))
        (String (b64_char (N.lor (N.shiftl (N.land a 3) 4) (N.shiftr b 4)))
           (String (b64_char (N.shiftl (N.land b 15) 2))
              (String BASE64_PAD "")))
  | String a (String b (String c rest)) =>
      let a := byte_of a in
      let b := byte_of b in
      let c := byte_of c in
      String (b64_char (N.shiftr a 2))
        (String (b64_char (N.lor (N.shiftl (N.land a 3) 4) (N.shiftr b 4)))
           (String (b64_char (N.lor (N.shiftl (N.land b 15) 2) (N.shiftr c 6)))
              (String (b64_char (N.land c 63)) (b64encode rest))))
  end.

(** [table_a2b_base64] of CPython's binascii: the value of a digit, [None]
    for a byte outside the alphabet. *)
Definition table_a2b_base64 (ch : ascii) : option N :=
  let n := byte_of ch in
  if (65 <=? n)%N && (n <=? 90)%N then Some (n - 65)%N
  else if (97 <=? n)%N && (n <=? 122)%N then Some (n - 97 + 26)%N
  else if (48 <=? n)%N && (n <=? 57)%N then Some (n - 48 + 52)%N
  else if (n =? 43)%N then Some 62%N
  else if (n =? 47)%N then Some 63%N
  else None.

(** An [unsigned char] store *)
Definition to_uchar (n : N) : ascii := ascii_of_N (N.land n 255).

(** The loop of [binascii.a2b_base64] without strict mode, which is what
    [base64.b64decode] runs by default: bytes outside the alphabet are
    skipped, a complete pad sequence ends the input, and data left in an
    unfinished group is an error ([None]: [binascii.Error]; its message is
    not modelled). *)
Fixpoint a2b_loop (s : string) (quad_pos : nat) (leftchar : N) (pads : nat)
  : option string :=
  match s with
  | EmptyString => if (quad_pos =? 0)%nat then Some "" else None
  | String this_ch rest =>
      if Ascii.eqb this_ch BASE64_PAD then
        if (2 <=? quad_pos)%nat && (4 <=? quad_pos + S pads)%nat then Some ""
        else a2b_loop rest quad_pos leftchar
               (if (2 <=? quad_pos)%nat then S pads else pads)
      else
        match table_a2b_base64 this_ch with
        | None => a2b_loop rest quad_pos leftchar pads
        | Some v =>
            match quad_pos with
            | 0%nat => a2b_loop rest 1 v 0
            | 1%nat =>
                String (to_uchar (N.lor (N.shiftl leftchar 2) (N.shiftr v 4)))
                  <$> a2b_loop rest 2 (N.land v 15) 0
            | 2%nat =>
                String (to_uchar (N.lor (N.shiftl leftchar 4) (N.shiftr v 2)))
                  <$> a2b_loop rest 3 (N.land v 3) 0
            | _ =>
                String (to_uchar (N.lor (N.shiftl leftchar 6) v))
                  <$> a2b_loop rest 0 0 0
            end
        end
  end.

Definition a2b_base64 (s : string) : option string := a2b_loop s 0 0 0.

Definition is_ascii (s : string) : bool :=
  forallb (fun a => (byte_of a <? 128)%N) (list_ascii_of_string s).

(** [base64.b64decode(s)] for a [str]: [s.encode('ascii')] first, which
    raises on a character above U+007F. *)
Definition b64decode (s : string) : option string :=
  if is_ascii s then a2b_base64 s else None.

Definition in_range (lo hi : N) (a : ascii) : bool :=
  (lo <=? byte_of a)%N && (byte_of a <=? hi)%N.

(** Well-formed UTF-8 (no overlong form, no surrogate, nothing above
    U+10FFFF): what the strict decoder accepts. *)
Fixpoint utf8_valid (s : string) : bool :=
  match s with
  | EmptyString => true
  | String a rest =>
      if in_range 0 127 a then utf8_valid rest
      else match rest with
      | EmptyString => false
      | String b rest2 =>
          if in_range 194 223 a then in_range 128 191 b && utf8_valid rest2
          else match rest2 with
          | EmptyString => false
          | String c rest3 =>
              if in_range 224 239 a then
                (if in_range 224 224 a then in_range 160 191 b
                 else if in_range 237 237 a then in_range 128 159 b
                 else in_range 128 191 b)
                && in_range 128 191 c && utf8_valid rest3
              else match rest3 with
              | EmptyString => false
              | String d rest4 =>
                  in_range 240 244 a
                  && (if in_range 240 240 a then in_range 144 191 b
                      else if in_range 244 244 a then in_range 128 143 b
                      else in_range 128 191 b)
                  && in_range 128 191 c && in_range 128 191 d && utf8_valid rest4
              end
          end
      end
  end.

(** [b.decode('utf-8')]: the text with these bytes, or [None] for
    [UnicodeDecodeError]. *)
Definition decode_utf8 (b : string) : option string :=
  if utf8_valid b then Some b else None.

(** ** app.py: [_decode_stderr] *)

(** The bare [except] turns every failure into the raw argument. *)
Definition _decode_stderr (stderr_content : string) : string :=
  if bool_decide (stderr_content = "") then ""
  else match b64decode stderr_content ≫= decode_utf8 with
       | Some text => text
       | None => stderr_content
       end.

(** ** shell/integration.py: what the generated hook does with stderr *)

Definition NUL : ascii := ascii_of_N 0.
Definition NEWLINE : ascii := ascii_of_N 10.

(** [$(...)] in bash: NUL bytes of the output are dropped and trailing
    newlines removed. *)
Definition command_substitution (out : string) : string :=
  let kept := List.filter (fun a => negb (Ascii.eqb a NUL)) (list_ascii_of_string out) in
  string_of_list_ascii (rev (drop_while (Ascii.eqb NEWLINE) (rev kept))).

(** A word [-] followed by one or more of [n], [e], [E] is an option of
    the [echo] builtin. *)
Definition is_echo_option (arg : string) : bool :=
  match arg with
  | String "-" (String o os) =>
      forallb (fun a => Ascii.eqb a "n" || Ascii.eqb a "e" || Ascii.eqb a "E")%char
        (o :: list_ascii_of_string os)
  | _ => false
  end.

(** [echo "$x"]: the argument and a newline, unless the argument is taken
    for options. *)
Definition echo (x : string) : string :=
  if is_echo_option x
  then (if str_in "n" x then "" else LF)
  else x +:+ LF.

(** [stderr_encoded] of [ai_analyze_error], from the content of the stderr
    file: [$(cat file)], then [$(echo "$stderr_content" | base64 -w 0)]
    when the content is not empty ([base64] is taken to be installed, so
    the fallback after [||] does not run). *)
Definition hook_encode (stderr_file : string) : string :=
  let stderr_content := command_substitution stderr_file in
  if bool_decide (stderr_content = "") then ""
  else command_substitution (b64encode (echo stderr_content)).

(** ** analyzers/error_analyzer.py: [analyze_error] *)

Section Analysis.

Variable urlopen : request -> exchange.
Variable json_loads : string -> result json.
Variable py_repr : json -> string.

(** The statements of the [try] block of [analyze_error] before the cache
    is updated.  [context] is what [get_full_context()] yields in the
    world of the call. *)
Definition analyze_error_body (config_manager : ConfigManager) (command : string)
    (exit_code : Z) (error_output : string) (context : result FullContext)
  : result string :=
  context <- context ;;
  prompt <- _build_error_prompt config_manager command exit_code error_output context ;;
  ai_service_config <- get_active_ai_service config_manager ;;
  provider <- create_provider ai_service_config ;;
  call_api urlopen json_loads py_repr provider prompt.

(** [analyze_error]: the new dedup state and the returned [Optional[str]].
    [check_time] is the clock read by [_should_analyze], [update_time] the
    clock read by [_update_analysis_cache] once the provider has answered. *)
Definition analyze_error (config_manager : ConfigManager) (self : ErrorAnalyzer)
    (command : string) (exit_code : Z) (error_output : string)
    (check_time : Q) (context : result FullContext) (update_time : Q)
  : ErrorAnalyzer * option string :=
  if negb (_should_analyze self command exit_code check_time) then (self, None)
  else
    match analyze_error_body config_manager command exit_code error_output context with
    | Ok suggestion =>
        (_update_analysis_cache self command exit_code update_time, Some suggestion)
    | Raise e => (self, Some ("分析错误时出现问题: " +:+ exn_str e))
    end.

(** ** app.py: the monitor entry point *)

Record AICompanion := {
  config_manager : ConfigManager;
  history_analyzer : CommandHistoryAnalyzer;    (* inside [context_analyzer] *)
  error_analyzer : ErrorAnalyzer
}.

(** [AICompanion.__init__] on a loaded configuration *)
Definition AICompanion_init (config_manager : ConfigManager) : AICompanion :=
  {| config_manager := config_manager;
     history_analyzer := CommandHistoryAnalyzer_init 100;
     error_analyzer := ErrorAnalyzer_init |}.

(** What one call of [monitor_command] reads from outside the process, in
    the order of reading. *)
Record World := {
  history_time : Q;                    (* [time.time()] in [add_command_to_history] *)
  getcwd : result string;              (* [os.getcwd()] there; it raises
                                          [FileNotFoundError] in a working
                                          directory that has been removed *)
  check_time : Q;                      (* [time.time()] in [_should_analyze] *)
  full_context : result FullContext;   (* [get_full_context()] *)
  update_time : Q                      (* [time.time()] in [_update_analysis_cache] *)
}.

(** [ContextAnalyzer.add_command_to_history]: the event is built first, so
    an exception of [os.getcwd()] leaves the method before [add_command]
    is called. *)
Definition add_command_to_history (self : CommandHistoryAnalyzer) (command : string)
    (exit_code : Z) (output error : string) (now : Q) (cwd : result string)
  : result CommandHistoryAnalyzer :=
  cwd <- cwd ;;
  let cmd_info :=
    {| command := command; exit_code := exit_code; output := output;
       error := error; timestamp := now; cwd := cwd |} in
  Ok (add_command self cmd_info).

(** [monitor_command]: the state after the call and its outcome, which is
    the exception that left the call or the suggestion handed to
    [_display_suggestion], if any (what that method prints is not
    modelled).  Nothing catches an exception of [add_command_to_history].
    The features are read only when the exit code is not 0. *)
Definition monitor_command (self : AICompanion) (w : World) (command : string)
    (exit_code : Z) (stderr_content : string) : AICompanion * result (option string) :=
  let decoded_stderr := _decode_stderr stderr_content in
  match add_command_to_history (history_analyzer self) command exit_code ""
          decoded_stderr (history_time w) (getcwd w) with
  | Raise e => (self, Raise e)
  | Ok history =>
      if negb (exit_code =? 0)
         && auto_error_analysis (get_features (config_manager self))
      then
        let '(analyzer, suggestion) :=
          analyze_error (config_manager self) (error_analyzer self) command exit_code
            decoded_stderr (check_time w) (full_context w) (update_time w) in
        ({| config_manager := config_manager self;
            history_analyzer := history;
            error_analyzer := analyzer |},
         Ok match suggestion with
            | Some text => if bool_decide (text = "") then None else Some text
            | None => None
            end)
      else
        ({| config_manager := config_manager self;
            history_analyzer := history;
            error_analyzer := error_analyzer self |},
         Ok None)
  end.

End Analysis.

(** What a call of [monitor_command] handed to [_display_suggestion] *)
Definition displayed (outcome : result (option string)) : option string :=
  match outcome with
  | Ok suggestion => suggestion
  | Raise _ => None
  end.

(** ** core/system_info.py: the resource snapshot *)

(** [try: return body / except: return fallback] *)
Definition catch {A} (body : result A) (fallback : A) : A :=
  match body with
  | Ok a => a
  | Raise _ => fallback
  end.

(** What the four probes find: the text of /proc/meminfo, the triple
    (total, used, free) of [shutil.disk_usage('/')], and the return code
    and standard output of [top -bn1] and of [ps aux]; each may raise. *)
Record Probes := {
  read_meminfo : result string;
  disk_usage : result (Z * Z * Z);
  run_top : result (Z * string);
  run_ps : result (Z * string)
}.

Section SystemInfo.

(** [int(s)], [float(s)] and [round(x, 1)]; the floats are taken as exact
    rationals. *)
Variable parse_int : string -> result Z.
Variable parse_float : string -> result Q.
Variable round1 : Q -> Q.

(** [a / b] on numbers *)
Definition true_div (a b : Q) : result Q :=
  if Qeq_bool b 0 then Raise (Exn "ZeroDivisionError" "division by zero")
  else Ok (a / b)%Q.

Definition GiB : Q := inject_Z (1024 ^ 3).

(** [int([line for line in meminfo.split('\n') if key in line][0].split()[1]) * 1024] *)
Definition meminfo_bytes (meminfo key : string) : result Z :=
  line <- index (List.filter (str_in key) (split_on NEWLINE meminfo)) 0 ;;
  word <- index (split_whitespace line) 1 ;;
  n <- parse_int word ;;
  Ok (n * 1024).

(** The [try] block of [_get_memory_info]: usage_percent, total_gb, available_gb *)
Definition memory_probe (p : Probes) : result (Q * Q * Q) :=
  meminfo <- read_meminfo p ;;
  mem_total <- meminfo_bytes meminfo "MemTotal" ;;
  mem_available <- meminfo_bytes meminfo "MemAvailable" ;;
  used_ratio <- true_div (inject_Z (mem_total - mem_available)) (inject_Z mem_total) ;;
  Ok (round1 (used_ratio * 100), round1 (inject_Z mem_total / GiB),
      round1 (inject_Z mem_available / GiB))%Q.

Definition _get_memory_info (p : Probes) : Q * Q * Q :=
  catch (memory_probe p) (0, 0, 0)%Q.

(** The [try] block of [_get_disk_info]: usage_percent, total_gb, free_gb *)
Definition disk_probe (p : Probes) : result (Q * Q * Q) :=
  stat <- disk_usage p ;;
  let '(total, used, free) := stat in
  used_ratio <- true_div (inject_Z used) (inject_Z total) ;;
  Ok (round1 (used_ratio * 100), round1 (inject_Z total / GiB),
      round1 (inject_Z free / GiB))%Q.

Definition _get_disk_info (p : Probes) : Q * Q * Q :=
  catch (disk_probe p) (0, 0, 0)%Q.

(** The [try] block of [_get_cpu_percent]: [Ok None] when it falls through
    to [return 0.0] (return code not 0, or no line with [Cpu(s)]); the
    first such line decides, also when it cannot be parsed. *)
Definition cpu_probe (p : Probes) : result (option Q) :=
  result <- run_top p ;;
  let '(returncode, stdout) := result in
  if returncode =? 0 then
    match List.filter (str_in "Cpu(s)") (split_on NEWLINE stdout) with
    | [] => Ok None
    | line :: _ =>
        part <- index (split_on "," line) 3 ;;
        word <- index (split_whitespace part) 0 ;;
        idle <- parse_float word ;;
        Ok (Some (round1 (100 - idle)%Q))
    end
  else Ok None.

Definition _get_cpu_percent (p : Probes) : Q :=
  default 0%Q (catch (cpu_probe p) None).

(** The [try] block of [_get_process_count] *)
Definition process_probe (p : Probes) : result (option Z) :=
  result <- run_ps p ;;
  let '(returncode, stdout) := result in
  if returncode =? 0
  then Ok (Some (Z.of_nat (length (split_on NEWLINE (strip stdout))) - 1))
  else Ok None.

Definition _get_process_count (p : Probes) : Z :=
  default 0 (catch (process_probe p) None).

(** [get_system_status]; its own handler returns the all-zero snapshot. *)
Definition get_system_status (p : Probes) : SystemStatus :=
  catch
    (let memory_info := _get_memory_info p in
     let disk_info := _get_disk_info p in
     let cpu_percent := _get_cpu_percent p in
     let processes := _get_process_count p in
     Ok {| cpu_percent := cpu_percent;
           memory_percent := memory_info.1.1;
           memory_total_gb := memory_info.1.2;
           memory_available_gb := memory_info.2;
           disk_percent := disk_info.1.1;
           disk_total_gb := disk_info.1.2;
           disk_free_gb := disk_info.2;
           processes := processes |})
    {| cpu_percent := 0; memory_percent := 0; memory_total_gb := 0;
       memory_available_gb := 0; disk_percent := 0; disk_total_gb := 0;
       disk_free_gb := 0; processes := 0 |}.

End SystemInfo.

(** ** ai_companion.py, the single-file version: [analyze_error_sync] *)


(** ** analyzers/command_history.py: patterns, work mode and recent commands *)

(** [self.command_patterns], in insertion order *)
Definition command_patterns_table : list (string * list string) :=
  [ ("文件操作", ["ls"; "cd"; "pwd"; "mkdir"; "rmdir"; "cp"; "mv"; "rm"; "find"; "locate"]);
    ("文本处理", ["cat"; "less"; "more"; "head"; "tail"; "grep"; "sed"; "awk"; "sort"; "uniq"]);
    ("系统管理", ["ps"; "top"; "htop"; "kill"; "systemctl"; "service"; "mount"; "umount"]);
    ("网络操作", ["ping"; "curl"; "wget"; "ssh"; "scp"; "rsync"; "netstat"; "ss"]);
    ("权限管理", ["chmod"; "chown"; "sudo"; "su"; "whoami"; "groups"]);
    ("开发工具", ["git"; "npm"; "pip"; "python"; "node"; "make"; "gcc"; "vim"; "nano"]);
    ("容器技术", ["docker"; "docker-compose"; "kubectl"; "podman"]);
    ("压缩解压", ["tar"; "zip"; "unzip"; "gzip"; "gunzip"]);
    ("包管理", ["apt"; "yum"; "dnf"; "brew"; "snap"]);
    ("进程监控", ["ps"; "pgrep"; "pkill"; "jobs"; "nohup"; "screen"; "tmux"]) ].

(** [self.work_categories], in insertion order *)
Definition work_categories : list (string * list string) :=
  [ ("development", ["git"; "npm"; "pip"; "python"; "node"; "make"; "gcc"]);
    ("system_admin", ["systemctl"; "service"; "chmod"; "chown"; "mount"; "sudo"]);
    ("web_server", ["nginx"; "apache"; "curl"; "wget"; "netstat"]);
    ("database", ["mysql"; "redis"; "mongo"; "psql"]);
    ("docker", ["docker"; "docker-compose"]);
    ("file_management", ["ls"; "cd"; "cp"; "mv"; "rm"; "find"; "grep"]) ].

(** [command.split()[0] if command.split() else ""] *)
Definition cmd_name (command : string) : string :=
  match split_whitespace command with
  | word :: _ => word
  | [] => ""
  end.

(** The inner loop of [analyze_command_patterns]: the first pattern with a
    program name that is a prefix of [cmd_name], if any *)
Fixpoint first_pattern (table : list (string * list string)) (cmd_name : string)
  : option string :=
  match table with
  | [] => None
  | (pattern_name, pattern_commands) :: rest =>
      if existsb (startswith cmd_name) pattern_commands then Some pattern_name
      else first_pattern rest cmd_name
  end.

(** [pattern_counts[name] += 1] on a [defaultdict(int)]: a new key goes to
    the end, a known key keeps its place. *)
Fixpoint increment (name : string) (counts : list (string * Z)) : list (string * Z) :=
  match counts with
  | [] => [(name, 1)]
  | (k, n) :: rest =>
      if String.eqb name k then (k, n + 1) :: rest
      else (k, n) :: increment name rest
  end.

(** The outer loop of [analyze_command_patterns] *)
Fixpoint count_patterns (commands : list string) (pattern_counts : list (string * Z))
  : list (string * Z) :=
  match commands with
  | [] => pattern_counts
  | command :: rest =>
      count_patterns rest
        match first_pattern command_patterns_table (cmd_name command) with
        | Some pattern_name => increment pattern_name pattern_counts
        | None => pattern_counts
        end
  end.

(** [sorted(items, key=lambda x: x[1], reverse=True)]: the sort is stable,
    also with [reverse=True], so items of equal count keep their order. *)
Fixpoint insert_by_count (x : string * Z) (l : list (string * Z)) : list (string * Z) :=
  match l with
  | [] => [x]
  | y :: rest => if y.2 <=? x.2 then x :: l else y :: insert_by_count x rest
  end.

Definition sorted_by_count (l : list (string * Z)) : list (string * Z) :=
  foldr insert_by_count [] l.

(** [analyze_command_patterns]; the empty list returned at once is also
    what the loops give. *)
Definition analyze_command_patterns (commands : list string) : list (string * Z) :=
  match commands with
  | [] => []
  | _ :: _ => sorted_by_count (count_patterns commands [])
  end.

(** [any(any(keyword in cmd for keyword in keywords) for cmd in commands)] *)
Definition any_keyword (keywords commands : list string) : bool :=
  existsb (fun cmd => existsb (fun keyword => str_in keyword cmd) keywords) commands.

(** [identify_work_pattern(commands)] for a given list of commands *)
Definition identify_work_pattern (commands : list string) : WorkPattern :=
  match commands with
  | [] => {| mode := "general"; activities := []; suggestions := [] |}
  | _ :: _ =>
      let activities :=
        map fst (List.filter (fun entry => any_keyword entry.2 commands) work_categories) in
      let mode :=
        if list_in "development" activities then "development"
        else if list_in "system_admin" activities then "system_admin"
        else if list_in "docker" activities then "container_ops"
        else "general" in
      {| mode := mode; activities := activities; suggestions := [] |}
  end.

(** [get_recent_failed_commands(limit)] *)
Definition get_recent_failed_commands (self : CommandHistoryAnalyzer) (limit : Z)
  : list CommandInfo :=
  let failed_commands :=
    List.filter (fun cmd => negb (exit_code cmd =? 0) && negb (exit_code cmd =? 130))
      (command_history self) in
  slice_from (- limit) failed_commands.

(** [s.split(None, 1)]: the first word and, if anything but white space
    follows it, the rest of the text from the next word on. *)
Fixpoint split_first_word (cs : list string) (word : string) : list string :=
  match cs with
  | [] => match word with EmptyString => [] | _ => [word] end
  | c :: rest =>
      if is_space c
      then match word with
           | EmptyString => split_first_word rest ""
           | _ => match drop_while is_space rest with
                  | [] => [word]
                  | remainder => [word; concat_str remainder]
                  end
           end
      else split_first_word rest (word +:+ c)
  end.

Definition split_1 (s : string) : list string := split_first_word (chars s) "".

(** What [get_shell_history] reads outside the process: the outcome of
    [bash -c history] (return code and output) and, when the file exists,
    the lines of [~/.bash_history] as [readlines()] returns them. *)
Record HistorySources := {
  run_history : result (Z * string);
  read_bash_history : result (option (list string))
}.

(** The loop over the output of [history] *)
Definition history_output_commands (stdout : string) (limit : Z) : list string :=
  let lines := split_on NEWLINE (strip stdout) in
  omap (fun line =>
          if bool_decide (strip line = "") then None
          else match split_1 (strip line) with
               | _ :: command :: _ =>
                   if negb (bool_decide (command = "")) && negb (startswith command "history")
                   then Some command else None
               | _ => None
               end)
       (slice_from (- limit) lines).

(** The list comprehension over the lines of the history file *)
Definition history_file_commands (lines : list string) (limit : Z) : list string :=
  omap (fun line =>
          if negb (bool_decide (strip line = "")) && negb (startswith (strip line) "#")
          then Some (strip line) else None)
       (slice_from (- limit) lines).

(** The merge loop: a command of the process's own history is appended
    unless it is already in the list. *)
Fixpoint merge_unseen (internal_commands history_commands : list string) : list string :=
  match internal_commands with
  | [] => history_commands
  | cmd :: rest =>
      if list_in cmd history_commands then merge_unseen rest history_commands
      else merge_unseen rest (history_commands ++ [cmd])
  end.

(** [get_shell_history(limit)] *)
Definition get_shell_history (self : CommandHistoryAnalyzer) (w : HistorySources)
    (limit : Z) : list string :=
  let internal_history := map command (slice_from (- limit) (command_history self)) in
  if negb (bool_decide (command_history self = []))
     && (Z.of_nat (length internal_history) >=? limit)
  then internal_history
  else
    let history_commands :=
      catch (result <- run_history w ;;
             let '(returncode, stdout) := result in
             Ok (if returncode =? 0 then history_output_commands stdout limit else []))
            [] in
    let history_commands :=
      if Z.of_nat (length history_commands) <? limit then
        catch (file <- read_bash_history w ;;
               Ok match file with
                  | Some lines =>
                      let file_commands := history_file_commands lines limit in
                      if (length history_commands <? length file_commands)%nat
                      then file_commands else history_commands
                  | None => history_commands
                  end)
              history_commands
      else history_commands in
    let history_commands :=
      match command_history self with
      | [] => history_commands
      | _ :: _ =>
          merge_unseen (map command (slice_from (-10) (command_history self)))
            history_commands
      end in
    slice_from (- limit) history_commands.

(** ** core/config.py: changing the configuration *)

(** The truth value of an [Optional[str]]: [None] and the empty string are
    falsy. *)
Definition truthy (x : option string) : bool :=
  match x with
  | Some s => negb (bool_decide (s = ""))
  | None => false
  end.

(** [set_ai_service(name, config)]: the state after the call.  The file
    written by [save_config] is not part of the state; the write is taken
    to succeed. *)
Definition set_ai_service (self : ConfigManager) (name : string)
    (config : AIServiceConfig) : ConfigManager :=
  {| ai_services := <[name := config]> (ai_services self);
     active_ai_service :=
       if truthy (active_ai_service self) then active_ai_service self else Some name;
     features := features self |}.

(** [switch_ai_service(name)]: the state after the call and the value
    returned *)
Definition switch_ai_service (self : ConfigManager) (name : string)
  : ConfigManager * bool :=
  if bool_decide (is_Some (ai_services self !! name))
  then ({| ai_services := ai_services self;
           active_ai_service := Some name;
           features := features self |}, true)
  else (self, false).

(** [list_services] *)
Definition list_services (self : ConfigManager) : gmap string string :=
  map_imap (fun name _ =>
              Some (if bool_decide (active_ai_service self = Some name)
                    then "激活" else "可用"))
           (ai_services self).

(** ** app.py: [set_api_config] and [switch_api_service] *)


(** ** analyzers/context_analyzer.py: the one-line summary *)

(** [ContextAnalyzer.build_context_summary] *)
Definition build_context_summary (context : FullContext) : string :=
  let d := directory_info context in
  let g := git_info context in
  join " | "
    ([ "环境: " +:+ context_cwd context ]
     ++ (if bool_decide (project_type d <> "unknown")
         then [ "项目类型: " +:+ project_type d ] else [])
     ++ (if in_repo g
         then [ "Git仓库 (" +:+ format_optional (current_branch g) +:+ "分支)"
                +:+ (if has_changes g then " [有变更]" else "") ]
         else [])).

(** ** analyzers/error_analyzer.py: questions *)

(** [_build_question_prompt] *)
Definition _build_question_prompt (config_manager : ConfigManager) (question : string)
    (context : FullContext) : result string :=
  active <- get_active_ai_service config_manager ;;
  let model_name := model active in
  let context_summary := build_context_summary context in
  let pattern_summary :=
    match command_patterns context with
    | [] => ""
    | _ :: _ =>
        let top_patterns := take 2 (command_patterns context) in
        LF +:+ "最近主要操作: " +:+ join ", " (map format_pattern top_patterns)
    end in
  let recent_commands_str :=
    match recent_commands context with
    | [] => "无"
    | _ :: _ => join " → " (slice_from (-10) (recent_commands context))
    end in
  Ok ("你是一个智能的Linux终端AI伴侣，用中文回答问题。" +:+ LF +:+
      "当前模型: " +:+ model_name +:+ LF +:+
      context_summary +:+ pattern_summary +:+ LF +:+
      LF +:+
      "最近10条命令: " +:+ recent_commands_str +:+ LF +:+
      LF +:+
      "用户问题: " +:+ question +:+ LF +:+
      LF +:+
      "请根据当前环境、工作上下文和最近的操作模式，提供针对性的Linux命令和建议。如果问题与当前环境或最近的操作相关，请特别说明。保持回答简洁明了。").

Section Questions.

Variable urlopen : request -> exchange.
Variable json_loads : string -> result json.
Variable py_repr : json -> string.

(** [ErrorAnalyzer.ask_question], with [context] what [get_full_context()]
    yields *)
Definition ask_question (config_manager : ConfigManager) (question : string)
    (context : result FullContext) : result string :=
  try_except
    (context <- context ;;
     prompt <- _build_question_prompt config_manager question context ;;
     ai_service_config <- get_active_ai_service config_manager ;;
     provider <- create_provider ai_service_config ;;
     call_api urlopen json_loads py_repr provider prompt)
    (fun e => Ok ("处理问题时出现错误: " +:+ exn_str e)).

End Questions.

(** ** core/system_info.py: the repository status *)

(** The outcomes of the four [git] sub-processes of [get_git_info], each a
    return code and the standard output, or an exception *)
Record GitProbes := {
  run_rev_parse : result (Z * string);
  run_branch : result (Z * string);
  run_status : result (Z * string);
  run_log : result (Z * string)
}.

(** [GitInfo(in_repo=False)]: the other fields at their defaults *)
Definition GitInfo_not_in_repo : GitInfo :=
  {| in_repo := false; current_branch := None; has_changes := false;
     changed_files := 0; recent_commits := None |}.

(** [get_git_info]; the sub-processes run in this order, and an exception
    of any of them ends in the handler. *)
Definition get_git_info (p : GitProbes) : GitInfo :=
  catch
    (result <- run_rev_parse p ;;
     if negb (result.1 =? 0) then Ok GitInfo_not_in_repo
     else
       result <- run_branch p ;;
       let current_branch := if result.1 =? 0 then strip result.2 else "unknown" in
       result <- run_status p ;;
       let status_lines :=
         if bool_decide (strip result.2 = "") then []
         else split_on NEWLINE (strip result.2) in
       let has_changes := if result.1 =? 0 then (0 <? length status_lines)%nat else false in
       let changed_files := if result.1 =? 0 then Z.of_nat (length status_lines) else 0 in
       result <- run_log p ;;
       let recent_commits :=
         if result.1 =? 0 then Some (split_on NEWLINE (strip result.2)) else None in
       Ok {| in_repo := true; current_branch := Some current_branch;
             has_changes := has_changes; changed_files := changed_files;
             recent_commits := recent_commits |})
    GitInfo_not_in_repo.

(** ** ai_companion.py, the single-file version: [get_system_info_native] *)

(** A value of the [info] dict: the int 0 of a failed probe, the int of
    the process count, or a rounded float *)
Inductive number :=
| Int (n : Z)
| Float (q : Q).

Section NativeInfo.

Variable parse_int : string -> result Z.
Variable parse_float : string -> result Q.
Variable round1 : Q -> Q.

(** The CPU part: the key is assigned when a line with [Cpu(s)] was parsed,
    when the return code is not 0 and when an exception was raised, but
    not when the output has no such line. *)
Definition native_cpu (p : Probes) (info : gmap string number) : gmap string number :=
  match run_top p with
  | Raise _ => <["cpu_percent" := Int 0]> info
  | Ok (returncode, stdout) =>
      if returncode =? 0 then
        match List.filter (str_in "Cpu(s)") (split_on NEWLINE stdout) with
        | [] => info
        | line :: _ =>
            match (part <- index (split_on "," line) 3 ;;
                   word <- index (split_whitespace part) 0 ;;
                   idle <- parse_float word ;;
                   Ok (round1 (100 - idle)%Q)) with
            | Ok cpu => <["cpu_percent" := Float cpu]> info
            | Raise _ => <["cpu_percent" := Int 0]> info
            end
        end
      else <["cpu_percent" := Int 0]> info
  end.

(** [get_system_info_native]: the four parts fill the dict in turn; each
    has its own bare [except], so the outer handler is never reached. *)
Definition get_system_info_native (p : Probes) : gmap string number :=
  let info : gmap string number := ∅ in
  let info :=
    match memory_probe parse_int round1 p with
    | Ok (usage, total, available) =>
        <["memory_available_gb" := Float available]>
          (<["memory_total_gb" := Float total]> (<["memory_usage" := Float usage]> info))
    | Raise _ =>
        <["memory_available_gb" := Int 0]>
          (<["memory_total_gb" := Int 0]> (<["memory_usage" := Int 0]> info))
    end in
  let info :=
    match disk_probe round1 p with
    | Ok (usage, total, free) =>
        <["disk_free_gb" := Float free]>
          (<["disk_total_gb" := Float total]> (<["disk_usage" := Float usage]> info))
    | Raise _ =>
        <["disk_free_gb" := Int 0]>
          (<["disk_total_gb" := Int 0]> (<["disk_usage" := Int 0]> info))
    end in
  let info := native_cpu p info in
  match process_probe p with
  | Ok (Some n) => <["processes" := Int n]> info
  | Ok None | Raise _ => <["processes" := Int 0]> info
  end.

End NativeInfo.

(** ** app.py: [_display_suggestion] *)

Definition DQ : string := String (ascii_of_N 34) "".

(** [s.split(sep)] for a separator of two bytes *)
Fixpoint split_on2 (c1 c2 : ascii) (s : string) : list string :=
  match s with
  | EmptyString => [""]
  | String a rest =>
      match rest with
      | String b rest' =>
          if Ascii.eqb a c1 && Ascii.eqb b c2 then "" :: split_on2 c1 c2 rest'
          else match split_on2 c1 c2 rest with
               | piece :: pieces => String a piece :: pieces
               | [] => [String a ""]
               end
      | EmptyString => [String a ""]
      end
  end.

(** [s.endswith(p)] *)
Definition endswith (s p : string) : bool :=
  String.prefix (String.rev p) (String.rev s).

(** [s[1:-1]], counted in characters *)
Definition strip_ends (s : string) : string :=
  concat_str (rev (drop 1 (rev (drop 1 (chars s))))).

(** The body of the loop of [_display_suggestion] for one line: what it
    prints, if anything *)
Definition display_line (line : string) : option string :=
  if bool_decide (strip line = "") then None
  else if str_in "```" line then None
  else if startswith (strip line) "`" && endswith (strip line) "`"
  then Some ("   \033[1;32m" +:+ strip_ends (strip line) +:+ "\033[0m")
  else if startswith_any (strip line) ["**错误原因：**"; "**解决方案：**"; "**后续建议：**"]
  then Some ("\033[1;34m" +:+ line +:+ "\033[0m")
  else Some ("   " +:+ line).

(** [_display_suggestion]: the arguments of the [print] calls, in order.
    The source writes its escapes with two backslashes, so the separator
    of [split] is a backslash followed by [n], not a line break, and the
    colour codes are printed as text. *)
Definition _display_suggestion (suggestion command : string) : list string :=
  let lines := split_on2 "\" "n" (strip suggestion) in
  [ "🤖 \033[1;36mAI伴侣建议\033[0m (命令: \033[1;33m" +:+ command +:+ "\033[0m)" ]
  ++ omap display_line lines
  ++ [ "💡 \033[2m输入 'ask " +:+ DQ +:+ "更多问题" +:+ DQ +:+ "' 可以继续咨询\033[0m" ].

(** ** core/config.py: loading the configuration file *)

(** The dict literal [default_config] of [_load_config] *)
Definition default_config : list (string * json) :=
  [ ("ai_services",
     JObj [ ("default",
             JObj [ ("type", JStr "openai");
                    ("base_url", JStr "https://api.deepbricks.ai/v1/chat/completions");
                    ("model", JStr "gpt-4o-mini");
                    ("api_key", JStr "sk-97RxyS9R2dsqFTUxcUZOpZwhnbjQCSOaFboooKDeTv5nHJgg");
                    ("timeout", JInt 30) ]) ]);
    ("active_ai_service", JStr "default");
    ("features",
     JObj [ ("auto_error_analysis", JBool true);
            ("command_suggestion", JBool true);
            ("context_aware", JBool true);
            ("chinese_help", JBool true) ]) ].

(** [d[key] = value] on a dict: a known key keeps its place, a new key
    goes to the end. *)
Fixpoint dict_set (key : string) (value : json) (d : list (string * json))
  : list (string * json) :=
  match d with
  | [] => [(key, value)]
  | (k, v) :: rest =>
      if String.eqb key k then (k, value) :: rest
      else (k, v) :: dict_set key value rest
  end.

(** [{**d1, **d2}] *)
Definition dict_merge (d1 d2 : list (string * json)) : list (string * json) :=
  fold_left (fun d item => dict_set item.1 item.2 d) d2 d1.

(** What reading an existing configuration file gives: the value parsed by
    [json.load], an exception of one of the two classes the handler names
    ([json.JSONDecodeError], [IOError]), or another exception. *)
Inductive load_outcome :=
| Parsed (v : json)
| DecodeOrIOError
| OtherError (e : exn).

(** [_load_config]; [file] is [None] when the path does not exist.  The
    dict display raises [TypeError] when the parsed value is no dict. *)
Definition _load_config (file : option load_outcome) : result (list (string * json)) :=
  match file with
  | None => Ok default_config
  | Some (Parsed (JObj members)) => Ok (dict_merge default_config members)
  | Some (Parsed v) =>
      Raise (TypeError ("'" +:+ type_name v +:+ "' object is not a mapping"))
  | Some DecodeOrIOError => Ok default_config
  | Some (OtherError e) => Raise e
  end.

(** ** shell/integration.py: the monitor call made by the generated hooks *)

(** The three arguments after [--monitor] *)
Record MonitorCall := {
  call_command : string;
  call_exit_code : string;
  call_stderr : string
}.

(** [$(cat "$AI_STDERR_FILE" 2>/dev/null || echo "")] behind the tests
    [[ -f file ] && [ -s file ]].  [stderr_file] is the content of the
    file, [None] when there is no such regular file; a file that is there
    is taken to be readable. *)
Definition read_capture (stderr_file : option string) : string :=
  match stderr_file with
  | Some content =>
      if bool_decide (content = "") then "" else command_substitution content
  | None => ""
  end.

Section Hooks.

(** [base64 -w 0 2>/dev/null] on a given standard input: its exit status
    and what it wrote to standard output. *)
Variable base64_w0 : string -> Z * string.

(** [$(echo "$text" | base64 -w 0 2>/dev/null || echo "$text")]: the
    status of the pipeline is that of [base64]; when it is not 0 the second
    [echo] writes after whatever [base64] wrote. *)
Definition encode_for_monitor (text : string) : string :=
  let '(status, out) := base64_w0 (echo text) in
  command_substitution (if status =? 0 then out else out +:+ echo text).

(** [ai_analyze_error] of the capture script: the monitor call it makes,
    if any. *)
Definition ai_analyze_error (AI_LAST_COMMAND : string) (AI_LAST_EXIT_CODE : Z)
    (stderr_file : option string) : option MonitorCall :=
  if negb (AI_LAST_EXIT_CODE =? 0) && negb (AI_LAST_EXIT_CODE =? 130)
     && negb (bool_decide (AI_LAST_COMMAND = ""))
  then
    let stderr_content := read_capture stderr_file in
    let stderr_encoded :=
      if bool_decide (stderr_content = "") then ""
      else encode_for_monitor stderr_content in
    Some {| call_command := AI_LAST_COMMAND;
            call_exit_code := pretty AI_LAST_EXIT_CODE;
            call_stderr := stderr_encoded |}
  else None.

(** [_ai_companion_prompt_command] of the hook written to [.bashrc]: the
    monitor call it makes, if any.  [last_command] is the output of
    [history 1 | sed ...], [cmd_name] that of
    [echo "$last_command" | awk '{print $1}'] and [command_found] the
    status of [command -v "$cmd_name"]. *)
Definition _ai_companion_prompt_command (current_exit_code : Z) (last_command : string)
    (stderr_file : option string) (cmd_name : string) (command_found : bool)
  : option MonitorCall :=
  if negb (current_exit_code =? 0) && negb (current_exit_code =? 130) then
    if negb (str_in "_ai_" last_command) && negb (str_in "ai_" last_command)
       && negb (str_in "history" last_command)
    then
      let stderr_output := read_capture stderr_file in
      let stderr_output :=
        if bool_decide (stderr_output = "") then
          if negb command_found
          then "bash: " +:+ cmd_name +:+ ": command not found"
          else "Command failed with exit code " +:+ pretty current_exit_code
        else stderr_output in
      let stderr_encoded :=
        if bool_decide (stderr_output = "") then ""
        else encode_for_monitor stderr_output in
      Some {| call_command := last_command;
              call_exit_code := pretty current_exit_code;
              call_stderr := stderr_encoded |}
    else None
  else None.

End Hooks.

(** ** Sample data for the worked instances *)

(** A history of 101 distinguishable events, numbered by their exit code. *)
Definition numbered_event (n : nat) : CommandInfo :=
  {| command := "cmd"; exit_code := Z.of_nat n; output := ""; error := "";
     timestamp := 0%Q; cwd := "/" |}.

(** A service configuration of the given type *)
Definition sample_config (t : string) : AIServiceConfig :=
  {| type := t; base_url := "http://localhost:11434"; model := "m";
     api_key := None; timeout := 30 |}.

(** A transport on which every request times out *)
Definition always_times_out (r : request) : exchange :=
  Failed (Exn "TimeoutError" "timed out").

(** A parser and a printer for the instances that never reach them *)
Definition no_json (s : string) : result json :=
  Raise (Exn "JSONDecodeError" "Expecting value: line 1 column 1 (char 0)").
Definition repr_placeholder (v : json) : string := "?".

(** All 256 bytes, to check a fact about bytes by computation *)
Definition all_ascii : list ascii := map ascii_of_nat (seq 0 256).

(** A configuration manager whose active service is [default], with the
    given model name *)
Definition sample_manager (model_name : string) : ConfigManager :=
  {| ai_services :=
       {[ "default" := {| type := "ollama"; base_url := "http://localhost:11434";
                          model := model_name; api_key := None; timeout := 30 |} ]};
     active_ai_service := Some "default";
     features := {| auto_error_analysis := true; command_suggestion := true;
                    context_aware := true; chinese_help := true |} |}.

(** The context of a node project in a git work tree *)
Definition sample_context : FullContext :=
  {| context_cwd := "/home/u/app"; user := "u"; shell := "/bin/bash";
     os_info := "Linux";
     system_status :=
       {| cpu_percent := 0; memory_percent := 0; memory_total_gb := 0;
          memory_available_gb := 0; disk_percent := 0; disk_total_gb := 0;
          disk_free_gb := 0; processes := 0 |};
     directory_info :=
       {| file_count := 3; has_hidden_files := true; file_types := [(".json", 1)];
          project_type := "node"; key_files := ["package.json"] |};
     git_info :=
       {| in_repo := true; current_branch := Some "main"; has_changes := true;
          changed_files := 2; recent_commits := None |};
     installed_tools := []; running_services := []; network_available := true;
     recent_commands := ["git add ."; "npm install"];
     work_pattern := {| mode := "development"; activities := ["development"];
                        suggestions := [] |};
     command_patterns := [("开发工具", 2)] |}.

(** Readings of a host on which /proc/meminfo cannot be opened *)
Definition sample_probes : Probes :=
  {| read_meminfo := Raise (Exn "FileNotFoundError" "No such file or directory: '/proc/meminfo'");
     disk_usage := Ok (100, 25, 75);
     run_top := Ok (0, "top - 10:00:00 up 1 day" +:+ LF +:+
                       "%Cpu(s):  1.2 us,  0.6 sy,  0.0 ni, 98.1 id,  0.1 wa" +:+ LF);
     run_ps := Ok (0, "USER PID" +:+ LF +:+ "root 1" +:+ LF +:+ "root 2" +:+ LF) |}.

(** The same host with a readable /proc/meminfo *)
Definition sample_probes_ok : Probes :=
  {| read_meminfo := Ok ("MemTotal: 2048 kB" +:+ LF +:+ "MemAvailable: 1024 kB" +:+ LF);
     disk_usage := disk_usage sample_probes;
     run_top := run_top sample_probes;
     run_ps := run_ps sample_probes |}.

(** Stand-ins for [int], [float] and [round] on the sample readings *)
Definition sample_int (s : string) : result Z :=
  if String.eqb s "2048" then Ok 2048
  else if String.eqb s "1024" then Ok 1024
  else Raise (ValueError ("invalid literal for int() with base 10: '" +:+ s +:+ "'")).
Definition sample_float (s : string) : result Q :=
  if String.eqb s "98.1" then Ok (981 # 10)
  else Raise (ValueError ("could not convert string to float: '" +:+ s +:+ "'")).
Definition sample_round (q : Q) : Q := Qred q.

(** The readings of one monitor call *)
Definition sample_world : World :=
  {| history_time := 100; getcwd := Ok "/home/u/app"; check_time := 100 + (1 # 10);
     full_context := Ok sample_context; update_time := 101 |}.

(** The readings of a monitor call made from a working directory that has
    been removed: [os.getcwd()] raises, in the history step and again in
    [get_full_context] *)
Definition removed_cwd : exn :=
  Exn "FileNotFoundError" "[Errno 2] No such file or directory".

Definition sample_world_removed_cwd : World :=
  {| history_time := 100; getcwd := Raise removed_cwd; check_time := 100 + (1 # 10);
     full_context := Raise removed_cwd; update_time := 101 |}.

(** A shell whose [history] builtin prints two numbered lines, and no
    history file *)
Definition sample_history_sources : HistorySources :=
  {| run_history := Ok (0, "    1  ls -l" +:+ LF +:+ "    2  history" +:+ LF);
     read_bash_history := Ok None |}.

(** A transport that answers every request with status 200 and the given
    body, and a parser that reads one fixed body *)
Definition always_answers (body : string) (r : request) : exchange :=
  Responded 200 (Ok body).

Definition ollama_answer : json :=
  JObj [("model", JStr "m"); ("response", JStr " try: ls -la "); ("done", JBool true)].

Definition reads_ollama_answer (s : string) : result json :=
  if String.eqb s "{...}" then Ok ollama_answer
  else Raise (Exn "JSONDecodeError" "Expecting value: line 1 column 1 (char 0)").

(** A manager whose active name has no entry *)
Definition manager_without_service : ConfigManager :=
  {| ai_services := ∅; active_ai_service := Some "missing";
     features := {| auto_error_analysis := true; command_suggestion := true;
                    context_aware := true; chinese_help := true |} |}.

(** The readings of a second monitor call, three seconds after the first *)
Definition sample_world_later : World :=
  {| history_time := 103; getcwd := Ok "/home/u/app"; check_time := 103 + (1 # 10);
     full_context := Ok sample_context; update_time := 104 |}.

(** A work tree in which [git log] cannot be started *)
Definition git_probes_log_fails : GitProbes :=
  {| run_rev_parse := Ok (0, ".git" +:+ LF);
     run_branch := Ok (0, "main" +:+ LF);
     run_status := Ok (0, " M a.py" +:+ LF);
     run_log := Raise (Exn "OSError" "Cannot allocate memory") |}.

(** The same work tree with a working [git log] *)
Definition git_probes_ok : GitProbes :=
  {| run_rev_parse := Ok (0, ".git" +:+ LF);
     run_branch := Ok (0, "main" +:+ LF);
     run_status := Ok (0, " M a.py" +:+ LF +:+ "?? b.py" +:+ LF);
     run_log := Ok (0, "1a2b3c4 first" +:+ LF) |}.

(** Readings of a host whose [top] prints no line with [Cpu(s)] *)
Definition probes_without_cpu_line : Probes :=
  {| read_meminfo := read_meminfo sample_probes_ok;
     disk_usage := disk_usage sample_probes_ok;
     run_top := Ok (0, "top - 10:00:00 up 1 day" +:+ LF);
     run_ps := run_ps sample_probes_ok |}.

(** A configuration file that switches one feature off and says nothing
    else *)
Definition sample_config_file : list (string * json) :=
  [ ("features", JObj [("auto_error_analysis", JBool false)]) ].

(** A host with a working [base64], and one without the program (the
    shell reports status 127 and nothing is written) *)
Definition base64_installed (input : string) : Z * string := (0, b64encode input).
Definition base64_missing (input : string) : Z * string := (127, "").

(** * Properties *)

(** ** Worked instances of the built-ins and of the filters *)

Example chars_of_text : chars "a→b" = ["a"; "→"; "b"].
Proof. reflexivity. Qed.

Example strip_text : strip ("  a b " +:+ LF) = "a b".
Proof. reflexivity. Qed.

Example split_on_commas : split_on "," "a,b,,c" = ["a"; "b"; ""; "c"].
Proof. reflexivity. Qed.

Example split_cpu_line :
  split_whitespace "  %Cpu(s):  1.2 us " = ["%Cpu(s):"; "1.2"; "us"].
Proof. reflexivity. Qed.

Example slice_last_three : slice_from (-3) [1; 2; 3; 4; 5] = [3; 4; 5].
Proof. reflexivity. Qed.

Example slice_short_list : slice_from (-3) [1; 2] = [1; 2].
Proof. reflexivity. Qed.

Example command_key_foo : command_key "foo" 1 = "foo_1".
Proof. reflexivity. Qed.

Example filter_own_monitor :
  should_analyze_command "python3 ~/.ai_companion/ai_companion.py --monitor ls 2" 1 = false.
Proof. reflexivity. Qed.

Example filter_plain_failure : should_analyze_command "ls /nonexistent" 2 = true.
Proof. reflexivity. Qed.

Example b64encode_padding :
  b64encode "a" = "YQ==" /\ b64encode "ab" = "YWI=" /\ b64encode "abc" = "YWJj".
Proof. repeat split. Qed.

Example a2b_base64_incomplete : a2b_base64 "YWI" = None /\ a2b_base64 "Y" = None.
Proof. split; reflexivity. Qed.

Example decode_stderr_plain_text : _decode_stderr "ls: cannot access" = "ls: cannot access".
Proof. reflexivity. Qed.

Example sample_prompt_head :
  exists rest,
    _build_error_prompt (sample_manager "m") "foo" 1 "" sample_context
    = Ok ("你是一个智能的Linux终端AI伴侣，专门帮助用户解决Linux命令问题。请用中文回答，并保持简洁实用。"
          +:+ LF +:+ "当前模型: m" +:+ LF +:+ "当前环境信息：" +:+ LF +:+
          "- 工作目录: /home/u/app" +:+ LF +:+ "- 用户: u" +:+ LF +:+ "- 系统: Linux" +:+ LF +:+
          "- 当前目录: 3个文件" +:+ LF +:+
          "- 项目类型: node- 关键文件: package.json" +:+ LF +:+
          "- Git仓库: 是 (分支: main)- Git状态: 2个文件有变更" +:+ LF +:+
          "最近执行的命令序列: git add . → npm install" +:+ LF +:+
          "最近操作模式: 开发工具(2次)" +:+ LF +:+
          "当前操作意图: 正在进行项目设置" +:+ LF +:+ rest).
Proof. eexists. vm_compute. reflexivity. Qed.

(** ** Command history *)

Lemma slice_from_neg {A} (k : Z) (l : list A) :
  k < 0 -> - k <= Z.of_nat (length l) ->
  slice_from k l = drop (length l - Z.to_nat (- k)) l.
Proof.
  intros Hk Hl. unfold slice_from.
  destruct (Z.ltb_spec k 0) as [_|?]; [|lia].
  f_equal. lia.
Qed.

Lemma add_command_max self c : max_history (add_command self c) = max_history self.
Proof. unfold add_command. by destruct (_ >? _). Qed.

Lemma add_command_below self c :
  Z.of_nat (length (command_history self)) < max_history self ->
  command_history (add_command self c) = command_history self ++ [c].
Proof.
  intros H. unfold add_command. rewrite length_app. simpl.
  destruct (Z.gtb_spec (Z.of_nat (length (command_history self) + 1)) (max_history self));
    [lia | done].
Qed.

Lemma add_command_overflow self c :
  Z.of_nat (length (command_history self)) >= max_history self ->
  command_history (add_command self c)
  = slice_from ((- max_history self) / 2) (command_history self ++ [c]).
Proof.
  intros H. unfold add_command. rewrite length_app. simpl.
  destruct (Z.gtb_spec (Z.of_nat (length (command_history self) + 1)) (max_history self));
    [done | lia].
Qed.

Lemma fold_add_command_below evs : forall self,
  Z.of_nat (length (command_history self) + length evs) <= max_history self ->
  command_history (fold_left add_command evs self) = command_history self ++ evs
  /\ max_history (fold_left add_command evs self) = max_history self.
Proof.
  induction evs as [|e evs IH]; intros self H; simpl.
  - by rewrite app_nil_r.
  - simpl in H.
    assert (Hc : command_history (add_command self e) = command_history self ++ [e])
      by (apply add_command_below; lia).
    destruct (IH (add_command self e)) as [IH1 IH2].
    + rewrite Hc, length_app, add_command_max. simpl. lia.
    + rewrite IH1, IH2, Hc, add_command_max, <- app_assoc. done.
Qed.

(** C4. With the cap at 100, appending 101 events to an empty history
    leaves exactly 50 entries: the last 50 of the events, in the order in
    which they were appended. *)
Theorem add_command_101_keeps_last_50 (evs : list CommandInfo) :
  length evs = 101%nat ->
  let self := fold_left add_command evs (CommandHistoryAnalyzer_init 100) in
  command_history self = drop 51 evs /\ length (command_history self) = 50%nat.
Proof.
  intros Hlen.
  destruct (exists_last (l := evs)) as (front & e & ->); [by destruct evs|].
  rewrite length_app in Hlen; simpl in Hlen.
  cbv zeta. rewrite fold_left_app. simpl.
  destruct (fold_add_command_below front (CommandHistoryAnalyzer_init 100)) as [Hh Hm];
    [simpl; lia|].
  simpl in Hh, Hm.
  rewrite add_command_overflow by (rewrite Hh, Hm; lia).
  rewrite Hh, Hm. change (Z.opp 100 / 2) with (-50).
  rewrite slice_from_neg by (rewrite ?length_app; cbn [length]; lia).
  rewrite length_app; simpl length.
  replace (length front + 1 - Z.to_nat (- -50))%nat with 51%nat by lia.
  split; [done|]. rewrite length_drop, length_app. simpl. lia.
Qed.

Lemma add_command_101_keeps_last_50_witness :
  let evs := map numbered_event (seq 0 101) in
  length evs = 101%nat /\
  command_history (fold_left add_command evs (CommandHistoryAnalyzer_init 100))
  = map numbered_event (seq 51 50).
Proof.
  split; [reflexivity|].
  exact (proj1 (add_command_101_keeps_last_50 (map numbered_event (seq 0 101)) eq_refl)).
Defined.

(** ** Exit code 130 *)

(** C5. Exit code 130 is never analysed: whatever the command text, the
    time of the call and the stored dedup state, both the filter of the
    history analyzer and the dedup check of the error analyzer answer no. *)
Theorem exit_130_never_analyzed (self : ErrorAnalyzer) (command : string) (now : Q) :
  should_analyze_command command 130 = false
  /\ _should_analyze self command 130 now = false.
Proof.
  split; [reflexivity|].
  unfold _should_analyze, should_analyze_error.
  by destruct (_ && _).
Qed.

(** ** Project type of a directory listing *)

Lemma identify_in_miss pt inds rest files kf :
  (forall i, i ∈ inds -> i ∉ files) ->
  identify_in ((pt, inds) :: rest) files kf = identify_in rest files kf.
Proof.
  intros Hno. simpl.
  replace (List.filter (fun f => list_in f files) inds) with (@nil string); [done|].
  symmetry. induction inds as [|i inds IH]; [done|]. simpl.
  unfold list_in at 1. rewrite bool_decide_eq_false_2 by (apply Hno; left).
  apply IH. intros j Hj. apply Hno. by right.
Qed.

Lemma identify_in_hit pt inds rest files kf :
  (exists i, i ∈ inds /\ i ∈ files) ->
  (identify_in ((pt, inds) :: rest) files kf).1 = pt.
Proof.
  intros (i & Hi & Hf). simpl.
  destruct (List.filter _ inds) as [|x xs] eqn:E; [|done].
  exfalso. assert (Hin : In i (List.filter (fun f => list_in f files) inds)).
  { apply filter_In. split; [by apply list_elem_of_In|].
    unfold list_in. by apply bool_decide_eq_true_2. }
  by rewrite E in Hin.
Qed.

Lemma identify_in_first_match pre : forall pt inds post files kf,
  (forall q js i, (q, js) ∈ pre -> i ∈ js -> i ∉ files) ->
  (exists i, i ∈ inds /\ i ∈ files) ->
  (identify_in (pre ++ (pt, inds) :: post) files kf).1 = pt.
Proof.
  induction pre as [|[q js] pre IH]; intros pt inds post files kf Hpre Hhit.
  - by apply identify_in_hit.
  - rewrite <- app_comm_cons, identify_in_miss.
    + apply IH; [|done]. intros q' js' i Hq. apply (Hpre q' js' i). by right.
    + intros i Hi. apply (Hpre q js i); [left|done].
Qed.

(** C6. Classification is first-match-wins over the table in the order
    python, node, web, docker, git, config: the entry that decides is the
    first one with an indicator in the listing.  Hence a listing with
    package.json and no python indicator is node, and a listing with both
    requirements.txt and package.json is python. *)
Theorem identify_project_type_first_match (files key_files : list string) :
  map fst key_indicators = ["python"; "node"; "web"; "docker"; "git"; "config"]
  /\ (forall pre pt inds post,
        key_indicators = pre ++ (pt, inds) :: post ->
        (forall q js i, (q, js) ∈ pre -> i ∈ js -> i ∉ files) ->
        (exists i, i ∈ inds /\ i ∈ files) ->
        (_identify_project_type files key_files).1 = pt)
  /\ ("package.json" ∈ files ->
      (forall i, i ∈ ["requirements.txt"; "setup.py"; "pyproject.toml"; "main.py"] ->
                 i ∉ files) ->
      (_identify_project_type files key_files).1 = "node")
  /\ ("requirements.txt" ∈ files -> "package.json" ∈ files ->
      (_identify_project_type files key_files).1 = "python").
Proof.
  split; [reflexivity|]. split; [|split].
  - intros pre pt inds post Htab Hpre Hhit. unfold _identify_project_type.
    rewrite Htab. by apply identify_in_first_match.
  - intros Hpkg Hnopy. unfold _identify_project_type, key_indicators.
    rewrite identify_in_miss by done.
    apply identify_in_hit. exists "package.json". split; [left|done].
  - intros Hreq _. unfold _identify_project_type, key_indicators.
    apply identify_in_hit. exists "requirements.txt". split; [left|done].
Qed.

Lemma identify_project_type_first_match_witness :
  (_identify_project_type ["README.md"; "package.json"] []).1 = "node"
  /\ (_identify_project_type ["package.json"; "requirements.txt"] []).1 = "python".
Proof.
  split.
  - apply (identify_project_type_first_match ["README.md"; "package.json"] []).
    + apply (bool_decide_unpack _). vm_compute. exact I.
    + intros i Hi. rewrite !elem_of_cons, elem_of_nil in Hi.
      destruct Hi as [->|[->|[->|[->|[]]]]];
        apply (bool_decide_unpack _); vm_compute; exact I.
  - apply (identify_project_type_first_match ["package.json"; "requirements.txt"] []);
      apply (bool_decide_unpack _); vm_compute; exact I.
Defined.

(** ** Provider factory *)

Lemma assoc_None {A} (k : string) (l : list (string * A)) :
  k ∉ map fst l -> assoc k l = None.
Proof.
  induction l as [|[k' v] l IH]; intros Hk; [done|]. simpl.
  destruct (String.eqb_spec k k') as [->|_].
  - exfalso. apply Hk. simpl. left.
  - apply IH. intros Hin. apply Hk. simpl. by right.
Qed.

Lemma assoc_Some {A} (k : string) (l : list (string * A)) :
  k ∈ map fst l -> exists v, assoc k l = Some v.
Proof.
  induction l as [|[k' v] l IH]; simpl; intros Hk.
  - by apply elem_of_nil in Hk.
  - destruct (String.eqb_spec k k') as [->|Hne]; [by eexists|].
    apply elem_of_cons in Hk as [?|Hk]; [done|]. by apply IH.
Qed.

(** C8. The factory looks the type up by its lower-case form: two
    configurations whose types differ in case only get the same provider
    class (or both fail); OpenAI, openai and OPENAI select the
    chat-completion class; a type whose lower-case form is not a supported
    name raises the unsupported-type ValueError, and every other type
    yields a provider. *)
Theorem create_provider_case_insensitive (c1 c2 c : AIServiceConfig) :
  (lower (type c1) = lower (type c2) ->
     match create_provider c1, create_provider c2 with
     | Ok p1, Ok p2 => provider p1 = provider p2
     | Raise _, Raise _ => True
     | _, _ => False
     end)
  /\ (type c ∈ ["OpenAI"; "openai"; "OPENAI"] ->
      create_provider c = Ok {| provider := OpenAIProvider; config := c |})
  /\ (lower (type c) ∉ get_supported_types ->
      create_provider c = Raise (ValueError ("不支持的AI服务类型: " +:+ type c)))
  /\ (lower (type c) ∈ get_supported_types ->
      exists cls, create_provider c = Ok {| provider := cls; config := c |}).
Proof.
  repeat split.
  - intros Heq. unfold create_provider. rewrite Heq.
    by destruct (assoc (lower (type c2)) providers).
  - intros Ht. unfold create_provider.
    rewrite !elem_of_cons, elem_of_nil in Ht.
    by destruct Ht as [->|[->|[->|[]]]].
  - intros Hno. unfold create_provider. by rewrite (assoc_None _ _ Hno).
  - intros Hyes. unfold create_provider.
    destruct (assoc_Some _ _ Hyes) as [cls ->]. by exists cls.
Qed.

Lemma create_provider_case_insensitive_witness :
  create_provider (sample_config "OPENAI")
  = Ok {| provider := OpenAIProvider; config := sample_config "OPENAI" |}
  /\ create_provider (sample_config "gemini")
     = Raise (ValueError "不支持的AI服务类型: gemini")
  /\ (exists cls, create_provider (sample_config "Ollama")
                  = Ok {| provider := cls; config := sample_config "Ollama" |})
  /\ match create_provider (sample_config "Custom"), create_provider (sample_config "CUSTOM") with
     | Ok p1, Ok p2 => provider p1 = provider p2
     | Raise _, Raise _ => True
     | _, _ => False
     end.
Proof.
  pose proof (create_provider_case_insensitive
                (sample_config "Custom") (sample_config "CUSTOM")
                (sample_config "OPENAI")) as (H1 & H2 & _ & _).
  pose proof (create_provider_case_insensitive
                (sample_config "Custom") (sample_config "CUSTOM")
                (sample_config "gemini")) as (_ & _ & H3 & _).
  pose proof (create_provider_case_insensitive
                (sample_config "Custom") (sample_config "CUSTOM")
                (sample_config "Ollama")) as (_ & _ & _ & H4).
  split; [|split; [|split]].
  - apply H2. apply (bool_decide_unpack _). vm_compute. exact I.
  - apply H3. apply (bool_decide_unpack _). vm_compute. exact I.
  - apply H4. apply (bool_decide_unpack _). vm_compute. exact I.
  - apply H1. reflexivity.
Defined.

(** ** Provider calls *)

Lemma prefix_app (p s : string) : String.prefix p (p +:+ s) = true.
Proof.
  induction p as [|a p IH]; simpl; [by destruct s|].
  destruct (ascii_dec a a); [done|congruence].
Qed.

Lemma prefix_app_r (p s t : string) :
  String.prefix p s = true -> String.prefix p (s +:+ t) = true.
Proof.
  revert s. induction p as [|a p IH]; intros s H; simpl in *.
  - by destruct (s +:+ t).
  - destruct s as [|b s]; [done|]. simpl in H |- *. revert H.
    destruct (ascii_dec a b); [by apply IH|done].
Qed.

Lemma openai_error_detail_prefix json_loads py_repr info r :
  String.prefix "API调用失败: " info = true ->
  String.prefix "API调用失败: " (openai_error_detail json_loads py_repr info r) = true.
Proof.
  intros Hp. unfold openai_error_detail.
  destruct (json_loads (content r)) as [v|e]; simpl; [|by apply prefix_app_r].
  destruct (contains_key "error" v) as [[|]|e]; simpl; [| done | by apply prefix_app_r].
  destruct (subscript_key v "error") as [err|e]; simpl; [|by apply prefix_app_r].
  destruct (method_get err "message") as [m|e]; simpl; by apply prefix_app_r.
Qed.

(** The call ended in a branch that returns an error heading followed by
    details: the text is returned, and it starts with the heading. *)
Ltac returns_heading :=
  eexists; split; [reflexivity|]; intros _;
  rewrite ?prefix_app, ?orb_true_r; reflexivity.

Section CallApi.

Variable urlopen : request -> exchange.
Variable json_loads : string -> result json.
Variable py_repr : json -> string.

Lemma http_request_failure url data hs t r :
  (forall q, transport_failure json_loads (urlopen q)) ->
  _http_request urlopen url data hs t = Ok r ->
  status_code r <> 200 \/ exists e, json_loads (content r) = Raise e.
Proof.
  intros Hfail. unfold _http_request.
  specialize (Hfail {| url := url; data := data; headers := hs; request_timeout := t |}).
  destruct (urlopen _) as [st [body|e]|code [[body|e]|] msg|e]; simpl in Hfail;
    intros [= <-]; simpl; auto; left; lia.
Qed.

(** A 200 answer with a JSON body is no transport failure. *)
Lemma well_formed_answer url data hs t r v :
  _http_request urlopen url data hs t = Ok r ->
  status_code r = 200 ->
  json_loads (content r) = Ok v ->
  (forall q, transport_failure json_loads (urlopen q)) -> False.
Proof.
  intros Hr H200 Hv Hfail.
  destruct (http_request_failure _ _ _ _ _ Hfail Hr) as [?|[e He]]; [done|congruence].
Qed.

Lemma OpenAIProvider_call_api_returns cfg prompt :
  exists s, OpenAIProvider_call_api urlopen json_loads py_repr cfg prompt = Ok s
    /\ ((forall q, transport_failure json_loads (urlopen q)) ->
        reports_failure OpenAIProvider s = true).
Proof.
  unfold OpenAIProvider_call_api, reports_failure, startswith.
  destruct (_http_request _ _ _ _ _) as [r|e] eqn:Hr; simpl; [|returns_heading].
  destruct (Z.eqb_spec (status_code r) 200) as [H200|Hne].
  - destruct (json_loads (content r)) as [v|e] eqn:Hv; simpl; [|returns_heading].
    destruct (subscript_key v "choices") as [v1|e]; simpl; [|returns_heading].
    destruct (subscript_0 v1) as [v2|e]; simpl; [|returns_heading].
    destruct (subscript_key v2 "message") as [v3|e]; simpl; [|returns_heading].
    destruct (subscript_key v3 "content") as [v4|e]; simpl; [|returns_heading].
    destruct (method_strip v4) as [s|e]; simpl; [|returns_heading].
    exists s. split; [done|]. intros Hfail.
    destruct (well_formed_answer _ _ _ _ _ _ Hr H200 Hv Hfail).
  - eexists; split; [done|]. intros _.
    assert (Hinfo : String.prefix "API调用失败: "
              (match error_key r with
               | Some e => ("API调用失败: " +:+ pretty (status_code r)) +:+ " - " +:+ e
               | None => "API调用失败: " +:+ pretty (status_code r)
               end) = true).
    { destruct (error_key r); [apply prefix_app_r|]; apply prefix_app. }
    case_bool_decide; [done|]. by apply openai_error_detail_prefix.
Qed.

Lemma OllamaProvider_call_api_returns cfg prompt :
  exists s, OllamaProvider_call_api urlopen json_loads cfg prompt = Ok s
    /\ ((forall q, transport_failure json_loads (urlopen q)) ->
        reports_failure OllamaProvider s = true).
Proof.
  unfold OllamaProvider_call_api, reports_failure, startswith.
  destruct (_http_request _ _ _ _ _) as [r|e] eqn:Hr; simpl; [|returns_heading].
  destruct (Z.eqb_spec (status_code r) 200) as [H200|Hne]; [|returns_heading].
  destruct (json_loads (content r)) as [v|e] eqn:Hv; simpl; [|returns_heading].
  destruct (subscript_key v "response") as [v1|e]; simpl; [|returns_heading].
  destruct (method_strip v1) as [s|e]; simpl; [|returns_heading].
  exists s. split; [done|]. intros Hfail.
  destruct (well_formed_answer _ _ _ _ _ _ Hr H200 Hv Hfail).
Qed.

Lemma AnthropicProvider_call_api_returns cfg prompt :
  exists s, AnthropicProvider_call_api urlopen json_loads cfg prompt = Ok s
    /\ ((forall q, transport_failure json_loads (urlopen q)) ->
        reports_failure AnthropicProvider s = true).
Proof.
  unfold AnthropicProvider_call_api, reports_failure, startswith.
  destruct (_http_request _ _ _ _ _) as [r|e] eqn:Hr; simpl; [|returns_heading].
  destruct (Z.eqb_spec (status_code r) 200) as [H200|Hne]; [|returns_heading].
  destruct (json_loads (content r)) as [v|e] eqn:Hv; simpl; [|returns_heading].
  destruct (subscript_key v "content") as [v1|e]; simpl; [|returns_heading].
  destruct (subscript_0 v1) as [v2|e]; simpl; [|returns_heading].
  destruct (subscript_key v2 "text") as [v3|e]; simpl; [|returns_heading].
  destruct (method_strip v3) as [s|e]; simpl; [|returns_heading].
  exists s. split; [done|]. intros Hfail.
  destruct (well_formed_answer _ _ _ _ _ _ Hr H200 Hv Hfail).
Qed.

End CallApi.

(** C9. Whatever the variant, the configuration, the prompt and the
    behaviour of the transport, of the JSON parser and of the printer,
    call_api returns a string and raises nothing of class Exception.  When
    the transport fails (time-out or other error, status other than 200,
    unreadable body, body that is not JSON), the string returned starts
    with an error heading of the variant. *)
Theorem call_api_never_raises
    (urlopen : request -> exchange) (json_loads : string -> result json)
    (py_repr : json -> string) (p : AIProvider) (prompt : string) :
  exists s, call_api urlopen json_loads py_repr p prompt = Ok s
    /\ ((forall q, transport_failure json_loads (urlopen q)) ->
        reports_failure (provider p) s = true).
Proof.
  unfold call_api. destruct (provider p).
  - apply OpenAIProvider_call_api_returns.
  - apply OllamaProvider_call_api_returns.
  - apply AnthropicProvider_call_api_returns.
Qed.

Lemma call_api_never_raises_witness :
  exists s,
    call_api always_times_out no_json repr_placeholder
      {| provider := OllamaProvider; config := sample_config "ollama" |} "why?" = Ok s
    /\ reports_failure OllamaProvider s = true.
Proof.
  destruct (call_api_never_raises always_times_out no_json repr_placeholder
              {| provider := OllamaProvider; config := sample_config "ollama" |} "why?")
    as (s & Hs & Hfail).
  exists s. split; [exact Hs|]. apply Hfail. intros q. exact I.
Defined.

Example call_api_timeout_text :
  call_api always_times_out no_json repr_placeholder
    {| provider := OllamaProvider; config := sample_config "ollama" |} "why?"
  = Ok "Ollama API调用失败: 0 - ".
Proof. reflexivity. Qed.

(** ** Base64 round trip *)

Lemma all_ascii_complete (a : ascii) : In a all_ascii.
Proof.
  unfold all_ascii. rewrite <- (ascii_nat_embedding a).
  apply in_map, in_seq. pose proof (nat_ascii_bounded a). lia.
Qed.

Lemma forall_ascii (P : ascii -> bool) :
  forallb P all_ascii = true -> forall a, P a = true.
Proof.
  intros H a. rewrite forallb_forall in H. apply H, all_ascii_complete.
Qed.

Lemma forall_ascii2 (P : ascii -> ascii -> bool) :
  forallb (fun a => forallb (P a) all_ascii) all_ascii = true ->
  forall a b, P a b = true.
Proof.
  intros H a b. apply forall_ascii. revert a. by apply forall_ascii.
Qed.

(** A digit of the alphabet is not the pad and has its value in the table. *)
Lemma b64_char_digit (v : N) :
  (v < 64)%N ->
  Ascii.eqb (b64_char v) BASE64_PAD = false /\ table_a2b_base64 (b64_char v) = Some v.
Proof.
  intros Hv.
  assert (Hall : forallb (fun n => negb (Ascii.eqb (b64_char n) BASE64_PAD)
                                   && bool_decide (table_a2b_base64 (b64_char n) = Some n))
                   (map N.of_nat (seq 0 64)) = true) by (vm_compute; reflexivity).
  rewrite forallb_forall in Hall.
  assert (Hin : In v (map N.of_nat (seq 0 64))).
  { apply in_map_iff. exists (N.to_nat v). split; [lia|]. apply in_seq. lia. }
  apply Hall, andb_prop in Hin as [H1 H2].
  split; [by apply negb_true_iff|]. by apply bool_decide_eq_true in H2.
Qed.

Lemma a2b_loop_digit (v : N) (rest : string) (quad_pos : nat) (leftchar : N) (pads : nat) :
  (v < 64)%N ->
  a2b_loop (String (b64_char v) rest) quad_pos leftchar pads =
  match quad_pos with
  | 0%nat => a2b_loop rest 1 v 0
  | 1%nat => String (to_uchar (N.lor (N.shiftl leftchar 2) (N.shiftr v 4)))
               <$> a2b_loop rest 2 (N.land v 15) 0
  | 2%nat => String (to_uchar (N.lor (N.shiftl leftchar 4) (N.shiftr v 2)))
               <$> a2b_loop rest 3 (N.land v 3) 0
  | _ => String (to_uchar (N.lor (N.shiftl leftchar 6) v)) <$> a2b_loop rest 0 0 0
  end.
Proof.
  intros Hv. destruct (b64_char_digit v Hv) as [Hpad Htab].
  cbn [a2b_loop]. by rewrite Hpad, Htab.
Qed.

(** The four digits of a group are 6-bit values. *)
Lemma digits_bounded (a b : ascii) :
  (N.shiftr (byte_of a) 2 < 64)%N
  /\ (N.lor (N.shiftl (N.land (byte_of a) 3) 4) (N.shiftr (byte_of b) 4) < 64)%N
  /\ (N.lor (N.shiftl (N.land (byte_of a) 15) 2) (N.shiftr (byte_of b) 6) < 64)%N
  /\ (N.land (byte_of a) 63 < 64)%N
  /\ (N.shiftl (N.land (byte_of a) 3) 4 < 64)%N
  /\ (N.shiftl (N.land (byte_of a) 15) 2 < 64)%N.
Proof.
  pose proof (forall_ascii2
    (fun a b =>
       (N.shiftr (byte_of a) 2 <? 64)%N
       && (N.lor (N.shiftl (N.land (byte_of a) 3) 4) (N.shiftr (byte_of b) 4) <? 64)%N
       && (N.lor (N.shiftl (N.land (byte_of a) 15) 2) (N.shiftr (byte_of b) 6) <? 64)%N
       && (N.land (byte_of a) 63 <? 64)%N
       && (N.shiftl (N.land (byte_of a) 3) 4 <? 64)%N
       && (N.shiftl (N.land (byte_of a) 15) 2 <? 64)%N)
    ltac:(vm_compute; reflexivity) a b) as H.
  rewrite !andb_true_iff, !N.ltb_lt in H. tauto.
Qed.

(** The bytes rebuilt from the digits of a group are the bytes encoded. *)
Lemma first_byte_rebuilt (a b : ascii) :
  to_uchar (N.lor (N.shiftl (N.shiftr (byte_of a) 2) 2)
              (N.shiftr (N.lor (N.shiftl (N.land (byte_of a) 3) 4)
                           (N.shiftr (byte_of b) 4)) 4)) = a
  /\ to_uchar (N.lor (N.shiftl (N.shiftr (byte_of a) 2) 2)
                 (N.shiftr (N.shiftl (N.land (byte_of a) 3) 4) 4)) = a.
Proof.
  pose proof (forall_ascii2
    (fun a b =>
       Ascii.eqb
         (to_uchar (N.lor (N.shiftl (N.shiftr (byte_of a) 2) 2)
                      (N.shiftr (N.lor (N.shiftl (N.land (byte_of a) 3) 4)
                                   (N.shiftr (byte_of b) 4)) 4))) a
       && Ascii.eqb
            (to_uchar (N.lor (N.shiftl (N.shiftr (byte_of a) 2) 2)
                         (N.shiftr (N.shiftl (N.land (byte_of a) 3) 4) 4))) a)
    ltac:(vm_compute; reflexivity) a b) as H.
  rewrite andb_true_iff, !Ascii.eqb_eq in H. exact H.
Qed.

Lemma second_byte_rebuilt (a b c : ascii) :
  to_uchar (N.lor (N.shiftl (N.land (N.lor (N.shiftl (N.land (byte_of a) 3) 4)
                                       (N.shiftr (byte_of b) 4)) 15) 4)
              (N.shiftr (N.lor (N.shiftl (N.land (byte_of b) 15) 2)
                           (N.shiftr (byte_of c) 6)) 2)) = b
  /\ to_uchar (N.lor (N.shiftl (N.land (N.lor (N.shiftl (N.land (byte_of a) 3) 4)
                                          (N.shiftr (byte_of b) 4)) 15) 4)
                 (N.shiftr (N.shiftl (N.land (byte_of b) 15) 2) 2)) = b.
Proof.
  (* the low four bits of the second digit are the high four bits of [b],
     whatever [a] is *)
  assert (Hlow : N.land (N.lor (N.shiftl (N.land (byte_of a) 3) 4)
                           (N.shiftr (byte_of b) 4)) 15
                 = N.shiftr (byte_of b) 4).
  { pose proof (forall_ascii2
      (fun a b => N.eqb (N.land (N.lor (N.shiftl (N.land (byte_of a) 3) 4)
                                   (N.shiftr (byte_of b) 4)) 15)
                        (N.shiftr (byte_of b) 4))
      ltac:(vm_compute; reflexivity) a b) as H.
    by apply N.eqb_eq in H. }
  rewrite Hlow.
  pose proof (forall_ascii2
    (fun b c =>
       Ascii.eqb
         (to_uchar (N.lor (N.shiftl (N.shiftr (byte_of b) 4) 4)
                      (N.shiftr (N.lor (N.shiftl (N.land (byte_of b) 15) 2)
                                   (N.shiftr (byte_of c) 6)) 2))) b
       && Ascii.eqb
            (to_uchar (N.lor (N.shiftl (N.shiftr (byte_of b) 4) 4)
                         (N.shiftr (N.shiftl (N.land (byte_of b) 15) 2) 2))) b)
    ltac:(vm_compute; reflexivity) b c) as H.
  rewrite andb_true_iff, !Ascii.eqb_eq in H. exact H.
Qed.

Lemma third_byte_rebuilt (b c : ascii) :
  to_uchar (N.lor (N.shiftl (N.land (N.lor (N.shiftl (N.land (byte_of b) 15) 2)
                                       (N.shiftr (byte_of c) 6)) 3) 6)
              (N.land (byte_of c) 63)) = c.
Proof.
  pose proof (forall_ascii2
    (fun b c =>
       Ascii.eqb
         (to_uchar (N.lor (N.shiftl (N.land (N.lor (N.shiftl (N.land (byte_of b) 15) 2)
                                               (N.shiftr (byte_of c) 6)) 3) 6)
                      (N.land (byte_of c) 63))) c)
    ltac:(vm_compute; reflexivity) b c) as H.
  by apply Ascii.eqb_eq in H.
Qed.

Lemma string_ind3 (P : string -> Prop) :
  P "" ->
  (forall a, P (String a "")) ->
  (forall a b, P (String a (String b ""))) ->
  (forall a b c rest, P rest -> P (String a (String b (String c rest)))) ->
  forall s, P s.
Proof.
  intros H0 H1 H2 H3.
  assert (H : forall n s, (String.length s < n)%nat -> P s).
  { induction n as [|n IH]; intros s Hn; [lia|].
    destruct s as [|a [|b [|c rest]]]; auto.
    apply H3, IH. simpl in Hn. lia. }
  intros s. apply (H (S (String.length s))). lia.
Qed.

Lemma b64encode_group (a b c : ascii) (rest : string) :
  b64encode (String a (String b (String c rest))) =
  String (b64_char (N.shiftr (byte_of a) 2))
    (String (b64_char (N.lor (N.shiftl (N.land (byte_of a) 3) 4) (N.shiftr (byte_of b) 4)))
       (String (b64_char (N.lor (N.shiftl (N.land (byte_of b) 15) 2) (N.shiftr (byte_of c) 6)))
          (String (b64_char (N.land (byte_of c) 63)) (b64encode rest)))).
Proof. reflexivity. Qed.

(** Decoding what [base64] produced gives the bytes back. *)
Lemma a2b_base64_b64encode (s : string) : a2b_base64 (b64encode s) = Some s.
Proof.
  unfold a2b_base64. induction s as [|a|a b|a b c rest IH] using string_ind3.
  - reflexivity.
  - destruct (digits_bounded a a) as (H1 & _ & _ & _ & H5 & _).
    cbn [b64encode]. rewrite (a2b_loop_digit _ _ _ _ _ H1), (a2b_loop_digit _ _ _ _ _ H5).
    cbn. by rewrite (proj2 (first_byte_rebuilt a a)).
  - destruct (digits_bounded a b) as (H1 & H2 & _ & _ & _ & _).
    destruct (digits_bounded b b) as (_ & _ & _ & _ & _ & H6).
    cbn [b64encode].
    rewrite (a2b_loop_digit _ _ _ _ _ H1), (a2b_loop_digit _ _ _ _ _ H2),
      (a2b_loop_digit _ _ _ _ _ H6).
    cbn. by rewrite (proj1 (first_byte_rebuilt a b)), (proj2 (second_byte_rebuilt a b b)).
  - destruct (digits_bounded a b) as (H1 & H2 & _ & _ & _ & _).
    destruct (digits_bounded b c) as (_ & _ & H3 & _ & _ & _).
    destruct (digits_bounded c c) as (_ & _ & _ & H4 & _ & _).
    rewrite b64encode_group.
    rewrite (a2b_loop_digit _ _ _ _ _ H1), (a2b_loop_digit _ _ _ _ _ H2),
      (a2b_loop_digit _ _ _ _ _ H3), (a2b_loop_digit _ _ _ _ _ H4).
    rewrite IH. cbn [fmap option_fmap option_map].
    by rewrite (proj1 (first_byte_rebuilt a b)), (proj1 (second_byte_rebuilt a b c)),
      third_byte_rebuilt.
Qed.

Lemma b64_char_ascii (v : N) : (v < 64)%N -> (byte_of (b64_char v) <? 128)%N = true.
Proof.
  intros Hv.
  assert (Hall : forallb (fun n => (byte_of (b64_char n) <? 128)%N)
                   (map N.of_nat (seq 0 64)) = true) by (vm_compute; reflexivity).
  rewrite forallb_forall in Hall. apply Hall.
  apply in_map_iff. exists (N.to_nat v). split; [lia|]. apply in_seq. lia.
Qed.

Lemma b64encode_is_ascii (s : string) : is_ascii (b64encode s) = true.
Proof.
  unfold is_ascii. induction s as [|a|a b|a b c rest IH] using string_ind3.
  - reflexivity.
  - destruct (digits_bounded a a) as (H1 & _ & _ & _ & H5 & _).
    cbn [b64encode list_ascii_of_string forallb].
    by rewrite !b64_char_ascii.
  - destruct (digits_bounded a b) as (H1 & H2 & _ & _ & _ & _).
    destruct (digits_bounded b b) as (_ & _ & _ & _ & _ & H6).
    cbn [b64encode list_ascii_of_string forallb].
    by rewrite !b64_char_ascii.
  - destruct (digits_bounded a b) as (H1 & H2 & _ & _ & _ & _).
    destruct (digits_bounded b c) as (_ & _ & H3 & _ & _ & _).
    destruct (digits_bounded c c) as (_ & _ & _ & H4 & _ & _).
    rewrite b64encode_group. cbn [list_ascii_of_string forallb].
    by rewrite !b64_char_ascii, IH.
Qed.

Lemma b64encode_nonempty (s : string) : s <> "" -> b64encode s <> "".
Proof. by destruct s as [|a [|b [|c rest]]]. Qed.

(** C3, as the code has it.  Python's decoder inverts the standard base64
    encoding on every byte string; [_decode_stderr] returns the original
    text when its bytes are well-formed UTF-8 (newlines and NUL bytes
    included), and falls back to the encoded string itself when they are
    not. *)
Theorem decode_stderr_inverts_b64encode (text : string) :
  b64decode (b64encode text) = Some text
  /\ (utf8_valid text = true -> _decode_stderr (b64encode text) = text)
  /\ (utf8_valid text = false -> _decode_stderr (b64encode text) = b64encode text).
Proof.
  assert (Hd : b64decode (b64encode text) = Some text).
  { unfold b64decode. by rewrite b64encode_is_ascii, a2b_base64_b64encode. }
  split; [exact Hd|]. unfold _decode_stderr. rewrite Hd. cbn [mbind option_bind].
  unfold decode_utf8. split; intros Hv; rewrite Hv.
  - case_bool_decide as He; [|done]. by destruct text as [|a [|b [|c rest]]].
  - case_bool_decide as He; [|done]. by destruct text as [|a [|b [|c rest]]].
Qed.

Lemma decode_stderr_inverts_b64encode_witness :
  let text := "ls: 无法访问 'x'" +:+ LF +:+ of_bytes [0%N] +:+ "end" in
  utf8_valid text = true /\ _decode_stderr (b64encode text) = text.
Proof.
  split; [reflexivity|].
  apply (decode_stderr_inverts_b64encode
           ("ls: 无法访问 'x'" +:+ LF +:+ of_bytes [0%N] +:+ "end")).
  reflexivity.
Defined.

(** The round trip of C3 as stated fails: through the hook, [echo] adds a
    newline and the command substitution drops NUL bytes; and bytes that
    are not UTF-8 come back as their base64 text. *)
Lemma stderr_round_trip_counterexample :
  _decode_stderr (hook_encode "abc") <> "abc"
  /\ _decode_stderr (hook_encode ("a" +:+ of_bytes [0%N] +:+ "b")) = "ab" +:+ LF
  /\ _decode_stderr (b64encode (of_bytes [255%N])) = "/w=="
  /\ _decode_stderr (b64encode (of_bytes [255%N])) <> of_bytes [255%N].
Proof.
  split; [|split; [|split]]; try reflexivity; vm_compute; discriminate.
Qed.

(** ** Deduplication *)

Lemma should_analyze_accepts (self : ErrorAnalyzer) command exit_code now :
  _should_analyze self command exit_code now = true ->
  should_analyze_error command exit_code = true.
Proof. unfold _should_analyze. by destruct (_ && _). Qed.

Lemma should_analyze_after_update (self : ErrorAnalyzer) command exit_code (stamp now : Q) :
  _should_analyze (_update_analysis_cache self command exit_code stamp) command exit_code now
  = if Qlt_le_dec (now - stamp) 5 then false else should_analyze_error command exit_code.
Proof.
  unfold _should_analyze, _update_analysis_cache. cbn [last_analyzed_command last_analyzed_time].
  rewrite bool_decide_eq_true_2 by done. by destruct (Qlt_le_dec _ _).
Qed.

(** An analysis that raises before the provider has answered leaves the
    dedup state as it was, and so does a rejected one. *)
Lemma analyze_error_keeps_state urlopen json_loads py_repr cm self command exit_code
    err (t t' : Q) ctx :
  _should_analyze self command exit_code t = false
  \/ (exists e, analyze_error_body urlopen json_loads py_repr cm command exit_code err ctx
                = Raise e) ->
  (analyze_error urlopen json_loads py_repr cm self command exit_code err t ctx t').1 = self.
Proof.
  unfold analyze_error. intros [->|[e ->]]; [done|]. by destruct (negb _).
Qed.

(** C1, as the code has it.  [_should_analyze] only reads the dedup state;
    [analyze_error] writes it after an accepted analysis whose provider
    call has returned, stamped with the time t' of that write.  From then
    on the same command and exit code are rejected exactly while less than
    5 seconds have passed since t': the call at t+2 is rejected, and the
    call at t+6 is accepted exactly when the write happened by t+1. *)
Theorem dedup_window_counts_from_cache_update
    urlopen json_loads py_repr (cm : ConfigManager) (self : ErrorAnalyzer)
    (command : string) (exit_code : Z) (err : string) (t t' : Q)
    (ctx : result FullContext) (suggestion : string) :
  _should_analyze self command exit_code t = true ->
  analyze_error_body urlopen json_loads py_repr cm command exit_code err ctx
  = Ok suggestion ->
  (t <= t')%Q ->
  let self' :=
    (analyze_error urlopen json_loads py_repr cm self command exit_code err t ctx t').1 in
  self' = _update_analysis_cache self command exit_code t'
  /\ (forall u, _should_analyze self' command exit_code u = false <-> (u - t' < 5)%Q)
  /\ _should_analyze self' command exit_code (t + 2) = false
  /\ (_should_analyze self' command exit_code (t + 6) = true <-> (t' <= t + 1)%Q).
Proof.
  intros Hacc Hbody Hle self'.
  assert (Hself : self' = _update_analysis_cache self command exit_code t').
  { unfold self', analyze_error. by rewrite Hacc, Hbody. }
  pose proof (should_analyze_accepts _ _ _ _ Hacc) as Hfilter.
  split; [exact Hself|]. rewrite Hself. split; [|split].
  - intros u. rewrite should_analyze_after_update, Hfilter.
    destruct (Qlt_le_dec (u - t') 5) as [Hlt|Hge]; split; try done.
    intros Hlt. exfalso. lra.
  - rewrite should_analyze_after_update.
    destruct (Qlt_le_dec (t + 2 - t') 5) as [Hlt|Hge]; [done|]. exfalso. lra.
  - rewrite should_analyze_after_update, Hfilter.
    destruct (Qlt_le_dec (t + 6 - t') 5) as [Hlt|Hge]; split; try done.
    + intros Hle1. exfalso. lra.
    + intros _. lra.
Qed.

Lemma dedup_window_counts_from_cache_update_witness :
  let self' :=
    (analyze_error always_times_out no_json repr_placeholder (sample_manager "m")
       ErrorAnalyzer_init "foo" 1 "" 100 (Ok sample_context) (100 + (1 # 2))).1 in
  _should_analyze self' "foo" 1 (100 + 2) = false
  /\ _should_analyze self' "foo" 1 (100 + 6) = true.
Proof.
  destruct (dedup_window_counts_from_cache_update
              always_times_out no_json repr_placeholder (sample_manager "m")
              ErrorAnalyzer_init "foo" 1 "" 100 (100 + (1 # 2)) (Ok sample_context)
              "Ollama API调用失败: 0 - ")
    as (_ & _ & H2 & H6).
  - reflexivity.
  - vm_compute. reflexivity.
  - lra.
  - split; [exact H2|]. apply H6. lra.
Defined.

(** C1 as stated fails twice.  A call of [_should_analyze] that accepts
    leaves the state alone, so the same question two seconds later is
    accepted again; and after an analysis whose provider call took two
    seconds, the question at t+6 is still rejected. *)
Lemma dedup_window_counterexample :
  _should_analyze ErrorAnalyzer_init "foo" 1 100 = true
  /\ _should_analyze ErrorAnalyzer_init "foo" 1 (100 + 2) = true
  /\ let self' :=
       (analyze_error always_times_out no_json repr_placeholder (sample_manager "m")
          ErrorAnalyzer_init "foo" 1 "" 100 (Ok sample_context) (100 + 2)).1 in
     _should_analyze ErrorAnalyzer_init "foo" 1 100 = true
     /\ _should_analyze self' "foo" 1 (100 + 6) = false.
Proof. repeat split; vm_compute; reflexivity. Qed.


(** ** The failure prompt *)

(** C2, as the code has it.  Besides the event and the context the prompt
    shows the model name of the active service, read from the
    configuration manager: two managers with a valid active service of the
    same model name give the same prompt for the same event and context,
    whatever else they hold. *)
Theorem build_error_prompt_depends_on_model (cm1 cm2 : ConfigManager)
    (a1 a2 : AIServiceConfig) (command : string) (exit_code : Z) (err : string)
    (context : FullContext) :
  get_active_ai_service cm1 = Ok a1 ->
  get_active_ai_service cm2 = Ok a2 ->
  model a1 = model a2 ->
  _build_error_prompt cm1 command exit_code err context
  = _build_error_prompt cm2 command exit_code err context
  /\ exists prompt, _build_error_prompt cm1 command exit_code err context = Ok prompt.
Proof.
  intros H1 H2 Hm. unfold _build_error_prompt. rewrite H1, H2. simpl.
  rewrite Hm. split; [done|]. by eexists.
Qed.

Lemma build_error_prompt_depends_on_model_witness :
  let cm2 :=
    {| ai_services :=
         {[ "default" := sample_config "openai";
            "local" := {| type := "ollama"; base_url := "http://127.0.0.1:11434";
                          model := "m"; api_key := Some "k"; timeout := 5 |} ]};
       active_ai_service := Some "local";
       features := {| auto_error_analysis := false; command_suggestion := true;
                      context_aware := true; chinese_help := true |} |} in
  _build_error_prompt (sample_manager "m") "foo" 1 "" sample_context
  = _build_error_prompt cm2 "foo" 1 "" sample_context.
Proof.
  intros cm2.
  refine (proj1 (build_error_prompt_depends_on_model (sample_manager "m") cm2
                   {| type := "ollama"; base_url := "http://localhost:11434";
                      model := "m"; api_key := None; timeout := 30 |}
                   {| type := "ollama"; base_url := "http://127.0.0.1:11434";
                      model := "m"; api_key := Some "k"; timeout := 5 |}
                   "foo" 1 "" sample_context _ _ _)).
  - vm_compute. reflexivity.
  - vm_compute. reflexivity.
  - reflexivity.
Defined.

(** C2 as stated fails: the same event and context give two different
    prompts once the active model has changed. *)
Lemma build_error_prompt_counterexample :
  _build_error_prompt (sample_manager "gpt-4o-mini") "foo" 1 "" sample_context
  <> _build_error_prompt (sample_manager "llama3") "foo" 1 "" sample_context.
Proof. vm_compute. discriminate. Qed.

(** ** Resource snapshot *)

Section Snapshot.

Variable parse_int : string -> result Z.
Variable parse_float : string -> result Q.
Variable round1 : Q -> Q.

Let status := get_system_status parse_int parse_float round1.

(** C7. A probe whose [try] block raises (or, for the two sub-processes,
    ends with a return code other than 0 or without a usable line) gives 0
    in its own fields; and every group of fields is computed from the
    reading of its own probe alone, so the sibling fields are what they
    are when that probe succeeds. *)
Theorem probe_failure_is_isolated (p p' : Probes) :
  ((exists e, memory_probe parse_int round1 p = Raise e) ->
     memory_percent (status p) = 0%Q /\ memory_total_gb (status p) = 0%Q
     /\ memory_available_gb (status p) = 0%Q)
  /\ ((exists e, disk_probe round1 p = Raise e) ->
     disk_percent (status p) = 0%Q /\ disk_total_gb (status p) = 0%Q
     /\ disk_free_gb (status p) = 0%Q)
  /\ ((exists e, cpu_probe parse_float round1 p = Raise e)
      \/ cpu_probe parse_float round1 p = Ok None ->
     cpu_percent (status p) = 0%Q)
  /\ ((exists e, process_probe p = Raise e) \/ process_probe p = Ok None ->
     processes (status p) = 0)
  /\ (read_meminfo p' = read_meminfo p ->
     memory_percent (status p') = memory_percent (status p)
     /\ memory_total_gb (status p') = memory_total_gb (status p)
     /\ memory_available_gb (status p') = memory_available_gb (status p))
  /\ (disk_usage p' = disk_usage p ->
     disk_percent (status p') = disk_percent (status p)
     /\ disk_total_gb (status p') = disk_total_gb (status p)
     /\ disk_free_gb (status p') = disk_free_gb (status p))
  /\ (run_top p' = run_top p -> cpu_percent (status p') = cpu_percent (status p))
  /\ (run_ps p' = run_ps p -> processes (status p') = processes (status p)).
Proof.
  unfold status, get_system_status, catch at 1; cbn [cpu_percent memory_percent
    memory_total_gb memory_available_gb disk_percent disk_total_gb disk_free_gb processes].
  repeat apply conj.
  - intros [e He]. unfold _get_memory_info. by rewrite He.
  - intros [e He]. unfold _get_disk_info. by rewrite He.
  - intros [[e He]|He]; unfold _get_cpu_percent; by rewrite He.
  - intros [[e He]|He]; unfold _get_process_count; by rewrite He.
  - intros He. unfold _get_memory_info, memory_probe. by rewrite He.
  - intros He. unfold _get_disk_info, disk_probe. by rewrite He.
  - intros He. unfold _get_cpu_percent, cpu_probe. by rewrite He.
  - intros He. unfold _get_process_count, process_probe. by rewrite He.
Qed.

End Snapshot.

Lemma probe_failure_is_isolated_witness :
  let s := get_system_status sample_int sample_float sample_round sample_probes in
  let s' := get_system_status sample_int sample_float sample_round sample_probes_ok in
  (memory_percent s = 0%Q /\ memory_total_gb s = 0%Q /\ memory_available_gb s = 0%Q)
  /\ (disk_percent s' = disk_percent s /\ disk_total_gb s' = disk_total_gb s
      /\ disk_free_gb s' = disk_free_gb s)
  /\ cpu_percent s' = cpu_percent s
  /\ processes s' = processes s.
Proof.
  destruct (probe_failure_is_isolated sample_int sample_float sample_round
              sample_probes sample_probes_ok)
    as (Hmem & _ & _ & _ & _ & Hdisk & Hcpu & Hps).
  split; [|split; [|split]].
  - apply Hmem. eexists. reflexivity.
  - apply Hdisk. reflexivity.
  - apply Hcpu. reflexivity.
  - apply Hps. reflexivity.
Defined.

Example sample_snapshot :
  get_system_status sample_int sample_float sample_round sample_probes_ok
  = {| cpu_percent := 19 # 10; memory_percent := 50; memory_total_gb := 1 # 512;
       memory_available_gb := 1 # 1024; disk_percent := 25;
       disk_total_gb := 25 # 268435456; disk_free_gb := 75 # 1073741824;
       processes := 2 |}.
Proof. vm_compute. reflexivity. Qed.

(** ** The monitor entry point *)

Lemma slice_from_keeps_last {A} (k : Z) (h : list A) (e : A) :
  k <= 0 -> last (slice_from k (h ++ [e])) = Some e.
Proof.
  intros Hk. unfold slice_from. rewrite length_app. cbn [length].
  rewrite drop_app_le.
  - apply last_snoc.
  - destruct (Z.ltb_spec k 0); lia.
Qed.

(** A monitor call in which [os.getcwd()] returns: the call returns, and
    the state after it has the history with the event added and the same
    configuration, whatever the gates decide. *)
Lemma monitor_command_with_cwd
    urlopen json_loads py_repr (self : AICompanion) (w : World)
    (command : string) (exit_code : Z) (stderr_content dir : string) :
  getcwd w = Ok dir ->
  let out := monitor_command urlopen json_loads py_repr self w command exit_code
               stderr_content in
  (exists shown, out.2 = Ok shown)
  /\ history_analyzer out.1
     = add_command (history_analyzer self)
         {| command := command; exit_code := exit_code; output := "";
            error := _decode_stderr stderr_content;
            timestamp := history_time w; cwd := dir |}
  /\ config_manager out.1 = config_manager self.
Proof.
  intros Hcwd. cbv zeta. unfold monitor_command, add_command_to_history.
  rewrite Hcwd. cbn [bind].
  destruct (_ && _); [|by eauto].
  destruct (analyze_error _ _ _ _ _ _ _ _ _ _ _) as [analyzer suggestion].
  cbn [fst snd history_analyzer config_manager]. by eauto.
Qed.

(** C10. A monitor call in which the working directory can be read
    returns, and whatever the exit code, the configuration, the dedup
    state and the outcome of the analysis, the history after it is the
    history before it with one event added by add_command: the event with
    the given command and exit code, the decoded stderr, the time and the
    working directory read at the call.  The event is the last entry, and
    below the cap the history has grown by exactly this entry.  When
    [os.getcwd()] raises, the call raises the same exception and leaves
    the whole state, the history included, as it was. *)
Theorem monitor_command_appends_before_gating
    urlopen json_loads py_repr (self : AICompanion) (w : World)
    (command : string) (exit_code : Z) (stderr_content : string) :
  let out := monitor_command urlopen json_loads py_repr self w command exit_code
               stderr_content in
  (forall dir, getcwd w = Ok dir ->
     let cmd_info :=
       {| command := command; exit_code := exit_code; output := "";
          error := _decode_stderr stderr_content;
          timestamp := history_time w; cwd := dir |} in
     (exists shown, out.2 = Ok shown)
     /\ history_analyzer out.1 = add_command (history_analyzer self) cmd_info
     /\ config_manager out.1 = config_manager self
     /\ (0 <= max_history (history_analyzer self) ->
         last (command_history (history_analyzer out.1)) = Some cmd_info)
     /\ (Z.of_nat (length (command_history (history_analyzer self)))
           < max_history (history_analyzer self) ->
         command_history (history_analyzer out.1)
         = command_history (history_analyzer self) ++ [cmd_info]))
  /\ (forall e, getcwd w = Raise e -> out = (self, Raise e)).
Proof.
  cbv zeta. split.
  - intros dir Hcwd.
    destruct (monitor_command_with_cwd urlopen json_loads py_repr self w command exit_code
                stderr_content dir Hcwd) as (Hret & Hh & Hc).
    split; [exact Hret|]. split; [exact Hh|]. split; [exact Hc|].
    rewrite Hh. split.
    + intros Hmax. unfold add_command.
      destruct (_ >? _); cbn [command_history]; [|apply last_snoc].
      apply slice_from_keeps_last.
      apply Z.div_le_upper_bound; lia.
    + apply add_command_below.
  - intros e Hcwd. unfold monitor_command, add_command_to_history.
    by rewrite Hcwd.
Qed.

Lemma monitor_command_appends_before_gating_witness :
  let out :=
    monitor_command always_times_out no_json repr_placeholder
      (AICompanion_init (sample_manager "m")) sample_world "sleep 100" 130 "" in
  command_history (history_analyzer out.1)
  = [ {| command := "sleep 100"; exit_code := 130; output := ""; error := "";
         timestamp := 100; cwd := "/home/u/app" |} ].
Proof.
  destruct (monitor_command_appends_before_gating always_times_out no_json repr_placeholder
              (AICompanion_init (sample_manager "m")) sample_world "sleep 100" 130 "")
    as [Hreturns _].
  destruct (Hreturns "/home/u/app" eq_refl) as (_ & _ & _ & _ & Hgrown).
  apply Hgrown. vm_compute. reflexivity.
Defined.

(** The claim of C10 as stated fails: a monitor call made from a working
    directory that has been removed raises [FileNotFoundError] before the
    event is built, so no event is appended, for a failure as for exit
    code 0. *)
Lemma monitor_command_appends_counterexample :
  let self := AICompanion_init (sample_manager "m") in
  let failed :=
    monitor_command always_times_out no_json repr_placeholder self
      sample_world_removed_cwd "ls /data" 2 "" in
  let succeeded :=
    monitor_command always_times_out no_json repr_placeholder self
      sample_world_removed_cwd "ls" 0 "" in
  failed.2 = Raise removed_cwd
  /\ command_history (history_analyzer failed.1) = []
  /\ succeeded.2 = Raise removed_cwd
  /\ command_history (history_analyzer succeeded.1) = []
  /\ ~ (forall w command exit_code stderr_content,
          exists cmd_info,
            command_history
              (history_analyzer
                 (monitor_command always_times_out no_json repr_placeholder self w
                    command exit_code stderr_content).1)
            = command_history (history_analyzer self) ++ [cmd_info]).
Proof.
  cbv zeta. repeat split; try reflexivity.
  intros Hall. destruct (Hall sample_world_removed_cwd "ls" 0 "") as [cmd_info Happ].
  discriminate Happ.
Qed.

(** * Further properties of the sources *)

(** ** Slices *)

Lemma slice_from_suffix {A} (k : Z) (l : list A) : slice_from k l `suffix_of` l.
Proof. unfold slice_from. apply suffix_drop. Qed.

Lemma slice_from_zero {A} (l : list A) : slice_from 0 l = l.
Proof. unfold slice_from. simpl. by rewrite Z.min_l by lia. Qed.

Lemma slice_from_neg_length {A} (k : Z) (l : list A) :
  1 <= k -> Z.of_nat (length (slice_from (- k) l)) = Z.min k (Z.of_nat (length l)).
Proof.
  intros Hk. unfold slice_from.
  destruct (Z.ltb_spec (- k) 0); [|lia]. rewrite length_drop. lia.
Qed.

Lemma slice_from_neg_app {A} (k : Z) (pre l : list A) :
  1 <= k <= Z.of_nat (length l) -> slice_from (- k) (pre ++ l) = slice_from (- k) l.
Proof.
  intros Hk. rewrite !slice_from_neg by (rewrite ?length_app; lia).
  rewrite length_app.
  replace (length pre + length l - Z.to_nat (- - k))%nat
    with (length pre + (length l - Z.to_nat (- - k)))%nat by lia.
  by rewrite drop_app_add.
Qed.

(** ** The history cap *)

Lemma add_command_within_cap (self : CommandHistoryAnalyzer) (c : CommandInfo) :
  1 <= max_history self ->
  Z.of_nat (length (command_history self)) <= max_history self ->
  Z.of_nat (length (command_history (add_command self c))) <= max_history self.
Proof.
  intros Hmax Hlen. unfold add_command.
  destruct (Z.gtb_spec (Z.of_nat (length (command_history self ++ [c])))
              (max_history self)) as [Hgt|Hle]; cbn [command_history]; [|exact Hle].
  assert (Hk : (- max_history self) / 2 < 0) by (apply Z.div_lt_upper_bound; lia).
  replace ((- max_history self) / 2) with (- - ((- max_history self) / 2)) by lia.
  rewrite slice_from_neg_length by lia.
  assert (- max_history self <= 2 * ((- max_history self) / 2) + 1).
  { pose proof (Z.mod_pos_bound (- max_history self) 2 ltac:(lia)).
    pose proof (Z.div_mod (- max_history self) 2 ltac:(lia)). lia. }
  lia.
Qed.

Lemma add_command_suffix (self : CommandHistoryAnalyzer) (c : CommandInfo) :
  command_history (add_command self c) `suffix_of` (command_history self ++ [c]).
Proof.
  unfold add_command.
  destruct (_ >? _); cbn [command_history]; [apply slice_from_suffix|done].
Qed.

Lemma add_command_last (self : CommandHistoryAnalyzer) (c : CommandInfo) :
  0 <= max_history self -> last (command_history (add_command self c)) = Some c.
Proof.
  intros Hmax. unfold add_command.
  destruct (_ >? _); cbn [command_history]; [|apply last_snoc].
  apply slice_from_keeps_last. apply Z.div_le_upper_bound; lia.
Qed.

(** X1. With a cap of at least 1, a history within the cap stays within
    the cap when an event is added; whatever the cap, the history after
    the call is a suffix of the old history followed by the new event;
    and with a cap of 0 nothing is ever dropped, because [h[-0:]] is the
    whole list. *)
Theorem add_command_bounded (self : CommandHistoryAnalyzer) (c : CommandInfo) :
  (1 <= max_history self ->
   Z.of_nat (length (command_history self)) <= max_history self ->
   Z.of_nat (length (command_history (add_command self c))) <= max_history self)
  /\ command_history (add_command self c) `suffix_of` (command_history self ++ [c])
  /\ (max_history self = 0 ->
      command_history (add_command self c) = command_history self ++ [c]).
Proof.
  split; [apply add_command_within_cap|]. split; [apply add_command_suffix|].
  intros H0. unfold add_command. rewrite H0. change (- 0 / 2) with 0.
  destruct (_ >? _); cbn [command_history]; [apply slice_from_zero|done].
Qed.

Lemma add_command_bounded_witness :
  let self := {| max_history := 3; command_history := map numbered_event [1; 2; 3]%nat |} in
  Z.of_nat (length (command_history (add_command self (numbered_event 4)))) <= 3
  /\ command_history (add_command {| max_history := 0; command_history := [] |}
                        (numbered_event 4)) = [numbered_event 4].
Proof.
  split.
  - apply (add_command_bounded
             {| max_history := 3; command_history := map numbered_event [1; 2; 3]%nat |}
             (numbered_event 4)); simpl; lia.
  - apply (add_command_bounded {| max_history := 0; command_history := [] |}
             (numbered_event 4)). reflexivity.
Defined.

(** ** Recent failures *)

(** X2. The commands returned by get_recent_failed_commands all failed
    with an exit code other than 130, come from the history in history
    order, and are at most [limit] many when [limit] is at least 1; with
    [limit] 0 every failed command of the history is returned. *)
Theorem recent_failed_commands_sound (self : CommandHistoryAnalyzer) (limit : Z) :
  let failed := List.filter (fun cmd => negb (exit_code cmd =? 0) && negb (exit_code cmd =? 130))
                  (command_history self) in
  (forall cmd, cmd ∈ get_recent_failed_commands self limit ->
     exit_code cmd <> 0 /\ exit_code cmd <> 130)
  /\ get_recent_failed_commands self limit `sublist_of` command_history self
  /\ (1 <= limit -> Z.of_nat (length (get_recent_failed_commands self limit)) <= limit)
  /\ (limit = 0 -> get_recent_failed_commands self limit = failed).
Proof.
  intros failed. unfold get_recent_failed_commands. fold failed.
  assert (Hsuf : slice_from (- limit) failed `suffix_of` failed) by apply slice_from_suffix.
  split; [|split; [|split]].
  - intros cmd Hin.
    assert (Hf : cmd ∈ failed).
    { destruct Hsuf as [pre ->]. apply elem_of_app. by right. }
    apply list_elem_of_In, filter_In in Hf as [_ Hf].
    apply andb_prop in Hf as [H0 H130].
    apply negb_true_iff in H0, H130. split; lia.
  - trans failed.
    { destruct Hsuf as [pre Heq]. rewrite Heq at 2. by apply sublist_inserts_l. }
    unfold failed. clear. induction (command_history self) as [|x l IH]; simpl; [done|].
    destruct (_ && _); by constructor.
  - intros Hl. rewrite slice_from_neg_length by done. lia.
  - intros ->. apply slice_from_zero.
Qed.

Lemma recent_failed_commands_sound_witness :
  let self := {| max_history := 100; command_history := map numbered_event [0; 1; 130; 2]%nat |} in
  Z.of_nat (length (get_recent_failed_commands self 1)) <= 1
  /\ get_recent_failed_commands self 0 = map numbered_event [1; 2]%nat.
Proof.
  split.
  - apply (recent_failed_commands_sound
             {| max_history := 100; command_history := map numbered_event [0; 1; 130; 2]%nat |} 1).
    lia.
  - apply (recent_failed_commands_sound
             {| max_history := 100; command_history := map numbered_event [0; 1; 130; 2]%nat |} 0).
    reflexivity.
Defined.

(** ** Command patterns *)

Lemma insert_by_count_perm (x : string * Z) (l : list (string * Z)) :
  insert_by_count x l ≡ₚ x :: l.
Proof.
  induction l as [|y l IH]; simpl; [done|].
  destruct (y.2 <=? x.2); [done|]. rewrite IH. apply Permutation_swap.
Qed.

Lemma sorted_by_count_perm (l : list (string * Z)) : sorted_by_count l ≡ₚ l.
Proof.
  induction l as [|x l IH]; simpl; [done|].
  by rewrite insert_by_count_perm, IH.
Qed.

Lemma insert_by_count_sorted (x : string * Z) (l : list (string * Z)) :
  StronglySorted (fun a b => b.2 <= a.2) l ->
  StronglySorted (fun a b => b.2 <= a.2) (insert_by_count x l).
Proof.
  induction 1 as [|y l Hl IH Hy]; simpl; [repeat constructor|].
  destruct (Z.leb_spec y.2 x.2) as [Hle|Hgt].
  - constructor; [by constructor|]. constructor; [done|].
    eapply Forall_impl; [exact Hy|]. simpl. lia.
  - constructor; [done|].
    rewrite insert_by_count_perm. constructor; [lia|done].
Qed.

Lemma sorted_by_count_sorted (l : list (string * Z)) :
  StronglySorted (fun a b => b.2 <= a.2) (sorted_by_count l).
Proof.
  induction l as [|x l IH]; simpl; [constructor|]. by apply insert_by_count_sorted.
Qed.

Lemma total_perm (l l' : list Z) : l ≡ₚ l' -> foldr Z.add 0 l = foldr Z.add 0 l'.
Proof.
  induction 1 as [|x l l' _ IH|x y l|l l' l'' _ IH1 _ IH2]; cbn [foldr]; lia.
Qed.

Lemma increment_total name counts :
  foldr Z.add 0 (increment name counts).*2 = foldr Z.add 0 counts.*2 + 1.
Proof.
  induction counts as [|[k n] counts IH]; [done|]. cbn [increment].
  destruct (String.eqb name k); rewrite !fmap_cons; cbn [foldr snd]; [|rewrite IH]; lia.
Qed.

Lemma increment_keys name counts :
  (increment name counts).*1
  = if bool_decide (name ∈ counts.*1) then counts.*1 else counts.*1 ++ [name].
Proof.
  induction counts as [|[k n] counts IH]; [done|]. cbn [increment].
  destruct (String.eqb_spec name k) as [->|Hne]; rewrite !fmap_cons; cbn [fst].
  - by rewrite bool_decide_eq_true_2 by left.
  - rewrite IH. case_bool_decide as Hin.
    + by rewrite bool_decide_eq_true_2 by (by right).
    + rewrite bool_decide_eq_false_2; [done|].
      intros [?|?]%elem_of_cons; congruence.
Qed.

Lemma increment_positive name counts :
  Forall (fun item => 1 <= item.2) counts ->
  Forall (fun item => 1 <= item.2) (increment name counts).
Proof.
  induction 1 as [|[k n] counts Hn Hrest IH]; cbn [increment].
  - constructor; [cbn [snd]; lia|constructor].
  - cbn [snd] in Hn. destruct (String.eqb name k); constructor; cbn [snd]; try done. lia.
Qed.

Lemma first_pattern_name table name cmd :
  first_pattern table cmd = Some name -> name ∈ table.*1.
Proof.
  induction table as [|[k pcs] table IH]; simpl; [done|].
  destruct (existsb _ pcs); [intros [= ->]; left|]. intros H. right. by apply IH.
Qed.

Lemma count_patterns_spec commands : forall counts,
  let r := count_patterns commands counts in
  foldr Z.add 0 r.*2
  = foldr Z.add 0 counts.*2
    + Z.of_nat (length (filter (fun c => is_Some (first_pattern command_patterns_table
                                                     (cmd_name c))) commands))
  /\ (NoDup counts.*1 -> NoDup r.*1)
  /\ (Forall (fun item => 1 <= item.2) counts -> Forall (fun item => 1 <= item.2) r)
  /\ (counts.*1 ⊆ command_patterns_table.*1 -> r.*1 ⊆ command_patterns_table.*1).
Proof.
  induction commands as [|c commands IH]; intros counts; cbv zeta; cbn [count_patterns].
  - rewrite filter_nil. repeat split; try done. simpl. lia.
  - destruct (first_pattern command_patterns_table (cmd_name c)) as [name|] eqn:Hc.
    + destruct (IH (increment name counts)) as (Ht & Hk & Hp & Hs).
      rewrite filter_cons_True by (rewrite Hc; by eexists).
      split; [|split; [|split]].
      * rewrite Ht, increment_total. simpl length. lia.
      * intros Hnd. apply Hk. rewrite increment_keys.
        case_bool_decide as Hin; [done|].
        apply NoDup_app. split; [done|]. split; [|apply NoDup_singleton].
        intros x Hx ->%list_elem_of_singleton. done.
      * intros Hpos. by apply Hp, increment_positive.
      * intros Hsub. apply Hs. rewrite increment_keys.
        case_bool_decide; [done|]. intros x [Hx| ->%list_elem_of_singleton]%elem_of_app.
        -- by apply Hsub.
        -- by eapply first_pattern_name.
    + rewrite filter_cons_False by (rewrite Hc; by intros [? ?]).
      apply IH.
Qed.

Lemma first_pattern_first table cmd name :
  first_pattern table cmd = Some name
  <-> exists before pattern_commands after,
        table = before ++ (name, pattern_commands) :: after
        /\ existsb (startswith cmd) pattern_commands = true
        /\ Forall (fun entry => existsb (startswith cmd) entry.2 = false) before.
Proof.
  induction table as [|[k pcs] table IH]; cbn [first_pattern].
  - split; [done|]. intros (before & ? & ? & Heq & _). by destruct before.
  - destruct (existsb (startswith cmd) pcs) eqn:Hk.
    + split.
      * intros [= ->]. exists [], pcs, table. by repeat split.
      * intros ([|[k' pcs'] before] & pcs0 & after & Heq & Hhit & Hmiss).
        -- by injection Heq as -> _ _.
        -- injection Heq as -> -> _. apply Forall_cons in Hmiss as [Hmiss _].
           cbn [snd] in Hmiss. congruence.
    + rewrite IH. split.
      * intros (before & pcs0 & after & -> & Hhit & Hmiss).
        exists ((k, pcs) :: before), pcs0, after. split; [done|]. split; [done|].
        by constructor.
      * intros ([|[k' pcs'] before] & pcs0 & after & Heq & Hhit & Hmiss).
        -- injection Heq as _ -> _. congruence.
        -- injection Heq as _ _ ->. apply Forall_cons in Hmiss as [_ Hmiss].
           by exists before, pcs0, after.
Qed.

Lemma increment_lookup k name counts :
  default 0 (assoc k (increment name counts))
  = default 0 (assoc k counts) + (if String.eqb k name then 1 else 0).
Proof.
  induction counts as [|[k' n] counts IH]; cbn [increment assoc].
  - destruct (String.eqb k name); cbn [default from_option id]; lia.
  - destruct (String.eqb_spec name k') as [->|Hne]; cbn [assoc].
    + destruct (String.eqb k k'); cbn [default from_option id]; lia.
    + destruct (String.eqb_spec k k') as [->|Hk].
      * destruct (String.eqb_spec k' name) as [->|_]; [done|].
        cbn [default from_option id]. lia.
      * exact IH.
Qed.

Lemma count_patterns_lookup k commands : forall counts,
  default 0 (assoc k (count_patterns commands counts))
  = default 0 (assoc k counts)
    + Z.of_nat (length (filter (fun c => first_pattern command_patterns_table (cmd_name c)
                                         = Some k) commands)).
Proof.
  induction commands as [|c commands IH]; intros counts; cbn [count_patterns].
  - rewrite filter_nil. simpl. lia.
  - rewrite IH.
    destruct (first_pattern command_patterns_table (cmd_name c)) as [name|] eqn:Hc.
    + rewrite increment_lookup.
      destruct (String.eqb_spec k name) as [->|Hne].
      * rewrite filter_cons_True by done. simpl length. lia.
      * rewrite filter_cons_False by congruence. lia.
    + rewrite filter_cons_False by congruence. lia.
Qed.

Lemma assoc_elem_of {A} (k : string) (v : A) (l : list (string * A)) :
  NoDup l.*1 -> ((k, v) ∈ l <-> assoc k l = Some v).
Proof.
  induction l as [|[k' v'] l IH]; cbn [assoc]; intros Hnd.
  - split; [by intros ?%elem_of_nil|done].
  - rewrite fmap_cons in Hnd. apply NoDup_cons in Hnd as [Hfresh Hnd].
    rewrite elem_of_cons. destruct (String.eqb_spec k k') as [->|Hne].
    + split; [|intros [= ->]; by left].
      intros [[= ->]|Hin]; [done|]. exfalso. apply Hfresh.
      apply list_elem_of_fmap. by exists (k', v).
    + rewrite <- IH by done. split; [|by right]. intros [[= -> _]|Hin]; done.
Qed.

(** X3. In the result of analyze_command_patterns every command is counted
    once, under the first category of the table with a program name that
    is a prefix of the command's first word, or not at all: a category is
    listed exactly when at least one command falls under it, with the
    number of these commands as its count, and the counts add up to the
    number of commands that match a category.  The categories are listed
    once each, in order of non-increasing count. *)
Theorem analyze_command_patterns_counts (commands : list string) :
  let r := analyze_command_patterns commands in
  (forall name n,
     (name, n) ∈ r
     <-> 1 <= n
         /\ n = Z.of_nat
                  (length (filter (fun c => first_pattern command_patterns_table (cmd_name c)
                                            = Some name) commands)))
  /\ (forall name c,
        first_pattern command_patterns_table (cmd_name c) = Some name
        <-> exists before pattern_commands after,
              command_patterns_table = before ++ (name, pattern_commands) :: after
              /\ existsb (startswith (cmd_name c)) pattern_commands = true
              /\ Forall (fun entry => existsb (startswith (cmd_name c)) entry.2 = false)
                   before)
  /\ foldr Z.add 0 r.*2
     = Z.of_nat (length (filter (fun c => is_Some (first_pattern command_patterns_table
                                                     (cmd_name c))) commands))
  /\ StronglySorted (fun a b => b.2 <= a.2) r
  /\ NoDup r.*1
  /\ (forall name n, (name, n) ∈ r -> name ∈ command_patterns_table.*1).
Proof.
  cbv zeta. split; [|split; [intros name c; apply first_pattern_first|]].
  - intros name n. unfold analyze_command_patterns. destruct commands as [|c commands].
    { rewrite filter_nil. split; [by intros ?%elem_of_nil|]. simpl. lia. }
    destruct (count_patterns_spec (c :: commands) []) as (_ & Hk & Hp & _).
    pose proof (count_patterns_lookup name (c :: commands) []) as Hl.
    set (counts := count_patterns (c :: commands) []) in *.
    rewrite (sorted_by_count_perm counts).
    rewrite (assoc_elem_of name n counts (Hk ltac:(constructor))).
    cbn [assoc default from_option id] in Hl. split.
    + intros Hn. rewrite Hn in Hl. cbn [default from_option id] in Hl.
      split; [|lia]. specialize (Hp ltac:(constructor)). rewrite Forall_forall in Hp.
      apply (Hp (name, n)).
      by apply (assoc_elem_of name n counts (Hk ltac:(constructor))).
    + intros [Hpos ->]. destruct (assoc name counts) as [m|] eqn:Hm.
      * cbn [default from_option id] in Hl. f_equal. lia.
      * cbn [default from_option id] in Hl. lia.
  - unfold analyze_command_patterns. destruct commands as [|c commands].
    { simpl. split; [done|]. split; [constructor|]. split; [constructor|].
      by intros ? ? ?%elem_of_nil. }
    destruct (count_patterns_spec (c :: commands) []) as (Ht & Hk & Hp & Hs).
    set (counts := count_patterns (c :: commands) []) in *.
    pose proof (sorted_by_count_perm counts) as Hperm.
    split; [|split; [|split]].
    + rewrite (total_perm _ counts.*2) by (by apply fmap_Permutation). rewrite Ht. simpl. lia.
    + apply sorted_by_count_sorted.
    + rewrite Hperm. apply Hk. constructor.
    + intros name n Hin. rewrite Hperm in Hin.
      apply Hs; [intros x Hx; by apply elem_of_nil in Hx|].
      apply list_elem_of_fmap. by exists (name, n).
Qed.

(** The commands [ps aux] fall under the third category, which lists [ps]
    before the tenth does. *)
Example analyze_command_patterns_ps :
  analyze_command_patterns ["ps aux"; "ls"; "ls -l"; "frobnicate"]
  = [("文件操作", 2); ("系统管理", 1)].
Proof. vm_compute. reflexivity. Qed.

(** ** Command sequences and work mode *)

Lemma first_sequence_nonempty table recent : first_sequence table recent <> "".
Proof.
  induction table as [|[name kws] table IH]; simpl; [done|].
  by destruct (existsb _ recent).
Qed.

(** X4. analyze_command_sequence returns the empty string for fewer than
    two commands and a non-empty label otherwise, and it looks at the last
    three commands only: commands before them never change the label. *)
Theorem analyze_command_sequence_last_three (pre l : list string) :
  ((length l < 2)%nat -> analyze_command_sequence l = "")
  /\ ((2 <= length l)%nat -> analyze_command_sequence l <> "")
  /\ ((3 <= length l)%nat ->
      analyze_command_sequence (pre ++ l) = analyze_command_sequence l).
Proof.
  unfold analyze_command_sequence. split; [|split].
  - intros H. by destruct (Nat.ltb_spec (length l) 2); [|lia].
  - intros H. destruct (Nat.ltb_spec (length l) 2); [lia|]. apply first_sequence_nonempty.
  - intros H. rewrite length_app.
    destruct (Nat.ltb_spec (length pre + length l) 2); [lia|].
    destruct (Nat.ltb_spec (length l) 2); [lia|].
    by rewrite (slice_from_neg_app 3) by lia.
Qed.

Lemma analyze_command_sequence_last_three_witness :
  analyze_command_sequence ["docker ps"; "sudo reboot"; "a"; "b"; "c"]
  = analyze_command_sequence ["a"; "b"; "c"]
  /\ analyze_command_sequence ["a"] = "".
Proof.
  split.
  - apply (proj2 (proj2 (analyze_command_sequence_last_three
                          ["docker ps"; "sudo reboot"] ["a"; "b"; "c"]))).
    cbn [length]. lia.
  - apply (proj1 (analyze_command_sequence_last_three [] ["a"])).
    cbn [length]. lia.
Defined.

Lemma any_keyword_intro keywords commands cmd keyword :
  cmd ∈ commands -> keyword ∈ keywords -> str_in keyword cmd = true ->
  any_keyword keywords commands = true.
Proof.
  intros Hc Hk Hin. unfold any_keyword. apply existsb_exists.
  exists cmd. split; [by apply list_elem_of_In|].
  apply existsb_exists. exists keyword. split; [by apply list_elem_of_In|done].
Qed.

(** X5. The mode of identify_work_pattern follows the priority
    development, system_admin, container_ops, general over the keyword
    tables: it is development as soon as one command contains a
    development keyword, whatever else the list holds; the other
    categories (web_server, database, file_management) never change it. *)
Theorem identify_work_pattern_priority (commands : list string) :
  commands <> [] ->
  let has category := any_keyword (default [] (assoc category work_categories)) commands in
  mode (identify_work_pattern commands)
  = (if has "development" then "development"
     else if has "system_admin" then "system_admin"
     else if has "docker" then "container_ops"
     else "general")
  /\ (forall cmd keyword,
        cmd ∈ commands ->
        keyword ∈ ["git"; "npm"; "pip"; "python"; "node"; "make"; "gcc"] ->
        str_in keyword cmd = true ->
        mode (identify_work_pattern commands) = "development").
Proof.
  intros Hne has.
  assert (Hmode : mode (identify_work_pattern commands)
                  = (if has "development" then "development"
                     else if has "system_admin" then "system_admin"
                     else if has "docker" then "container_ops"
                     else "general")).
  { destruct commands as [|c cs]; [done|]. unfold has.
    unfold identify_work_pattern, work_categories.
    cbn [List.filter assoc String.eqb Ascii.eqb Bool.eqb from_option id snd mode].
    generalize (c :: cs). intros l.
    destruct (any_keyword ["git"; "npm"; "pip"; "python"; "node"; "make"; "gcc"] l),
      (any_keyword ["systemctl"; "service"; "chmod"; "chown"; "mount"; "sudo"] l),
      (any_keyword ["nginx"; "apache"; "curl"; "wget"; "netstat"] l),
      (any_keyword ["mysql"; "redis"; "mongo"; "psql"] l),
      (any_keyword ["docker"; "docker-compose"] l),
      (any_keyword ["ls"; "cd"; "cp"; "mv"; "rm"; "find"; "grep"] l); reflexivity. }
  split; [exact Hmode|].
  intros cmd keyword Hc Hk Hin. rewrite Hmode. unfold has, work_categories.
  cbn [assoc String.eqb Ascii.eqb Bool.eqb from_option id].
  by rewrite (any_keyword_intro _ _ _ _ Hc Hk Hin).
Qed.

Lemma identify_work_pattern_priority_witness :
  mode (identify_work_pattern ["docker ps"; "sudo systemctl restart nginx"; "git status"])
  = "development".
Proof.
  refine (proj2 (identify_work_pattern_priority
                   ["docker ps"; "sudo systemctl restart nginx"; "git status"] _)
            "git status" "git" _ _ _).
  - discriminate.
  - apply (bool_decide_unpack _). vm_compute. exact I.
  - apply (bool_decide_unpack _). vm_compute. exact I.
  - reflexivity.
Defined.

(** ** Recent commands *)

(** X6. get_shell_history returns at most [limit] commands when [limit]
    is at least 1.  When the process's own history holds at least [limit]
    events, the result is the commands of the last [limit] of them and
    the shell's history is not consulted.  With [limit] 0 and a non-empty
    own history, [h[-0:]] makes the result the commands of the whole own
    history. *)
Theorem get_shell_history_bounded (self : CommandHistoryAnalyzer) (w : HistorySources)
    (limit : Z) :
  (1 <= limit -> Z.of_nat (length (get_shell_history self w limit)) <= limit)
  /\ (1 <= limit <= Z.of_nat (length (command_history self)) ->
      get_shell_history self w limit
      = map command (slice_from (- limit) (command_history self)))
  /\ (limit = 0 -> command_history self <> [] ->
      get_shell_history self w limit = map command (command_history self)).
Proof.
  unfold get_shell_history. split; [|split].
  - intros Hl. destruct (_ && _).
    + rewrite length_map, slice_from_neg_length by done. lia.
    + rewrite slice_from_neg_length by done. lia.
  - intros Hl.
    rewrite bool_decide_eq_false_2 by (intros E; rewrite E in Hl; simpl in Hl; lia).
    cbn [negb andb]. rewrite length_map, slice_from_neg_length by lia.
    by destruct (Z.geb_spec (Z.min limit (Z.of_nat (length (command_history self)))) limit);
      [|lia].
  - intros -> Hne. rewrite bool_decide_eq_false_2 by done. cbn [negb andb].
    change (- 0) with 0. rewrite slice_from_zero.
    by destruct (Z.geb_spec (Z.of_nat (length (map command (command_history self)))) 0);
      [|lia].
Qed.

Lemma get_shell_history_bounded_witness :
  let self := {| max_history := 100; command_history := map numbered_event [1; 2; 3]%nat |} in
  get_shell_history self sample_history_sources 2 = ["cmd"; "cmd"]
  /\ get_shell_history self sample_history_sources 0 = ["cmd"; "cmd"; "cmd"]
  /\ Z.of_nat (length (get_shell_history self sample_history_sources 5)) <= 5.
Proof.
  pose proof (get_shell_history_bounded
                {| max_history := 100; command_history := map numbered_event [1; 2; 3]%nat |}
                sample_history_sources 2) as (_ & H2 & _).
  pose proof (get_shell_history_bounded
                {| max_history := 100; command_history := map numbered_event [1; 2; 3]%nat |}
                sample_history_sources 0) as (_ & _ & H0).
  pose proof (get_shell_history_bounded
                {| max_history := 100; command_history := map numbered_event [1; 2; 3]%nat |}
                sample_history_sources 5) as (H5 & _ & _).
  split; [|split].
  - apply H2. cbn [length map command_history]. lia.
  - apply H0; [reflexivity|discriminate].
  - apply H5. lia.
Defined.

Example get_shell_history_merges :
  get_shell_history
    {| max_history := 100; command_history := map numbered_event [1; 2]%nat |}
    sample_history_sources 5
  = ["ls -l"; "cmd"].
Proof. vm_compute. reflexivity. Qed.

(** ** Configuration *)

Lemma AIServiceConfig_new_valid (c c' : AIServiceConfig) :
  AIServiceConfig_new c = Ok c' ->
  c' = c /\ type c <> "" /\ base_url c <> "" /\ model c <> "" /\ 0 < timeout c.
Proof.
  unfold AIServiceConfig_new.
  repeat case_bool_decide; cbn [orb]; try done.
  destruct (Z.leb_spec (timeout c) 0); [done|]. by intros [= <-].
Qed.

(** X7. A configuration returned by get_active_ai_service is the entry
    stored under the active name (under [default] when no name is set),
    and it is valid: type, base URL and model are not empty and the
    time-out is positive.  An entry that is not valid is never returned. *)
Theorem get_active_ai_service_valid (self : ConfigManager) (c : AIServiceConfig) :
  get_active_ai_service self = Ok c ->
  ai_services self !! default "default" (active_ai_service self) = Some c
  /\ type c <> "" /\ base_url c <> "" /\ model c <> "" /\ 0 < timeout c.
Proof.
  unfold get_active_ai_service.
  destruct (ai_services self !! _) as [d|]; [|done].
  intros H. apply AIServiceConfig_new_valid in H as (-> & H). by split.
Qed.

Lemma get_active_ai_service_valid_witness :
  ai_services (sample_manager "m") !! "default"
  = Some {| type := "ollama"; base_url := "http://localhost:11434"; model := "m";
            api_key := None; timeout := 30 |}.
Proof.
  apply (get_active_ai_service_valid (sample_manager "m")
           {| type := "ollama"; base_url := "http://localhost:11434"; model := "m";
              api_key := None; timeout := 30 |}).
  vm_compute. reflexivity.
Defined.

(** X8. Storing a valid configuration under a name and switching to that
    name makes it the active one: the switch succeeds and
    get_active_ai_service returns exactly the configuration stored; the
    entries under other names are not touched. *)
Theorem set_then_switch_activates (self : ConfigManager) (name : string)
    (c : AIServiceConfig) :
  AIServiceConfig_new c = Ok c ->
  let after := switch_ai_service (set_ai_service self name c) name in
  after.2 = true
  /\ get_active_ai_service after.1 = Ok c
  /\ (forall other, other <> name ->
        ai_services after.1 !! other = ai_services self !! other)
  /\ features after.1 = features self.
Proof.
  intros Hvalid after. unfold after, switch_ai_service, set_ai_service.
  cbn [ai_services]. rewrite bool_decide_eq_true_2 by (rewrite lookup_insert_eq; by eexists).
  cbn [fst snd]. split; [done|]. split; [|split; [|done]].
  - unfold get_active_ai_service. cbn [active_ai_service ai_services default from_option id].
    by rewrite lookup_insert_eq.
  - intros other Hne. cbn [ai_services]. by rewrite lookup_insert_ne.
Qed.

Lemma set_then_switch_activates_witness :
  get_active_ai_service
    (switch_ai_service (set_ai_service (sample_manager "m") "work" (sample_config "openai"))
       "work").1
  = Ok (sample_config "openai").
Proof.
  apply (set_then_switch_activates (sample_manager "m") "work" (sample_config "openai")).
  reflexivity.
Defined.

(** X9. switch_ai_service to a name that has no entry returns False and
    leaves the manager as it is; a switch that succeeds changes the
    active name only. *)
Theorem switch_ai_service_unknown (self : ConfigManager) (name : string) :
  (ai_services self !! name = None -> switch_ai_service self name = (self, false))
  /\ ((switch_ai_service self name).2 = true ->
      is_Some (ai_services self !! name)
      /\ active_ai_service (switch_ai_service self name).1 = Some name)
  /\ ai_services (switch_ai_service self name).1 = ai_services self
  /\ features (switch_ai_service self name).1 = features self.
Proof.
  unfold switch_ai_service. split; [|split; [|split]].
  - intros H. rewrite bool_decide_eq_false_2; [done|]. rewrite H. by intros [? ?].
  - case_bool_decide; [done|]. done.
  - by case_bool_decide.
  - by case_bool_decide.
Qed.

Lemma switch_ai_service_unknown_witness :
  switch_ai_service (sample_manager "m") "missing" = (sample_manager "m", false).
Proof.
  apply (switch_ai_service_unknown (sample_manager "m") "missing"). vm_compute. reflexivity.
Defined.

(** X10. set_ai_service never changes an active name that is set: it
    makes the new name active only when no name, or the empty name, was
    active before.  The entry is stored under its name and the entries
    under other names stay. *)
Theorem set_ai_service_keeps_active (self : ConfigManager) (name : string)
    (c : AIServiceConfig) :
  let after := set_ai_service self name c in
  ai_services after !! name = Some c
  /\ (forall other, other <> name -> ai_services after !! other = ai_services self !! other)
  /\ (forall current, active_ai_service self = Some current -> current <> "" ->
        active_ai_service after = Some current)
  /\ (active_ai_service self = None \/ active_ai_service self = Some "" ->
      active_ai_service after = Some name).
Proof.
  cbv zeta. unfold set_ai_service. cbn [ai_services active_ai_service].
  split; [apply lookup_insert_eq|]. split; [|split].
  - intros other Hne. by rewrite lookup_insert_ne.
  - intros current -> Hne. cbn [truthy]. by rewrite bool_decide_eq_false_2.
  - by intros [->| ->].
Qed.

Lemma set_ai_service_keeps_active_witness :
  active_ai_service (set_ai_service (sample_manager "m") "work" (sample_config "openai"))
  = Some "default".
Proof.
  apply (set_ai_service_keeps_active (sample_manager "m") "work" (sample_config "openai")
           : _ /\ _ /\ _ /\ _); [reflexivity|discriminate].
Defined.



(** ** Provider calls: the answer *)

Section Answers.

Variable urlopen : request -> exchange.
Variable json_loads : string -> result json.
Variable py_repr : json -> string.

(** X12. When the transport answers with status 200 and the body parses
    to an object of the shape the variant expects, call_api returns the
    text of the answer with surrounding white space stripped:
    choices[0].message.content for the chat-completion variant, response
    for the single-prompt variant, content[0].text for the custom-auth
    variant. *)
Theorem call_api_returns_answer (cfg : AIServiceConfig) (prompt body text : string)
    (members : list (string * json)) :
  (forall q, urlopen q = Responded 200 (Ok body)) ->
  json_loads body = Ok (JObj members) ->
  (forall choice message rest,
     assoc "choices" members = Some (JArr (JObj choice :: rest)) ->
     assoc "message" choice = Some (JObj message) ->
     assoc "content" message = Some (JStr text) ->
     call_api urlopen json_loads py_repr {| provider := OpenAIProvider; config := cfg |} prompt
     = Ok (strip text))
  /\ (assoc "response" members = Some (JStr text) ->
      call_api urlopen json_loads py_repr {| provider := OllamaProvider; config := cfg |} prompt
      = Ok (strip text))
  /\ (forall block rest,
        assoc "content" members = Some (JArr (JObj block :: rest)) ->
        assoc "text" block = Some (JStr text) ->
        call_api urlopen json_loads py_repr
          {| provider := AnthropicProvider; config := cfg |} prompt
        = Ok (strip text)).
Proof.
  intros Hurl Hbody. unfold call_api. cbn [provider config].
  split; [|split].
  - intros choice message rest H1 H2 H3.
    unfold OpenAIProvider_call_api, _http_request. rewrite Hurl.
    cbn [bind status_code content Z.eqb Pos.eqb]. rewrite Hbody.
    cbn [bind subscript_key]. rewrite H1. cbn [bind subscript_0 index lookup list_lookup].
    cbn [subscript_key]. rewrite H2. cbn [bind subscript_key]. rewrite H3. reflexivity.
  - intros H1.
    unfold OllamaProvider_call_api, _http_request. rewrite Hurl.
    cbn [bind status_code content Z.eqb Pos.eqb]. rewrite Hbody.
    cbn [bind subscript_key]. rewrite H1. reflexivity.
  - intros block rest H1 H2.
    unfold AnthropicProvider_call_api, _http_request. rewrite Hurl.
    cbn [bind status_code content Z.eqb Pos.eqb]. rewrite Hbody.
    cbn [bind subscript_key]. rewrite H1. cbn [bind subscript_0 index lookup list_lookup].
    cbn [subscript_key]. rewrite H2. reflexivity.
Qed.

End Answers.

Lemma call_api_returns_answer_witness :
  call_api (always_answers "{...}") reads_ollama_answer repr_placeholder
    {| provider := OllamaProvider; config := sample_config "ollama" |} "why?"
  = Ok "try: ls -la".
Proof.
  refine (proj1 (proj2 (call_api_returns_answer (always_answers "{...}") reads_ollama_answer
                          repr_placeholder (sample_config "ollama") "why?" "{...}"
                          " try: ls -la "
                          [("model", JStr "m"); ("response", JStr " try: ls -la ");
                           ("done", JBool true)] _ _)) _); reflexivity.
Defined.

(** ** Analysis and questions *)

Lemma call_api_total urlopen json_loads py_repr (p : AIProvider) (prompt : string) :
  exists s, call_api urlopen json_loads py_repr p prompt = Ok s.
Proof.
  unfold call_api. destruct (provider p).
  - destruct (OpenAIProvider_call_api_returns urlopen json_loads py_repr (config p) prompt)
      as (s & Hs & _). by exists s.
  - destruct (OllamaProvider_call_api_returns urlopen json_loads (config p) prompt)
      as (s & Hs & _). by exists s.
  - destruct (AnthropicProvider_call_api_returns urlopen json_loads (config p) prompt)
      as (s & Hs & _). by exists s.
Qed.

Lemma create_provider_unsupported (c : AIServiceConfig) :
  lower (type c) ∉ get_supported_types ->
  create_provider c = Raise (ValueError ("不支持的AI服务类型: " +:+ type c)).
Proof. intros Hno. unfold create_provider. by rewrite (assoc_None _ _ Hno). Qed.

Section Outcomes.

Variable urlopen : request -> exchange.
Variable json_loads : string -> result json.
Variable py_repr : json -> string.

(** X13. analyze_error returns None exactly when [_should_analyze]
    rejects.  An accepted analysis with a context, a valid active service
    and a supported type returns what call_api returned and stamps the
    cache, also when that text reports a failed API call; when the active
    service is missing or invalid it returns the heading
    分析错误时出现问题 with the error and leaves the cache alone. *)
Theorem analyze_error_outcomes (cm : ConfigManager) (self : ErrorAnalyzer)
    (command : string) (exit_code : Z) (err : string) (t t' : Q) (ctx : result FullContext) :
  let out := analyze_error urlopen json_loads py_repr cm self command exit_code err t ctx t' in
  (out.2 = None <-> _should_analyze self command exit_code t = false)
  /\ (_should_analyze self command exit_code t = false -> out.1 = self)
  /\ (forall context active p,
        _should_analyze self command exit_code t = true ->
        ctx = Ok context ->
        get_active_ai_service cm = Ok active ->
        create_provider active = Ok p ->
        exists text prompt,
          _build_error_prompt cm command exit_code err context = Ok prompt
          /\ call_api urlopen json_loads py_repr p prompt = Ok text
          /\ out = (_update_analysis_cache self command exit_code t', Some text))
  /\ (forall context e,
        _should_analyze self command exit_code t = true ->
        ctx = Ok context ->
        get_active_ai_service cm = Raise e ->
        out = (self, Some ("分析错误时出现问题: " +:+ exn_str e))).
Proof.
  cbv zeta. unfold analyze_error.
  destruct (_should_analyze self command exit_code t) eqn:Hgate; cbn [negb].
  - split; [|split; [done|split]].
    + destruct (analyze_error_body _ _ _ _ _ _ _ _); cbn [snd]; split; done.
    + intros context active p _ -> Hact Hp.
      unfold analyze_error_body, _build_error_prompt. rewrite Hact. cbn [bind]. rewrite Hp.
      cbn [bind].
      destruct (call_api_total urlopen json_loads py_repr p
                  (error_prompt_text (model active) (build_detailed_context_info context)
                     (build_command_context context) command exit_code err)) as [text Htext].
      rewrite Htext. by exists text, (error_prompt_text (model active)
                       (build_detailed_context_info context)
                       (build_command_context context) command exit_code err).
    + intros context e _ -> Hact.
      unfold analyze_error_body, _build_error_prompt. by rewrite Hact.
  - split; [done|]. split; [done|]. split; intros; done.
Qed.

(** X14. ask_question returns a string in every case.  With a context but
    no valid active service, the string is the heading 处理问题时出现错误
    followed by the error of the configuration manager; with a valid
    service of an unsupported type it is that heading followed by the
    factory's error. *)
Theorem ask_question_outcomes (cm : ConfigManager) (question : string)
    (ctx : result FullContext) :
  (exists s, ask_question urlopen json_loads py_repr cm question ctx = Ok s)
  /\ (forall context e,
        ctx = Ok context -> get_active_ai_service cm = Raise e ->
        ask_question urlopen json_loads py_repr cm question ctx
        = Ok ("处理问题时出现错误: " +:+ exn_str e))
  /\ (forall context active,
        ctx = Ok context -> get_active_ai_service cm = Ok active ->
        lower (type active) ∉ get_supported_types ->
        ask_question urlopen json_loads py_repr cm question ctx
        = Ok ("处理问题时出现错误: 不支持的AI服务类型: " +:+ type active)).
Proof.
  unfold ask_question. split; [|split].
  - destruct ctx as [context|e]; cbn [bind try_except]; [|by eexists].
    unfold _build_question_prompt.
    destruct (get_active_ai_service cm) as [active|e]; cbn [bind try_except]; [|by eexists].
    destruct (create_provider active) as [p|e]; cbn [bind try_except]; [|by eexists].
    match goal with
    | |- context [call_api _ _ _ p ?prompt] =>
        destruct (call_api_total urlopen json_loads py_repr p prompt) as [s ->]
    end.
    by exists s.
  - intros context e -> Hact. unfold _build_question_prompt. by rewrite Hact.
  - intros context active -> Hact Hno. unfold _build_question_prompt. rewrite Hact.
    cbn [bind]. by rewrite (create_provider_unsupported _ Hno).
Qed.

End Outcomes.

Lemma analyze_error_outcomes_witness :
  exists text,
    analyze_error always_times_out no_json repr_placeholder (sample_manager "m")
      ErrorAnalyzer_init "foo" 1 "" 100 (Ok sample_context) 101
    = (_update_analysis_cache ErrorAnalyzer_init "foo" 1 101, Some text)
    /\ reports_failure OllamaProvider text = true.
Proof.
  destruct (analyze_error_outcomes always_times_out no_json repr_placeholder
              (sample_manager "m") ErrorAnalyzer_init "foo" 1 "" 100 101 (Ok sample_context))
    as (_ & _ & Hok & _).
  destruct (Hok sample_context
              {| type := "ollama"; base_url := "http://localhost:11434"; model := "m";
                 api_key := None; timeout := 30 |}
              {| provider := OllamaProvider;
                 config := {| type := "ollama"; base_url := "http://localhost:11434";
                              model := "m"; api_key := None; timeout := 30 |} |})
    as (text & prompt & Hprompt & Hcall & Hout).
  - reflexivity.
  - reflexivity.
  - vm_compute. reflexivity.
  - reflexivity.
  - exists text. split; [exact Hout|].
    revert Hcall. injection Hprompt as <-. vm_compute. by intros [= <-].
Defined.

Lemma ask_question_outcomes_witness :
  ask_question always_times_out no_json repr_placeholder manager_without_service
    "how do I list files?" (Ok sample_context)
  = Ok "处理问题时出现错误: 未找到AI服务配置: missing".
Proof.
  apply (proj1 (proj2 (ask_question_outcomes always_times_out no_json repr_placeholder
                         manager_without_service "how do I list files?" (Ok sample_context)))
           sample_context (ValueError "未找到AI服务配置: missing")).
  - reflexivity.
  - vm_compute. reflexivity.
Defined.

(** ** The monitor entry point: when nothing is analysed *)

Section Monitor.

Variable urlopen : request -> exchange.
Variable json_loads : string -> result json.
Variable py_repr : json -> string.

(** X15. A monitor call displays nothing and leaves the dedup state alone
    when the exit code is 0, when automatic analysis is switched off, when
    the exit code is 130, or when the command is one the filter excludes
    (a shell builtin of the list, a call of the monitor itself, a
    [history] command). *)
Theorem monitor_command_skips_analysis (self : AICompanion) (w : World)
    (command : string) (exit_code : Z) (stderr_content : string) :
  exit_code = 0
  \/ auto_error_analysis (get_features (config_manager self)) = false
  \/ exit_code = 130
  \/ should_analyze_command command exit_code = false ->
  let out := monitor_command urlopen json_loads py_repr self w command exit_code
               stderr_content in
  displayed out.2 = None
  /\ error_analyzer out.1 = error_analyzer self
  /\ (forall dir, getcwd w = Ok dir -> out.2 = Ok None).
Proof.
  intros Hskip. cbv zeta. unfold monitor_command, add_command_to_history.
  destruct (getcwd w) as [dir|e]; cbn [bind]; [|by repeat split].
  destruct (negb (exit_code =? 0) && _) eqn:Hgo; [|by repeat split].
  apply andb_prop in Hgo as [Hcode Hauto].
  assert (Hgate : _should_analyze (error_analyzer self) command exit_code (check_time w)
                  = false).
  { destruct Hskip as [->|[Hoff|[->|Hfilter]]]; [done|congruence| |].
    - unfold _should_analyze. by destruct (_ && _).
    - unfold _should_analyze, should_analyze_error. rewrite Hfilter. by destruct (_ && _). }
  unfold analyze_error. rewrite Hgate. by repeat split.
Qed.

(** X16. Within one process, a failure reported again is not analysed
    again while less than 5 seconds have passed since the analysis of the
    first report was completed: the second monitor call displays nothing
    and leaves the dedup state as the first call left it. *)
Theorem monitor_command_suppresses_repeat (self : AICompanion) (w1 w2 : World)
    (command : string) (exit_code : Z) (stderr1 stderr2 text dir1 : string) :
  getcwd w1 = Ok dir1 ->
  exit_code <> 0 ->
  auto_error_analysis (get_features (config_manager self)) = true ->
  _should_analyze (error_analyzer self) command exit_code (check_time w1) = true ->
  analyze_error_body urlopen json_loads py_repr (config_manager self) command exit_code
    (_decode_stderr stderr1) (full_context w1) = Ok text ->
  (check_time w2 - update_time w1 < 5)%Q ->
  let out1 := monitor_command urlopen json_loads py_repr self w1 command exit_code stderr1 in
  let out2 := monitor_command urlopen json_loads py_repr out1.1 w2 command exit_code stderr2 in
  out1.2 = Ok (if bool_decide (text = "") then None else Some text)
  /\ displayed out2.2 = None
  /\ error_analyzer out2.1 = error_analyzer out1.1
  /\ (forall dir2, getcwd w2 = Ok dir2 -> out2.2 = Ok None).
Proof.
  intros Hcwd Hcode Hauto Hgate Hbody Hsoon. cbv zeta.
  assert (Hgo : negb (exit_code =? 0) = true).
  { apply negb_true_iff. by apply Z.eqb_neq. }
  assert (Hout1 : monitor_command urlopen json_loads py_repr self w1 command exit_code stderr1
                  = ({| config_manager := config_manager self;
                        history_analyzer :=
                          add_command (history_analyzer self)
                            {| command := command; exit_code := exit_code; output := "";
                               error := _decode_stderr stderr1;
                               timestamp := history_time w1; cwd := dir1 |};
                        error_analyzer :=
                          _update_analysis_cache (error_analyzer self) command exit_code
                            (update_time w1) |},
                     Ok (if bool_decide (text = "") then None else Some text))).
  { unfold monitor_command, add_command_to_history, analyze_error.
    rewrite Hcwd. cbn [bind]. by rewrite Hgo, Hauto, Hgate, Hbody. }
  rewrite Hout1. cbn [fst snd]. split; [done|].
  unfold monitor_command, add_command_to_history.
  cbn [config_manager error_analyzer history_analyzer].
  destruct (getcwd w2) as [dir2|e2]; cbn [bind]; [|by repeat split].
  rewrite Hgo, Hauto. cbn [andb]. unfold analyze_error.
  rewrite should_analyze_after_update.
  destruct (Qlt_le_dec (check_time w2 - update_time w1) 5) as [_|Hge]; [by repeat split|].
  exfalso. lra.
Qed.

End Monitor.

Lemma monitor_command_skips_analysis_witness :
  (monitor_command always_times_out no_json repr_placeholder
     (AICompanion_init (sample_manager "m")) sample_world "history | grep ls" 1 "").2
  = Ok None.
Proof.
  destruct (monitor_command_skips_analysis always_times_out no_json repr_placeholder
              (AICompanion_init (sample_manager "m")) sample_world "history | grep ls" 1 "")
    as (_ & _ & Hreturns).
  - right. right. right. reflexivity.
  - apply (Hreturns "/home/u/app"). reflexivity.
Defined.

Lemma monitor_command_suppresses_repeat_witness :
  let first := monitor_command always_times_out no_json repr_placeholder
                 (AICompanion_init (sample_manager "m")) sample_world "foo" 1 "" in
  let second := monitor_command always_times_out no_json repr_placeholder
                  first.1 sample_world_later "foo" 1 "" in
  first.2 = Ok (Some "Ollama API调用失败: 0 - ") /\ second.2 = Ok None.
Proof.
  destruct (monitor_command_suppresses_repeat always_times_out no_json repr_placeholder
              (AICompanion_init (sample_manager "m")) sample_world sample_world_later
              "foo" 1 "" "" "Ollama API调用失败: 0 - " "/home/u/app") as (H1 & _ & _ & H2).
  - reflexivity.
  - discriminate.
  - reflexivity.
  - reflexivity.
  - vm_compute. reflexivity.
  - vm_compute. reflexivity.
  - split; [exact H1|]. apply (H2 "/home/u/app"). reflexivity.
Defined.

(** ** Repository status *)

(** X17. In the result of get_git_info, [in_repo] false means that every
    other field is at its default; [has_changes] holds exactly when
    [changed_files] is positive; and [in_repo] is true only if
    [git rev-parse] returned 0 and none of the three later sub-processes
    raised: an exception of any of them makes the directory count as not
    being a repository. *)
Theorem get_git_info_invariants (p : GitProbes) :
  let g := get_git_info p in
  (in_repo g = false -> g = GitInfo_not_in_repo)
  /\ (has_changes g = true <-> 0 < changed_files g)
  /\ (in_repo g = true ->
      (exists out, run_rev_parse p = Ok (0, out))
      /\ (exists r, run_branch p = Ok r)
      /\ (exists r, run_status p = Ok r)
      /\ (exists r, run_log p = Ok r)
      /\ is_Some (current_branch g)).
Proof.
  cbv zeta. unfold get_git_info.
  destruct (run_rev_parse p) as [[rc out]|e]; cbn [bind catch fst snd];
    [|repeat split; done].
  destruct (Z.eqb_spec rc 0) as [->|Hrc]; cbn [negb catch]; [|repeat split; done].
  destruct (run_branch p) as [rb|e]; cbn [bind catch]; [|repeat split; done].
  destruct (run_status p) as [rs|e]; cbn [bind catch]; [|repeat split; done].
  destruct (run_log p) as [rl|e]; cbn [bind catch]; [|repeat split; done].
  cbn [in_repo has_changes changed_files current_branch].
  split; [done|]. split.
  - destruct (rs.1 =? 0); [|done].
    destruct (Nat.ltb_spec 0 (length (if bool_decide (strip rs.2 = "") then []
                                      else split_on NEWLINE (strip rs.2)))); split; try done; lia.
  - intros _. repeat split; by eexists.
Qed.

Lemma get_git_info_invariants_witness :
  get_git_info git_probes_log_fails = GitInfo_not_in_repo
  /\ 0 < changed_files (get_git_info git_probes_ok).
Proof.
  split.
  - apply (get_git_info_invariants git_probes_log_fails). reflexivity.
  - apply (get_git_info_invariants git_probes_ok). reflexivity.
Defined.

(** ** Project type: the unknown case and the key files *)

Lemma filter_in_nil files inds :
  List.filter (fun f => list_in f files) inds = [] <-> forall i, i ∈ inds -> i ∉ files.
Proof.
  induction inds as [|j inds IH]; simpl.
  - split; [|done]. intros _ i Hi. by apply elem_of_nil in Hi.
  - unfold list_in at 1. case_bool_decide as Hj.
    + split; [done|]. intros H. destruct (H j); [left|done].
    + rewrite IH. split.
      * intros H i [->|Hi]%elem_of_cons; [done|by apply H].
      * intros H i Hi. apply H. by right.
Qed.

Lemma identify_in_name table files kf :
  (identify_in table files kf).1 <> "unknown" ->
  (identify_in table files kf).1 ∈ table.*1.
Proof.
  induction table as [|[q js] table IH]; cbn [identify_in]; [done|]. rewrite fmap_cons.
  destruct (List.filter _ js); cbn [fst]; [intros H; right; by apply IH|intros _; left].
Qed.

Lemma identify_in_spec table files kf :
  "unknown" ∉ table.*1 -> NoDup table.*1 ->
  let r := identify_in table files kf in
  (r.1 = "unknown" <-> forall q inds i, (q, inds) ∈ table -> i ∈ inds -> i ∉ files)
  /\ (r.1 = "unknown" -> r.2 = kf)
  /\ (forall inds, (r.1, inds) ∈ table ->
        r.2 = kf ++ List.filter (fun f => list_in f files) inds
        /\ List.filter (fun f => list_in f files) inds <> []).
Proof.
  induction table as [|[q js] table IH]; intros Hun Hnd; cbv zeta; cbn [identify_in].
  - split; [|split].
    + split; [|done]. intros _ q inds i H. by apply elem_of_nil in H.
    + done.
    + intros inds H. by apply elem_of_nil in H.
  - rewrite fmap_cons in Hun, Hnd. cbn [fst] in Hun, Hnd.
    apply not_elem_of_cons in Hun as [Hq Hun]. apply NoDup_cons in Hnd as [Hfresh Hnd].
    destruct (IH Hun Hnd) as (IH1 & IH2 & IH3).
    destruct (List.filter (fun f => list_in f files) js) as [|x found] eqn:Hf.
    + split; [|split].
      * rewrite IH1. split.
        -- intros H q' inds i [[= -> ->]|Hin]%elem_of_cons; [|by apply (H q' inds i)].
           by apply filter_in_nil.
        -- intros H q' inds i Hin. apply (H q' inds i). by right.
      * exact IH2.
      * intros inds [[= Heq ->]|Hin]%elem_of_cons; [|by apply IH3].
        (* the type returned is a later entry, or unknown: never [q] *)
        exfalso. set (r := identify_in table files kf) in *.
        destruct (decide (r.1 = "unknown")) as [Hu|Hu]; [congruence|].
        assert (Hr : r.1 ∈ table.*1) by (by apply identify_in_name).
        rewrite Heq in Hr. done.
    + cbn [fst snd]. split; [|split].
      * split; [intros ->; done|]. intros H. exfalso.
        assert (Hx : In x (List.filter (fun f => list_in f files) js)) by (rewrite Hf; by left).
        apply filter_In in Hx as [Hx1 Hx2]. unfold list_in in Hx2.
        apply bool_decide_eq_true in Hx2.
        by apply (H q js x); [left|apply list_elem_of_In|].
      * by intros ->.
      * intros inds [[= ->]|Hin]%elem_of_cons; [by rewrite Hf|].
        exfalso. apply Hfresh. apply list_elem_of_fmap. by exists (q, inds).
Qed.

(** X18. [_identify_project_type] answers unknown exactly when no
    indicator of any type is in the listing, and then leaves [key_files]
    as it was.  Otherwise it appends to [key_files] the indicators of the
    type it returns that are in the listing, in the order of the table,
    and nothing else. *)
Theorem identify_project_type_key_files (files key_files : list string) :
  let r := _identify_project_type files key_files in
  (r.1 = "unknown" <->
   forall q inds i, (q, inds) ∈ key_indicators -> i ∈ inds -> i ∉ files)
  /\ (r.1 = "unknown" -> r.2 = key_files)
  /\ (forall inds, (r.1, inds) ∈ key_indicators ->
        r.2 = key_files ++ List.filter (fun f => list_in f files) inds
        /\ List.filter (fun f => list_in f files) inds <> []).
Proof.
  apply identify_in_spec.
  - apply (bool_decide_unpack _). vm_compute. exact I.
  - apply (bool_decide_unpack _). vm_compute. exact I.
Qed.

Lemma identify_project_type_key_files_witness :
  _identify_project_type ["README.md"; "LICENSE"] ["kept"] = ("unknown", ["kept"])
  /\ (_identify_project_type ["main.py"; "setup.py"; "package.json"] ["kept"]).2
     = ["kept"; "setup.py"; "main.py"].
Proof.
  split.
  - pose proof (identify_project_type_key_files ["README.md"; "LICENSE"] ["kept"])
      as (_ & H & _).
    apply injective_projections; [reflexivity|]. apply H. reflexivity.
  - pose proof (identify_project_type_key_files ["main.py"; "setup.py"; "package.json"]
                  ["kept"]) as (_ & _ & H).
    apply (H ["requirements.txt"; "setup.py"; "pyproject.toml"; "main.py"]).
    apply (bool_decide_unpack _). vm_compute. exact I.
Defined.

(** ** What the analysis receives from the hook *)

Lemma utf8_valid_unfold (a : ascii) (rest : string) :
  utf8_valid (String a rest) =
  if in_range 0 127 a then utf8_valid rest
  else match rest with
  | EmptyString => false
  | String b rest2 =>
      if in_range 194 223 a then in_range 128 191 b && utf8_valid rest2
      else match rest2 with
      | EmptyString => false
      | String c rest3 =>
          if in_range 224 239 a then
            (if in_range 224 224 a then in_range 160 191 b
             else if in_range 237 237 a then in_range 128 159 b
             else in_range 128 191 b)
            && in_range 128 191 c && utf8_valid rest3
          else match rest3 with
          | EmptyString => false
          | String d rest4 =>
              in_range 240 244 a
              && (if in_range 240 240 a then in_range 144 191 b
                  else if in_range 244 244 a then in_range 128 143 b
                  else in_range 128 191 b)
              && in_range 128 191 c && in_range 128 191 d && utf8_valid rest4
          end
      end
  end.
Proof. reflexivity. Qed.

Lemma utf8_valid_app (s t : string) :
  utf8_valid s = true -> utf8_valid t = true -> utf8_valid (s +:+ t) = true.
Proof.
  intros Hs Ht. revert Hs.
  assert (H : forall n s, (String.length s < n)%nat ->
                utf8_valid s = true -> utf8_valid (s +:+ t) = true).
  { induction n as [|n IH]; intros u Hn; [lia|].
    destruct u as [|a u]; [done|].
    change (String a u +:+ t) with (String a (u +:+ t)).
    rewrite !utf8_valid_unfold. cbn [String.length] in Hn.
    destruct (in_range 0 127 a); [apply IH; lia|].
    destruct u as [|b u]; [done|].
    change (String b u +:+ t) with (String b (u +:+ t)). cbn [String.length] in Hn.
    destruct (in_range 194 223 a).
    { intros [-> Hr]%andb_prop. apply IH; [lia|done]. }
    destruct u as [|c u]; [done|].
    change (String c u +:+ t) with (String c (u +:+ t)). cbn [String.length] in Hn.
    destruct (in_range 224 239 a).
    { intros [[-> ->]%andb_prop Hr]%andb_prop. apply IH; [lia|done]. }
    destruct u as [|d u]; [done|].
    change (String d u +:+ t) with (String d (u +:+ t)). cbn [String.length] in Hn.
    intros [[[[-> ->]%andb_prop ->]%andb_prop ->]%andb_prop Hr]%andb_prop.
    apply IH; [lia|done]. }
  intros Hs. apply (H (S (String.length s))); [lia|done].
Qed.

Lemma b64_char_safe (v : N) :
  (v < 64)%N ->
  negb (Ascii.eqb (b64_char v) NUL) && negb (Ascii.eqb NEWLINE (b64_char v)) = true.
Proof.
  intros Hv.
  assert (Hall : forallb (fun n => negb (Ascii.eqb (b64_char n) NUL)
                                   && negb (Ascii.eqb NEWLINE (b64_char n)))
                   (map N.of_nat (seq 0 64)) = true) by (vm_compute; reflexivity).
  rewrite forallb_forall in Hall. apply Hall.
  apply in_map_iff. exists (N.to_nat v). split; [lia|]. apply in_seq. lia.
Qed.

Lemma b64encode_safe (s : string) :
  forallb (fun a => negb (Ascii.eqb a NUL) && negb (Ascii.eqb NEWLINE a))
    (list_ascii_of_string (b64encode s)) = true.
Proof.
  induction s as [|a|a b|a b c rest IH] using string_ind3.
  - reflexivity.
  - destruct (digits_bounded a a) as (H1 & _ & _ & _ & H5 & _).
    cbn [b64encode list_ascii_of_string forallb]. by rewrite !b64_char_safe.
  - destruct (digits_bounded a b) as (H1 & H2 & _ & _ & _ & _).
    destruct (digits_bounded b b) as (_ & _ & _ & _ & _ & H6).
    cbn [b64encode list_ascii_of_string forallb]. by rewrite !b64_char_safe.
  - destruct (digits_bounded a b) as (H1 & H2 & _ & _ & _ & _).
    destruct (digits_bounded b c) as (_ & _ & H3 & _ & _ & _).
    destruct (digits_bounded c c) as (_ & _ & _ & H4 & _ & _).
    rewrite b64encode_group. cbn [list_ascii_of_string forallb].
    by rewrite !b64_char_safe, IH.
Qed.

Lemma drop_while_head {A} (p : A -> bool) (x : A) (l : list A) :
  p x = false -> drop_while p (x :: l) = x :: l.
Proof. intros H. simpl. by rewrite H. Qed.

(** A text without NUL bytes that does not end in a newline passes a
    command substitution unchanged. *)
Lemma command_substitution_fixed (s : string) :
  forallb (fun a => negb (Ascii.eqb a NUL)) (list_ascii_of_string s) = true ->
  last (list_ascii_of_string s) <> Some NEWLINE ->
  command_substitution s = s.
Proof.
  intros Hnul Hlast. unfold command_substitution.
  assert (Hkeep : List.filter (fun a => negb (Ascii.eqb a NUL)) (list_ascii_of_string s)
                  = list_ascii_of_string s).
  { revert Hnul. clear. induction (list_ascii_of_string s) as [|a l IH]; simpl; [done|].
    intros [-> Hl]%andb_prop. by rewrite IH. }
  rewrite Hkeep.
  destruct (list_ascii_of_string s) as [|a l] eqn:El using rev_ind.
  - simpl. rewrite <- (string_of_list_ascii_of_string s). by rewrite El.
  - rewrite rev_unit. rewrite last_snoc in Hlast.
    rewrite drop_while_head.
    + rewrite <- rev_unit, rev_involutive, <- El. apply string_of_list_ascii_of_string.
    + apply Ascii.eqb_neq. intros Heq. apply Hlast. by rewrite Heq.
Qed.

Lemma forallb_last_safe (l : list ascii) :
  forallb (fun a => negb (Ascii.eqb a NUL) && negb (Ascii.eqb NEWLINE a)) l = true ->
  forallb (fun a => negb (Ascii.eqb a NUL)) l = true /\ last l <> Some NEWLINE.
Proof.
  induction l as [|a l IH]; [done|]. cbn [forallb].
  intros [[Ha Hn]%andb_prop Hl]%andb_prop. destruct (IH Hl) as [IH1 IH2].
  rewrite Ha, IH1. split; [done|].
  destruct l as [|b l]; [|done]. simpl. intros [= Heq]. subst a. done.
Qed.

Lemma decode_stderr_b64encode_valid (text : string) :
  utf8_valid text = true -> _decode_stderr (b64encode text) = text.
Proof.
  intros Hv. unfold _decode_stderr, b64decode.
  rewrite b64encode_is_ascii, a2b_base64_b64encode. cbn [mbind option_bind].
  unfold decode_utf8. rewrite Hv.
  case_bool_decide as He; [|done]. by destruct text as [|a [|b [|c rest]]].
Qed.

(** What passes a command substitution has no NUL byte and does not end
    in a newline. *)
Lemma command_substitution_clean (out : string) :
  forallb (fun a => negb (Ascii.eqb a NUL))
    (list_ascii_of_string (command_substitution out)) = true
  /\ last (list_ascii_of_string (command_substitution out)) <> Some NEWLINE.
Proof.
  unfold command_substitution. rewrite list_ascii_of_string_of_list_ascii.
  set (kept := List.filter (fun a => negb (Ascii.eqb a NUL)) (list_ascii_of_string out)).
  assert (Hkept : forallb (fun a => negb (Ascii.eqb a NUL)) (rev kept) = true).
  { apply forallb_forall. intros a Ha%in_rev. by apply filter_In in Ha as [_ Ha]. }
  revert Hkept. generalize (rev kept). clear. intros l Hl.
  induction l as [|a l IH]; [done|]. cbn [forallb] in Hl.
  apply andb_prop in Hl as [Ha Hl]. cbn [drop_while].
  destruct (Ascii.eqb NEWLINE a) eqn:Hnl; [by apply IH|]. split.
  - apply forallb_forall. intros x Hx%in_rev. destruct Hx as [<-|Hx]; [done|].
    rewrite forallb_forall in Hl. by apply Hl.
  - cbn [rev]. rewrite last_snoc. intros [= ->]. by rewrite Ascii.eqb_refl in Hnl.
Qed.

(** A text that left a command substitution and is not taken for options
    comes back from [$(echo "$text")] as it is. *)
Lemma command_substitution_echo (text : string) :
  is_echo_option text = false ->
  forallb (fun a => negb (Ascii.eqb a NUL)) (list_ascii_of_string text) = true ->
  last (list_ascii_of_string text) <> Some NEWLINE ->
  command_substitution (echo text) = text.
Proof.
  intros Hopt Hnul Hlast. unfold echo. rewrite Hopt. unfold command_substitution.
  assert (Hl : list_ascii_of_string (text +:+ LF) = list_ascii_of_string text ++ [NEWLINE]).
  { clear. induction text as [|a text IH]; [done|].
    change (String a text +:+ LF) with (String a (text +:+ LF)).
    cbn [list_ascii_of_string]. by rewrite IH. }
  rewrite Hl, List.filter_app.
  assert (Hkeep : List.filter (fun a => negb (Ascii.eqb a NUL)) (list_ascii_of_string text)
                  = list_ascii_of_string text).
  { revert Hnul. clear. induction (list_ascii_of_string text) as [|a l IH]; simpl; [done|].
    intros [-> Hl]%andb_prop. by rewrite IH. }
  rewrite Hkeep. cbn [List.filter]. change (negb (Ascii.eqb NEWLINE NUL)) with true.
  cbn [List.filter]. rewrite rev_unit. cbn [drop_while].
  change (Ascii.eqb NEWLINE NEWLINE) with true. cbn match.
  destruct (list_ascii_of_string text) as [|a l] eqn:El using rev_ind.
  - simpl. rewrite <- (string_of_list_ascii_of_string text). by rewrite El.
  - rewrite rev_unit. rewrite last_snoc in Hlast. rewrite drop_while_head.
    + rewrite <- rev_unit, rev_involutive, <- El. apply string_of_list_ascii_of_string.
    + apply Ascii.eqb_neq. intros Heq. apply Hlast. by rewrite Heq.
Qed.

(** The text of [$?] is ASCII. *)
Lemma exit_status_text_valid (code : Z) :
  0 <= code <= 255 -> utf8_valid (pretty code) = true.
Proof.
  intros Hcode.
  assert (Hall : forallb (fun n => utf8_valid (pretty (Z.of_nat n))) (seq 0 256) = true)
    by (vm_compute; reflexivity).
  rewrite forallb_forall in Hall. rewrite <- (Z2Nat.id code) by lia.
  apply Hall, in_seq. lia.
Qed.

Section HookTransport.

Variable base64_w0 : string -> Z * string.

(** [base64] is installed and encodes as documented *)
Hypothesis base64_works : forall input, base64_w0 input = (0, b64encode input).

Lemma decode_encode_for_monitor (text : string) :
  is_echo_option text = false -> utf8_valid text = true ->
  _decode_stderr (encode_for_monitor base64_w0 text) = text +:+ LF.
Proof.
  intros Hopt Hv. unfold encode_for_monitor. rewrite base64_works.
  change (0 =? 0) with true. cbn match. unfold echo. rewrite Hopt.
  destruct (forallb_last_safe _ (b64encode_safe (text +:+ LF))) as [H1 H2].
  rewrite (command_substitution_fixed _ H1 H2).
  apply decode_stderr_b64encode_valid. by apply utf8_valid_app.
Qed.

(** With [base64] installed, the capture script hands the monitor the
    encoding written [hook_encode]. *)
Lemma ai_analyze_error_hook_encode (AI_LAST_COMMAND : string) (AI_LAST_EXIT_CODE : Z)
    (content : string) (call : MonitorCall) :
  ai_analyze_error base64_w0 AI_LAST_COMMAND AI_LAST_EXIT_CODE (Some content) = Some call ->
  call_stderr call = hook_encode content.
Proof.
  unfold ai_analyze_error, hook_encode, read_capture, encode_for_monitor.
  destruct (_ && _); [|done]. intros [= <-]. cbn [call_stderr].
  destruct (decide (content = "")) as [->|Hc].
  - rewrite (bool_decide_eq_true_2 ("" = "")) by done. reflexivity.
  - rewrite (bool_decide_eq_false_2 (content = "")) by done.
    case_bool_decide; [done|]. by rewrite base64_works.
Qed.

Lemma encode_for_monitor_nonempty (text : string) :
  is_echo_option text = false -> encode_for_monitor base64_w0 text <> "".
Proof.
  intros Hopt. unfold encode_for_monitor. rewrite base64_works.
  change (0 =? 0) with true. cbn match. unfold echo. rewrite Hopt.
  destruct (forallb_last_safe _ (b64encode_safe (text +:+ LF))) as [H1 H2].
  rewrite (command_substitution_fixed _ H1 H2).
  by destruct text as [|a [|b [|c rest]]].
Qed.

(** X19. What the monitor decodes from the stderr argument of a hook,
    with [base64] installed.  Neither hook calls the monitor for exit code
    0 or 130.  The capture script's [ai_analyze_error] hands over nothing
    when the captured stderr is empty after the command substitution; the
    prompt hook [_ai_companion_prompt_command] then makes a message up
    ([command not found] or [Command failed with exit code N]) and hands
    that over followed by a newline.  For captured text that is not
    empty, is well-formed UTF-8 and is not taken for options by [echo],
    both hooks hand over the captured text followed by one newline.  The
    captured text is the content of the stderr file itself when that has
    no NUL byte and does not end in a newline. *)
Theorem hook_transport (command : string) (code : Z) (stderr_file : option string)
    (cmd_name : string) (command_found : bool) :
  let captured := read_capture stderr_file in
  let made_up :=
    if command_found then "Command failed with exit code " +:+ pretty code
    else "bash: " +:+ cmd_name +:+ ": command not found" in
  (forall call,
     ai_analyze_error base64_w0 command code stderr_file = Some call ->
     code <> 0 /\ code <> 130
     /\ call_command call = command /\ call_exit_code call = pretty code
     /\ (captured = "" -> call_stderr call = "" /\ _decode_stderr (call_stderr call) = "")
     /\ (captured <> "" -> is_echo_option captured = false -> utf8_valid captured = true ->
         _decode_stderr (call_stderr call) = captured +:+ LF))
  /\ (forall call,
        _ai_companion_prompt_command base64_w0 code command stderr_file cmd_name
          command_found = Some call ->
        code <> 0 /\ code <> 130
        /\ call_command call = command /\ call_exit_code call = pretty code
        /\ (captured = "" ->
            call_stderr call <> ""
            /\ (0 <= code <= 255 -> utf8_valid cmd_name = true ->
                _decode_stderr (call_stderr call) = made_up +:+ LF))
        /\ (captured <> "" -> is_echo_option captured = false ->
            utf8_valid captured = true ->
            _decode_stderr (call_stderr call) = captured +:+ LF))
  /\ (forall content,
        stderr_file = Some content ->
        forallb (fun a => negb (Ascii.eqb a NUL)) (list_ascii_of_string content) = true ->
        last (list_ascii_of_string content) <> Some NEWLINE ->
        captured = content).
Proof.
  cbv zeta. split; [|split].
  - intros call. unfold ai_analyze_error.
    destruct (Z.eqb_spec code 0) as [->|H0]; [done|].
    destruct (Z.eqb_spec code 130) as [->|H130]; [done|].
    cbn [negb andb]. destruct (bool_decide (command = "")); [done|]. cbn [negb].
    intros [= <-]. cbn [call_command call_exit_code call_stderr].
    split; [done|]. split; [done|]. split; [done|]. split; [done|]. split.
    + intros ->. by rewrite bool_decide_eq_true_2.
    + intros Hne Hopt Hv. rewrite bool_decide_eq_false_2 by done.
      by apply decode_encode_for_monitor.
  - intros call. unfold _ai_companion_prompt_command.
    destruct (Z.eqb_spec code 0) as [->|H0]; [done|].
    destruct (Z.eqb_spec code 130) as [->|H130]; [done|].
    cbn [negb andb]. destruct (_ && _); [|done].
    intros [= <-]. cbn [call_command call_exit_code call_stderr].
    split; [done|]. split; [done|]. split; [done|]. split; [done|]. split.
    + intros ->. rewrite (bool_decide_eq_true_2 ("" = "")) by done.
      destruct command_found; cbn [negb].
      * rewrite bool_decide_eq_false_2 by done. split.
        -- by apply encode_for_monitor_nonempty.
        -- intros Hcode _. apply decode_encode_for_monitor; [done|].
           apply utf8_valid_app; [done|]. by apply exit_status_text_valid.
      * rewrite bool_decide_eq_false_2 by done. split.
        -- by apply encode_for_monitor_nonempty.
        -- intros _ Hv. apply decode_encode_for_monitor; [done|].
           apply utf8_valid_app; [done|]. by apply utf8_valid_app.
    + intros Hne Hopt Hv. rewrite (bool_decide_eq_false_2 _ Hne).
      rewrite (bool_decide_eq_false_2 _ Hne). by apply decode_encode_for_monitor.
  - intros content -> Hnul Hlast. unfold read_capture.
    case_bool_decide as Hc; [by subst content|]. by apply command_substitution_fixed.
Qed.

End HookTransport.

Lemma hook_transport_witness :
  (exists call,
     _ai_companion_prompt_command base64_installed 127 "gti status" None "gti" false
     = Some call
     /\ _decode_stderr (call_stderr call) = "bash: gti: command not found" +:+ LF)
  /\ (exists call,
        ai_analyze_error base64_installed "ls x" 2
          (Some ("ls: 无法访问 'x'" +:+ LF +:+ "second line" +:+ LF +:+ LF)) = Some call
        /\ _decode_stderr (call_stderr call)
           = "ls: 无法访问 'x'" +:+ LF +:+ "second line" +:+ LF).
Proof.
  split.
  - eexists. split; [reflexivity|].
    destruct (hook_transport base64_installed (fun input => eq_refl)
                "gti status" 127 None "gti" false) as (_ & Hprompt & _).
    destruct (Hprompt _ eq_refl) as (_ & _ & _ & _ & Hempty & _).
    destruct (Hempty eq_refl) as [_ Hdecoded]. apply Hdecoded; [lia|reflexivity].
  - eexists. split; [reflexivity|].
    destruct (hook_transport base64_installed (fun input => eq_refl) "ls x" 2
                (Some ("ls: 无法访问 'x'" +:+ LF +:+ "second line" +:+ LF +:+ LF))
                "ls" true) as (Hcapture & _ & _).
    destruct (Hcapture _ eq_refl) as (_ & _ & _ & _ & _ & Htext).
    apply Htext; [vm_compute; discriminate|reflexivity..].
Defined.

(** X25. Without a usable [base64] (it ends with a status other than 0
    and writes nothing), the fallback after [||] makes both hooks hand the
    captured text to the monitor as it is, not encoded, when that text is
    not empty and is not taken for options by [echo]. *)
Theorem hook_without_base64 (base64_w0 : string -> Z * string) (command : string)
    (code : Z) (stderr_file : option string) (cmd_name : string) (command_found : bool)
    (status : Z) (call : MonitorCall) :
  let captured := read_capture stderr_file in
  base64_w0 (echo captured) = (status, "") ->
  status <> 0 ->
  captured <> "" ->
  is_echo_option captured = false ->
  ai_analyze_error base64_w0 command code stderr_file = Some call
  \/ _ai_companion_prompt_command base64_w0 code command stderr_file cmd_name
       command_found = Some call ->
  call_stderr call = captured.
Proof.
  cbv zeta. intros Htool Hstatus Hne Hopt Hcall.
  assert (Henc : encode_for_monitor base64_w0 (read_capture stderr_file)
                 = read_capture stderr_file).
  { unfold encode_for_monitor. rewrite Htool.
    destruct (Z.eqb_spec status 0) as [|_]; [done|]. cbn [String.append].
    destruct stderr_file as [content|]; [|done]. unfold read_capture in *.
    case_bool_decide; [done|].
    destruct (command_substitution_clean content) as [Hnul Hlast].
    by apply command_substitution_echo. }
  destruct Hcall as [Hcall|Hcall]; revert Hcall.
  - unfold ai_analyze_error. destruct (_ && _); [|done]. intros [= <-].
    cbn [call_stderr]. by rewrite (bool_decide_eq_false_2 _ Hne).
  - unfold _ai_companion_prompt_command. destruct (_ && _); [|done].
    destruct (_ && _); [|done]. intros [= <-]. cbn [call_stderr].
    by rewrite !(bool_decide_eq_false_2 _ Hne).
Qed.

Lemma hook_without_base64_witness :
  exists call,
    ai_analyze_error base64_missing "ls x" 2 (Some ("ls: x: No such file" +:+ LF))
    = Some call
    /\ call_stderr call = "ls: x: No such file".
Proof.
  eexists. split; [reflexivity|].
  apply (hook_without_base64 base64_missing "ls x" 2 (Some ("ls: x: No such file" +:+ LF))
           "ls" true 127 _); [reflexivity|discriminate|vm_compute; discriminate|
                              reflexivity|by left].
Defined.

(** ** The snapshot of the single-file version *)

Section NativeSnapshot.

Variable parse_int : string -> result Z.
Variable parse_float : string -> result Q.
Variable round1 : Q -> Q.

(** X20. The dict of get_system_info_native always has the three memory
    keys, the three disk keys and the key processes.  The key cpu_percent
    is missing in exactly one case: [top] ended with return code 0 and no
    line of its output contains Cpu(s).  In that case the snapshot of the
    refactored collector reports a CPU load of 0. *)
Theorem native_info_keys (p : Probes) :
  let info := get_system_info_native parse_int parse_float round1 p in
  (forall key,
     key ∈ ["memory_usage"; "memory_total_gb"; "memory_available_gb";
            "disk_usage"; "disk_total_gb"; "disk_free_gb"; "processes"] ->
     is_Some (info !! key))
  /\ (info !! "cpu_percent" = None <->
      exists stdout,
        run_top p = Ok (0, stdout)
        /\ List.filter (str_in "Cpu(s)") (split_on NEWLINE stdout) = [])
  /\ (info !! "cpu_percent" = None ->
      cpu_percent (get_system_status parse_int parse_float round1 p) = 0%Q).
Proof.
  cbv zeta.
  assert (Hcpu : get_system_info_native parse_int parse_float round1 p !! "cpu_percent" = None
                 <-> exists stdout,
                       run_top p = Ok (0, stdout)
                       /\ List.filter (str_in "Cpu(s)") (split_on NEWLINE stdout) = []).
  { unfold get_system_info_native, native_cpu.
    destruct (memory_probe _ _ p) as [[[? ?] ?]|?], (disk_probe _ p) as [[[? ?] ?]|?],
      (process_probe p) as [[?|]|?];
      (destruct (run_top p) as [[rc out]|etop];
       [destruct (Z.eqb_spec rc 0) as [->|Hrc];
        [destruct (List.filter (str_in "Cpu(s)") (split_on NEWLINE out)) as [|line ?] eqn:Hl;
         [|destruct (bind _ _)]|]|]);
      simplify_map_eq; split; try done;
      try (intros _; by exists out);
      try (intros (out' & [= <- <-] & H); congruence);
      try (intros (out' & [= ? ?] & H); congruence);
      try (intros (out' & ? & H); congruence). }
  split; [|split; [exact Hcpu|]].
  - intros key Hkey. unfold get_system_info_native, native_cpu.
    rewrite !elem_of_cons, elem_of_nil in Hkey.
    destruct (memory_probe _ _ p) as [[[? ?] ?]|?], (disk_probe _ p) as [[[? ?] ?]|?],
      (process_probe p) as [[?|]|?];
      (destruct (run_top p) as [[rc out]|etop];
       [destruct (rc =? 0);
        [destruct (List.filter (str_in "Cpu(s)") (split_on NEWLINE out)) as [|line ?];
         [|destruct (bind _ _)]|]|]);
      destruct Hkey as [->|[->|[->|[->|[->|[->|[->|[]]]]]]]]; simplify_map_eq; by eexists.
  - intros (out & Htop & Hl)%Hcpu.
    unfold get_system_status, catch at 1. cbn [cpu_percent].
    unfold _get_cpu_percent, cpu_probe. rewrite Htop. cbn [bind Z.eqb]. by rewrite Hl.
Qed.

End NativeSnapshot.

Lemma native_info_keys_witness :
  get_system_info_native sample_int sample_float sample_round probes_without_cpu_line
    !! "cpu_percent" = None
  /\ cpu_percent (get_system_status sample_int sample_float sample_round
                    probes_without_cpu_line) = 0%Q.
Proof.
  pose proof (native_info_keys sample_int sample_float sample_round probes_without_cpu_line)
    as (_ & Hiff & Hzero).
  assert (H : get_system_info_native sample_int sample_float sample_round
                probes_without_cpu_line !! "cpu_percent" = None).
  { apply Hiff. eexists. split; reflexivity. }
  split; [exact H|exact (Hzero H)].
Defined.

(** ** Display *)

Lemma split_on2_unfold (c1 c2 a b : ascii) (rest : string) :
  split_on2 c1 c2 (String a (String b rest)) =
  if Ascii.eqb a c1 && Ascii.eqb b c2 then "" :: split_on2 c1 c2 rest
  else match split_on2 c1 c2 (String b rest) with
       | piece :: pieces => String a piece :: pieces
       | [] => [String a ""]
       end.
Proof. reflexivity. Qed.

Lemma split_on2_absent (c1 c2 : ascii) (s : string) :
  str_in (String c1 (String c2 "")) s = false -> split_on2 c1 c2 s = [s].
Proof.
  assert (H : forall n s, (String.length s < n)%nat ->
                str_in (String c1 (String c2 "")) s = false -> split_on2 c1 c2 s = [s]).
  { induction n as [|n IH]; intros u Hn; [lia|].
    destruct u as [|a [|b u]]; [done..|]. cbn [String.length] in Hn.
    rewrite split_on2_unfold.
    change (str_in (String c1 (String c2 "")) (String a (String b u)))
      with (String.prefix (String c1 (String c2 "")) (String a (String b u))
            || str_in (String c1 (String c2 "")) (String b u)).
    cbn [String.prefix].
    intros [Hp Hrest]%orb_false_elim.
    assert (Hab : Ascii.eqb a c1 && Ascii.eqb b c2 = false).
    { destruct (Ascii.eqb_spec a c1) as [->|]; [|done].
      destruct (Ascii.eqb_spec b c2) as [->|]; [|done].
      revert Hp. destruct (ascii_dec c1 c1); [|done]. destruct (ascii_dec c2 c2); [|done].
      by destruct u. }
    rewrite Hab.
    rewrite (IH (String b u)); [done|cbn [String.length]; lia|].
    exact Hrest. }
  intros Hs. apply (H (S (String.length s))); [lia|done].
Qed.

(** X21. [_display_suggestion] splits the suggestion at backslash-n pairs,
    not at line breaks.  So a suggestion without such a pair is handled
    as one line, and if it contains a code fence anywhere, nothing of it
    is printed: the output is the heading and the closing hint only. *)
Theorem display_suggestion_fenced (suggestion command : string) :
  str_in "\n" (strip suggestion) = false ->
  str_in "```" (strip suggestion) = true ->
  _display_suggestion suggestion command
  = [ "🤖 \033[1;36mAI伴侣建议\033[0m (命令: \033[1;33m" +:+ command +:+ "\033[0m)";
      "💡 \033[2m输入 'ask " +:+ DQ +:+ "更多问题" +:+ DQ +:+ "' 可以继续咨询\033[0m" ].
Proof.
  intros Hsep Hfence. unfold _display_suggestion.
  rewrite (split_on2_absent _ _ _ Hsep). cbn [omap list_omap].
  unfold display_line. rewrite Hfence. by case_bool_decide.
Qed.

Lemma display_suggestion_fenced_witness :
  length (_display_suggestion
            ("**解决方案：**" +:+ LF +:+ "```" +:+ LF +:+ "ls -la" +:+ LF +:+ "```") "lz") = 2%nat.
Proof.
  rewrite (display_suggestion_fenced
             ("**解决方案：**" +:+ LF +:+ "```" +:+ LF +:+ "ls -la" +:+ LF +:+ "```") "lz");
    reflexivity.
Defined.

(** ** The history over any number of appends *)

(** X22. Starting from an empty history with a cap of at least 1, after
    any sequence of appends the history holds at most cap entries, is a
    suffix of the sequence of events appended (the most recent events, in
    their order), and ends with the event appended last. *)
Theorem history_after_appends (max : Z) (evs : list CommandInfo) :
  1 <= max ->
  let self := fold_left add_command evs (CommandHistoryAnalyzer_init max) in
  max_history self = max
  /\ Z.of_nat (length (command_history self)) <= max
  /\ command_history self `suffix_of` evs
  /\ last (command_history self) = last evs.
Proof.
  intros Hmax. cbv zeta. induction evs as [|e evs IH] using rev_ind.
  - simpl. repeat split; try done. lia.
  - rewrite fold_left_app. cbn [fold_left].
    destruct IH as (Hm & Hlen & Hsuf & Hlast).
    set (self := fold_left add_command evs (CommandHistoryAnalyzer_init max)) in *.
    clearbody self.
    split; [by rewrite add_command_max|]. split; [|split].
    + rewrite <- Hm. apply add_command_within_cap; lia.
    + trans (command_history self ++ [e]); [apply add_command_suffix|].
      destruct Hsuf as [k ->]. exists k. by rewrite app_assoc.
    + rewrite last_snoc. apply add_command_last. lia.
Qed.

Lemma history_after_appends_witness :
  let self := fold_left add_command (map numbered_event (seq 0 7))
                (CommandHistoryAnalyzer_init 3) in
  Z.of_nat (length (command_history self)) <= 3
  /\ last (command_history self) = Some (numbered_event 6).
Proof.
  destruct (history_after_appends 3 (map numbered_event (seq 0 7))) as (_ & H1 & _ & H2);
    [lia|]. split; [exact H1|exact H2].
Defined.

(** ** Deduplication in the single-file version *)



(** ** Loading the configuration *)

Lemma dict_set_lookup key value d k :
  assoc k (dict_set key value d) = if String.eqb k key then Some value else assoc k d.
Proof.
  induction d as [|[k' v] d IH]; cbn [dict_set assoc].
  - by destruct (String.eqb k key).
  - destruct (String.eqb_spec key k') as [->|Hne]; cbn [assoc].
    + by destruct (String.eqb k k').
    + rewrite IH. destruct (String.eqb_spec k k') as [->|]; [|done].
      destruct (String.eqb_spec k' key) as [->|]; done.
Qed.

Lemma dict_merge_lookup d2 : forall d1 k,
  NoDup d2.*1 ->
  assoc k (dict_merge d1 d2) = match assoc k d2 with Some v => Some v | None => assoc k d1 end.
Proof.
  unfold dict_merge. induction d2 as [|[k2 v2] d2 IH]; intros d1 k Hnd; cbn [fold_left]; [done|].
  rewrite fmap_cons in Hnd. apply NoDup_cons in Hnd as [Hfresh Hnd].
  rewrite IH by done. cbn [assoc fst snd]. rewrite dict_set_lookup.
  destruct (String.eqb_spec k k2) as [->|Hne]; [|done].
  rewrite assoc_None; done.
Qed.

(** X24. [_load_config] returns the default configuration when there is
    no file and when reading it raises a JSON decode error or an IOError.
    For a file holding a JSON object the merge is shallow: every top-level
    key of the file replaces the default value of that key as a whole, and
    the other keys keep their defaults.  A file holding JSON that is not
    an object makes the call raise TypeError instead of falling back. *)
Theorem load_config_shallow_merge (members : list (string * json)) (v : json) :
  _load_config None = Ok default_config
  /\ _load_config (Some DecodeOrIOError) = Ok default_config
  /\ (NoDup members.*1 ->
      exists config,
        _load_config (Some (Parsed (JObj members))) = Ok config
        /\ forall key,
             assoc key config
             = match assoc key members with
               | Some value => Some value
               | None => assoc key default_config
               end)
  /\ ((forall ms, v <> JObj ms) ->
      _load_config (Some (Parsed v))
      = Raise (TypeError ("'" +:+ type_name v +:+ "' object is not a mapping"))).
Proof.
  split; [done|]. split; [done|]. split.
  - intros Hnd. eexists. split; [reflexivity|]. intros key. by apply dict_merge_lookup.
  - intros Hv. destruct v; try done. by destruct (Hv members0).
Qed.

Lemma load_config_shallow_merge_witness :
  (exists config,
     _load_config (Some (Parsed (JObj sample_config_file))) = Ok config
     /\ assoc "features" config = Some (JObj [("auto_error_analysis", JBool false)])
     /\ assoc "active_ai_service" config = Some (JStr "default"))
  /\ _load_config (Some (Parsed (JArr [])))
     = Raise (TypeError "'list' object is not a mapping").
Proof.
  destruct (load_config_shallow_merge sample_config_file (JArr [])) as (_ & _ & Hm & Hv).
  split.
  - destruct Hm as (config & Hc & Hk).
    + apply (bool_decide_unpack _). vm_compute. exact I.
    + exists config. split; [exact Hc|]. split; [apply (Hk "features")|apply (Hk "active_ai_service")].
  - apply Hv. discriminate.
Defined.
